(** * librepcb-parts-generator: entity serialisation, UUID cache, generators

    A shallow embedding of [entities/package.py], [generate_connectors.py]
    and [generate_led.py].

    - Python [str] values are [string]s (byte strings; the identifiers, keys
      and tokens of the program are ASCII).
    - Python [float]s are IEEE binary64 values, the kernel's [float].
    - A Python call either returns or raises: [result].
    - The scripts mutate a module-level dictionary [uuid_cache], draw random
      UUIDs, print and write files: all of that is threaded through a
      [World] in the state-and-exception monad [M]. *)

From Stdlib Require Import ZArith Floats Ascii String List Bool Lia.
From stdpp Require Import gmap strings list pretty sorting.

Set Warnings "-inexact-float".

(** ** Returning or raising *)

Inductive exception : Type :=
| ValueError (msg : string)
| ZeroDivisionError
| KeyError (key : string)
| FileExistsError (path : string)
| IsADirectoryError (path : string)
| FileNotFoundError (path : string)
| IndexError
| Raised (what : string).

Inductive result (A : Type) : Type :=
| Ok (a : A)
| Raise (e : exception).
Arguments Ok {A} a.
Arguments Raise {A} e.

Definition rbind {A B} (r : result A) (k : A -> result B) : result B :=
  match r with
  | Ok a => k a
  | Raise e => Raise e
  end.

Declare Scope result_scope.
Delimit Scope result_scope with res.
Notation "x <- r ;; k" := (rbind r (fun x => k))
  (at level 100, r at next level, right associativity) : result_scope.

(** [[f(x) for x in l]] for an [f] that may raise: the first exception wins. *)
Fixpoint rmap {A B} (f : A -> result B) (l : list A) : result (list B) :=
  match l with
  | [] => Ok []
  | x :: l' => (y <- f x ;; ys <- rmap f l' ;; Ok (y :: ys))%res
  end.

Definition is_Ok {A} (r : result A) : Prop := exists a, r = Ok a.

(** ** Python strings *)

Module PyStr.

Definition map_ascii (f : ascii -> ascii) : string -> string :=
  fix go s := match s with
              | EmptyString => EmptyString
              | String c s' => String (f c) (go s')
              end.

Definition is_upper (c : ascii) : bool :=
  (65 <=? nat_of_ascii c)%nat && (nat_of_ascii c <=? 90)%nat.

Definition is_lower (c : ascii) : bool :=
  (97 <=? nat_of_ascii c)%nat && (nat_of_ascii c <=? 122)%nat.

Definition lower_ascii (c : ascii) : ascii :=
  if is_upper c then ascii_of_nat (nat_of_ascii c + 32) else c.

Definition upper_ascii (c : ascii) : ascii :=
  if is_lower c then ascii_of_nat (nat_of_ascii c - 32) else c.

(** [s.lower()] and [s.upper()].  Bytes outside ASCII are left as they are:
    the Unicode case tables are not part of the program. *)
Definition lower : string -> string := map_ascii lower_ascii.
Definition upper : string -> string := map_ascii upper_ascii.

(** [s.replace(a, b)] for one-character [a] and [b]. *)
Definition replace_char (a b : ascii) : string -> string :=
  map_ascii (fun c => if Ascii.eqb c a then b else c).

(** [str(n)] for an [int]. *)
Definition of_int (n : Z) : string := pretty n.

(** [a < b] and [a == b] on [str]: lexicographic on code points, which on
    UTF-8 bytes is lexicographic on bytes. *)
Definition ltb (a b : string) : bool := String.ltb a b.
Definition eqb (a b : string) : bool := String.eqb a b.

(** ['sep'.join(l)]. *)
Fixpoint join (sep : string) (l : list string) : string :=
  match l with
  | [] => EmptyString
  | [x] => x
  | x :: l' => x +:+ sep +:+ join sep l'
  end.

Fixpoint concat (l : list string) : string :=
  match l with
  | [] => EmptyString
  | x :: l' => x +:+ concat l'
  end.

(** The line feed and the double quote. *)
Definition LF : string := String (ascii_of_nat 10) EmptyString.
Definition DQ : string := String (ascii_of_nat 34) EmptyString.

(** [s.splitlines()], line feeds only: a final line feed ends the last line
    and opens no empty one. *)
Fixpoint splitlines_aux (cur : string) (s : string) : list string :=
  match s with
  | EmptyString => if String.eqb cur EmptyString then [] else [cur]
  | String c s' =>
      if Ascii.eqb c (ascii_of_nat 10) then cur :: splitlines_aux EmptyString s'
      else splitlines_aux (cur +:+ String c EmptyString) s'
  end.
Definition splitlines (s : string) : list string := splitlines_aux EmptyString s.

Definition startswith (s p : string) : bool := String.prefix p s.

Definition endswith (s p : string) : bool :=
  let n := String.length s in
  let k := String.length p in
  (k <=? n)%nat && String.eqb (String.substring (n - k) k s) p.

End PyStr.

(** ** Python floats *)

Module PyFloat.
Open Scope float_scope.

(** [float(n)] for an [int] [n]: the nearest double, ties to even.  (Python
    raises [OverflowError] for an [int] beyond the doubles; the integers of
    the program are pin counts and literals such as [2] and [90].) *)
Definition of_int (n : Z) : float :=
  SF2Prim (binary_normalize prec emax n 0 false).

(** [round_half_even num den] is the integer nearest [num / den], ties to
    even, for [den > 0]. *)
Definition round_half_even (num den : Z) : Z :=
  let q := (num / den)%Z in
  let r := (num mod den)%Z in
  match (2 * r ?= den)%Z with
  | Lt => q
  | Gt => (q + 1)%Z
  | Eq => if Z.even q then q else (q + 1)%Z
  end.

(** The decimal [round(x, ndigits)] reads off [x], for finite non-zero [x]
    and [ndigits >= 0]: the integer [n] with [n / 10^ndigits] nearest the
    exact value of [abs x]. CPython gets it from its correctly rounded
    float-to-decimal conversion. *)
Definition decimal_digits (m : positive) (e : Z) (ndigits : Z) : Z :=
  let scale := (10 ^ ndigits)%Z in
  if (0 <=? e)%Z then (Z.pos m * 2 ^ e * scale)%Z
  else round_half_even (Z.pos m * scale) (2 ^ (- e)).

(** [round(x, ndigits)] for [ndigits >= 0]: the double nearest the rounded
    decimal, which CPython parses back with its correctly rounded
    decimal-to-float conversion; NaN, the infinities and the zeros round to
    themselves, and a value that rounds to zero keeps its sign. *)
Definition round (x : float) (ndigits : Z) : float :=
  match Prim2SF x with
  | S754_finite s m e =>
      match decimal_digits m e ndigits with
      | Z.pos n =>
          SF2Prim (SFdiv prec emax (S754_finite s n 0)
                         (S754_finite false (Z.to_pos (10 ^ ndigits)) 0))
      | _ => if s then PrimFloat.neg_zero else PrimFloat.zero
      end
  | _ => x
  end.

(** [max(a, b)] and [min(a, b)]: the first argument unless the second is
    strictly greater (smaller). *)
Definition max (a b : float) : float := if a <? b then b else a.
Definition min (a b : float) : float := if b <? a then b else a.

(** [a / b], which raises on a zero divisor. *)
Definition div (a b : float) : result float :=
  if b =? 0 then Raise ZeroDivisionError else Ok (a / b).

End PyFloat.

(** ** The world of a run *)

(** The file system, as far as the scripts touch it: the directories that
    exist and the regular files with their contents, by path. *)
Record FS : Type := {
  dirs : gset string;
  files : gmap string string;
}.

(** What a script run reads and changes:
    - [uuid_cache], the module-level dictionary loaded by [init_cache];
    - the random source behind [uuid4()]: [random n] is the text of the
      [n]-th UUID the run draws, [drawn] counts the draws made so far;
    - the clock behind [now()], in the same way;
    - the file system and the lines printed. *)
Record World : Type := {
  uuid_cache : gmap string string;
  random : nat -> string;
  drawn : nat;
  clock : nat -> string;
  ticks : nat;
  fs : FS;
  stdout : list string;
}.

Definition set_uuid_cache (c : gmap string string) (w : World) : World :=
  {| uuid_cache := c; random := random w; drawn := drawn w;
     clock := clock w; ticks := ticks w; fs := fs w; stdout := stdout w |}.
Definition set_drawn (n : nat) (w : World) : World :=
  {| uuid_cache := uuid_cache w; random := random w; drawn := n;
     clock := clock w; ticks := ticks w; fs := fs w; stdout := stdout w |}.
Definition set_ticks (n : nat) (w : World) : World :=
  {| uuid_cache := uuid_cache w; random := random w; drawn := drawn w;
     clock := clock w; ticks := n; fs := fs w; stdout := stdout w |}.
Definition set_fs (f : FS) (w : World) : World :=
  {| uuid_cache := uuid_cache w; random := random w; drawn := drawn w;
     clock := clock w; ticks := ticks w; fs := f; stdout := stdout w |}.
Definition set_stdout (o : list string) (w : World) : World :=
  {| uuid_cache := uuid_cache w; random := random w; drawn := drawn w;
     clock := clock w; ticks := ticks w; fs := fs w; stdout := o |}.

(** A statement of a script: from a world, a value or an exception, and the
    world it leaves.  An exception keeps the changes made before it. *)
Definition M (A : Type) : Type := World -> result A * World.

Definition ret {A} (a : A) : M A := fun w => (Ok a, w).
Definition raise {A} (e : exception) : M A := fun w => (Raise e, w).
Definition bind {A B} (m : M A) (k : A -> M B) : M B :=
  fun w => match m w with
           | (Ok a, w') => k a w'
           | (Raise e, w') => (Raise e, w')
           end.
Definition lift {A} (r : result A) : M A := fun w => (r, w).

Declare Scope M_scope.
Delimit Scope M_scope with M.
Bind Scope M_scope with M.
Notation "x <- m ;; k" := (bind m (fun x => k))
  (at level 100, m at next level, right associativity) : M_scope.
Notation "m ;; k" := (bind m (fun _ => k))
  (at level 100, right associativity) : M_scope.

(** [for x in l: body(x)]. *)
Fixpoint for_each {A} (l : list A) (body : A -> M unit) : M unit :=
  match l with
  | [] => ret tt
  | x :: l' => (body x ;; for_each l' body)%M
  end.

(** [[f(x) for x in l]]. *)
Fixpoint map_M {A B} (f : A -> M B) (l : list A) : M (list B) :=
  match l with
  | [] => ret []
  | x :: l' => (y <- f x ;; ys <- map_M f l' ;; ret (y :: ys))%M
  end.

(** *** The dictionary and the random source *)

(** [key in uuid_cache]. *)
Definition cache_contains (key : string) : M bool :=
  fun w => (Ok (bool_decide (is_Some (uuid_cache w !! key))), w).

(** [uuid_cache[key] = value]. *)
Definition cache_set (key value : string) : M unit :=
  fun w => (Ok tt, set_uuid_cache (<[key := value]> (uuid_cache w)) w).

(** [uuid_cache[key]], a [KeyError] when the key is absent. *)
Definition cache_get (key : string) : M string :=
  fun w => match uuid_cache w !! key with
           | Some u => (Ok u, w)
           | None => (Raise (KeyError key), w)
           end.

(** [str(uuid4())]: the next draw. *)
Definition uuid4 : M string :=
  fun w => (Ok (random w (drawn w)), set_drawn (S (drawn w)) w).

(** The clock's next reading, an ISO timestamp. *)
Definition clock_read : M string :=
  fun w => (Ok (clock w (ticks w)), set_ticks (S (ticks w)) w).

(** [print(line)]. *)
Definition print (line : string) : M unit :=
  fun w => (Ok tt, set_stdout (stdout w ++ [line]) w).

(** A call that acts on the file system only. *)
Definition on_fs {A} (f : FS -> result A * FS) : M A :=
  fun w => (fst (f (fs w)), set_fs (snd (f (fs w))) w).

(** [.lower().replace(' ', '~')], the normal form of a cache key. *)
Definition normalize_key (s : string) : string :=
  PyStr.replace_char " " "~" (PyStr.lower s).

(** A [str] is true when it is not empty. *)
Definition truthy (s : string) : bool := negb (String.eqb s EmptyString).

(** *** Paths and files ([os.path], [os.makedirs], [open]) *)

Module Path.

(** [path.join(a, b)]. *)
Definition join (a b : string) : string :=
  if PyStr.startswith b "/" then b
  else if String.eqb a EmptyString || PyStr.endswith a "/" then a +:+ b
  else a +:+ "/" +:+ b.

(** The directories above a path, outermost first: its non-empty prefixes
    that stop before a slash.  Paths are compared as they are written. *)
Fixpoint parents_aux (seen : string) (rest : string) : list string :=
  match rest with
  | EmptyString => []
  | String c rest' =>
      let here := if Ascii.eqb c "/" && negb (String.eqb seen EmptyString)
                  then [seen] else [] in
      here ++ parents_aux (seen +:+ String c EmptyString) rest'
  end.
Definition parents (p : string) : list string := parents_aux EmptyString p.

(** [path.exists(p)] and [path.isdir(p)]. *)
Definition exists_ (p : string) : M bool :=
  fun w => (Ok (bool_decide (p ∈ dirs (fs w)) ||
                bool_decide (is_Some (files (fs w) !! p))), w).
Definition isdir (p : string) : M bool :=
  fun w => (Ok (bool_decide (p ∈ dirs (fs w))), w).

(** [makedirs(p)]: creates [p] and the missing directories above it; raises
    when [p] exists already or a regular file is in the way. *)
Definition makedirs (p : string) : M unit :=
  fun w =>
    let f := fs w in
    if bool_decide (p ∈ dirs f) || bool_decide (is_Some (files f !! p))
    then (Raise (FileExistsError p), w)
    else match List.find (fun d => bool_decide (is_Some (files f !! d))) (parents p) with
         | Some d => (Raise (FileExistsError d), w)
         | None =>
             (Ok tt, set_fs {| dirs := dirs f ∪ list_to_set (parents p) ∪ {[p]};
                               files := files f |} w)
         end.

(** [open(p, 'w')]: creates the file or empties it; raises when [p] is a
    directory or the directory above it is missing. *)
Definition open_w (p : string) : M unit :=
  fun w =>
    let f := fs w in
    if bool_decide (p ∈ dirs f) then (Raise (IsADirectoryError p), w)
    else match last (parents p) with
         | Some d =>
             if bool_decide (d ∈ dirs f)
             then (Ok tt, set_fs {| dirs := dirs f; files := <[p := EmptyString]> (files f) |} w)
             else (Raise (FileNotFoundError p), w)
         | None =>
             (Ok tt, set_fs {| dirs := dirs f; files := <[p := EmptyString]> (files f) |} w)
         end.

(** [f.write(s)] on the file opened at [p]: appends. *)
Definition write (p s : string) : M unit :=
  fun w =>
    let f := fs w in
    (Ok tt, set_fs {| dirs := dirs f;
                      files := <[p := default EmptyString (files f !! p) +:+ s]> (files f) |} w).

End Path.

(** ** entities/common.py and entities/helper.py, as package.py uses them *)

(** The value classes of [entities.common]: what their constructors take,
    read off the calls in [generate_led.py].  Integer literals handed to a
    numeric field ([Rotation(90)], [Position(0, 0)]) are kept as the doubles
    they denote. *)
Record Name := { Name_value : string }.
Record Description := { Description_value : string }.
Record Keywords := { Keywords_value : string }.
Record Author := { Author_value : string }.
Record Version := { Version_value : string }.
Record Created := { Created_value : string }.
Record Deprecated := { Deprecated_value : bool }.
Record GeneratedBy := { GeneratedBy_value : string }.
Record Category := { Category_value : string }.
Record Layer := { Layer_value : string }.
Record Align := { Align_value : string }.
Record Value := { Value_value : string }.
Record Height := { Height_value : float }.
Record Width := { Width_value : float }.
Record Diameter := { Diameter_value : float }.
Record Angle := { Angle_value : float }.
Record Fill := { Fill_value : bool }.
Record GrabArea := { GrabArea_value : bool }.
Record Rotation := { Rotation_value : float }.
Record Position := { Position_x : float; Position_y : float }.
Record Position3D := { Position3D_x : float; Position3D_y : float; Position3D_z : float }.
Record Rotation3D := { Rotation3D_x : float; Rotation3D_y : float; Rotation3D_z : float }.
Record Vertex := { Vertex_position : Position; Vertex_angle : Angle }.

Record Polygon := {
  Polygon_uuid : string;
  Polygon_layer : Layer;
  Polygon_width : Width;
  Polygon_fill : Fill;
  Polygon_grab_area : GrabArea;
  Polygon_vertices : list Vertex;
}.

(** [Polygon(uuid, layer, width, fill, grab_area)]: no vertex yet. *)
Definition Polygon_new (uuid : string) (layer : Layer) (width : Width)
    (fill : Fill) (grab_area : GrabArea) : Polygon :=
  {| Polygon_uuid := uuid; Polygon_layer := layer; Polygon_width := width;
     Polygon_fill := fill; Polygon_grab_area := grab_area; Polygon_vertices := [] |}.

(** [polygon.add_vertex(vertex)]. *)
Definition Polygon_add_vertex (v : Vertex) (p : Polygon) : Polygon :=
  {| Polygon_uuid := Polygon_uuid p; Polygon_layer := Polygon_layer p;
     Polygon_width := Polygon_width p; Polygon_fill := Polygon_fill p;
     Polygon_grab_area := Polygon_grab_area p;
     Polygon_vertices := Polygon_vertices p ++ [v] |}.

Record Circle := {
  Circle_uuid : string;
  Circle_layer : Layer;
  Circle_width : Width;
  Circle_position : Position;
  Circle_diameter : Diameter;
  Circle_fill : Fill;
  Circle_grab_area : GrabArea;
}.

(** The base classes package.py derives from: a field name and a value. *)
Record EnumValue := { EnumValue_name : string; EnumValue_value : string }.
Record FloatValue := { FloatValue_name : string; FloatValue_value : float }.
Record BoolValue := { BoolValue_name : string; BoolValue_value : bool }.
Record UUIDValue := { UUIDValue_name : string; UUIDValue_value : string }.

(** What package.py imports and calls without defining it: [format_float]
    of [common], the [__str__] of every class of [entities.common], and the
    comparisons of [Name].  Any of them may raise. *)
Record Imports := {
  format_float : float -> result string;
  Name_str : Name -> result string;
  Name_eq : Name -> Name -> result bool;
  Name_lt : Name -> Name -> result bool;
  Description_str : Description -> result string;
  Keywords_str : Keywords -> result string;
  Author_str : Author -> result string;
  Version_str : Version -> result string;
  Created_str : Created -> result string;
  Deprecated_str : Deprecated -> result string;
  GeneratedBy_str : GeneratedBy -> result string;
  Category_str : Category -> result string;
  Layer_str : Layer -> result string;
  Height_str : Height -> result string;
  Align_str : Align -> result string;
  Value_str : Value -> result string;
  Position_str : Position -> result string;
  Rotation_str : Rotation -> result string;
  Position3D_str : Position3D -> result string;
  Rotation3D_str : Rotation3D -> result string;
  Vertex_str : Vertex -> result string;
  Polygon_str : Polygon -> result string;
  Circle_str : Circle -> result string;
  EnumValue_str : EnumValue -> result string;
  FloatValue_str : FloatValue -> result string;
  BoolValue_str : BoolValue -> result string;
  UUIDValue_str : UUIDValue -> result string;
}.

(** Modelled from the spec: [indent_entities] of [entities/helper.py] is not
    among the sources.  Section 4.4: each child entity's rendering is
    indented one level and newline-terminated relative to its parent.  The
    argument is the list of the children's renderings, in the order the
    helper is handed the children. *)
Definition indent_entity (rendered : string) : string :=
  PyStr.concat (map (fun line => " " +:+ line +:+ PyStr.LF) (PyStr.splitlines rendered)).
Definition indent_entities (rendered : list string) : string :=
  PyStr.concat (map indent_entity rendered).

(** [sorted(l)]: a stable sort that compares with [<] only. *)
Fixpoint insert_sorted {A} (lt : A -> A -> bool) (x : A) (l : list A) : list A :=
  match l with
  | [] => [x]
  | y :: l' => if lt y x then y :: insert_sorted lt x l' else x :: y :: l'
  end.
Definition sorted {A} (lt : A -> A -> bool) (l : list A) : list A :=
  foldr (insert_sorted lt) [] l.

(** ** entities/package.py *)

(** *** The enumerations: members, tokens and field names *)

Module AssemblyType.
Inductive t := NONE | THT | SMT | MIXED | OTHER | AUTO.
Definition value (x : t) : string :=
  match x with
  | NONE => "none" | THT => "tht" | SMT => "smt"
  | MIXED => "mixed" | OTHER => "other" | AUTO => "auto"
  end.
Definition get_name (x : t) : string := "assembly_type".
Definition enum (x : t) : EnumValue :=
  {| EnumValue_name := get_name x; EnumValue_value := value x |}.
End AssemblyType.

Module LetterSpacing.
Inductive t := AUTO.
Definition value (x : t) : string := match x with AUTO => "auto" end.
Definition get_name (x : t) : string := "letter_spacing".
Definition enum (x : t) : EnumValue :=
  {| EnumValue_name := get_name x; EnumValue_value := value x |}.
End LetterSpacing.

Module LineSpacing.
Inductive t := AUTO.
Definition value (x : t) : string := match x with AUTO => "auto" end.
Definition get_name (x : t) : string := "line_spacing".
Definition enum (x : t) : EnumValue :=
  {| EnumValue_name := get_name x; EnumValue_value := value x |}.
End LineSpacing.

Module ComponentSide.
Inductive t := TOP | BOTTOM.
Definition value (x : t) : string :=
  match x with TOP => "top" | BOTTOM => "bottom" end.
Definition get_name (x : t) : string := "side".
Definition enum (x : t) : EnumValue :=
  {| EnumValue_name := get_name x; EnumValue_value := value x |}.
End ComponentSide.

Module Shape.
Inductive t := ROUNDED_RECT | ROUNDED_OCTAGON | CUSTOM.
Definition value (x : t) : string :=
  match x with
  | ROUNDED_RECT => "roundrect" | ROUNDED_OCTAGON => "octagon" | CUSTOM => "custom"
  end.
Definition get_name (x : t) : string := "shape".
Definition enum (x : t) : EnumValue :=
  {| EnumValue_name := get_name x; EnumValue_value := value x |}.
End Shape.

Module StopMaskConfig.
Inductive t := AUTO | OFF.
Definition value (x : t) : string := match x with AUTO => "auto" | OFF => "off" end.
Definition get_name (x : t) : string := "stop_mask".
Definition enum (x : t) : EnumValue :=
  {| EnumValue_name := get_name x; EnumValue_value := value x |}.
End StopMaskConfig.

Module SolderPasteConfig.
Inductive t := AUTO | OFF.
Definition value (x : t) : string := match x with AUTO => "auto" | OFF => "off" end.
Definition get_name (x : t) : string := "solder_paste".
Definition enum (x : t) : EnumValue :=
  {| EnumValue_name := get_name x; EnumValue_value := value x |}.
End SolderPasteConfig.

Module PadFunction.
Inductive t :=
| UNSPECIFIED | STANDARD_PAD | PRESSFIT_PAD | THERMAL_PAD | BGA_PAD
| EDGE_CONNECTOR_PAD | TEST_PAD | LOCAL_FIDUCIAL | GLOBAL_FIDUCIAL.
Definition value (x : t) : string :=
  match x with
  | UNSPECIFIED => "unspecified" | STANDARD_PAD => "standard"
  | PRESSFIT_PAD => "pressfit" | THERMAL_PAD => "thermal" | BGA_PAD => "bga"
  | EDGE_CONNECTOR_PAD => "edge_connector" | TEST_PAD => "test"
  | LOCAL_FIDUCIAL => "local_fiducial" | GLOBAL_FIDUCIAL => "global_fiducial"
  end.
Definition get_name (x : t) : string := "function".
Definition enum (x : t) : EnumValue :=
  {| EnumValue_name := get_name x; EnumValue_value := value x |}.
End PadFunction.

(** *** The value classes of package.py *)

Definition StrokeWidth (stroke_width : float) : FloatValue :=
  {| FloatValue_name := "stroke_width"; FloatValue_value := stroke_width |}.
Definition ShapeRadius (radius_normalized : float) : FloatValue :=
  {| FloatValue_name := "radius"; FloatValue_value := radius_normalized |}.
Definition CopperClearance (clearance : float) : FloatValue :=
  {| FloatValue_name := "clearance"; FloatValue_value := clearance |}.
Definition DrillDiameter (diameter : float) : FloatValue :=
  {| FloatValue_name := "diameter"; FloatValue_value := diameter |}.
Definition AutoRotate (auto_rotate : bool) : BoolValue :=
  {| BoolValue_name := "auto_rotate"; BoolValue_value := auto_rotate |}.
Definition Mirror (mirror : bool) : BoolValue :=
  {| BoolValue_name := "mirror"; BoolValue_value := mirror |}.
Definition PackagePadUuid (package_pad : string) : UUIDValue :=
  {| UUIDValue_name := "package_pad"; UUIDValue_value := package_pad |}.

Record Size := { Size_width : float; Size_height : float }.

(** *** The entities *)

Record Package3DModel := {
  Package3DModel_uuid : string;
  Package3DModel_name : Name;
}.

Record Footprint3DModel := { Footprint3DModel_uuid : string }.

Record PackagePad := { PackagePad_uuid : string; PackagePad_name : Name }.

Record StrokeText := {
  StrokeText_uuid : string;
  StrokeText_layer : Layer;
  StrokeText_height : Height;
  StrokeText_stroke_width : FloatValue;
  StrokeText_letter_spacing : LetterSpacing.t;
  StrokeText_line_spacing : LineSpacing.t;
  StrokeText_align : Align;
  StrokeText_position : Position;
  StrokeText_rotation : Rotation;
  StrokeText_auto_rotate : BoolValue;
  StrokeText_mirror : BoolValue;
  StrokeText_value : Value;
}.

Record PadHole := {
  PadHole_uuid : string;
  PadHole_diameter : FloatValue;
  PadHole_vertices : list Vertex;
}.

Record FootprintPad := {
  FootprintPad_uuid : string;
  FootprintPad_side : ComponentSide.t;
  FootprintPad_shape : Shape.t;
  FootprintPad_position : Position;
  FootprintPad_rotation : Rotation;
  FootprintPad_size : Size;
  FootprintPad_radius : FloatValue;
  FootprintPad_stop_mask : StopMaskConfig.t;
  FootprintPad_solder_paste : SolderPasteConfig.t;
  FootprintPad_copper_clearance : FloatValue;
  FootprintPad_function : PadFunction.t;
  FootprintPad_package_pad : UUIDValue;
  FootprintPad_holes : list PadHole;
}.

Record Footprint := {
  Footprint_uuid : string;
  Footprint_name : Name;
  Footprint_description : Description;
  Footprint_position_3d : Position3D;
  Footprint_rotation_3d : Rotation3D;
  Footprint_pads : list FootprintPad;
  Footprint_models_3d : list Footprint3DModel;
  Footprint_polygons : list Polygon;
  Footprint_circles : list Circle;
  Footprint_texts : list StrokeText;
}.

Record Package := {
  Package_uuid : string;
  Package_name : Name;
  Package_description : Description;
  Package_keywords : Keywords;
  Package_author : Author;
  Package_version : Version;
  Package_created : Created;
  Package_deprecated : Deprecated;
  Package_generated_by : GeneratedBy;
  Package_categories : list Category;
  Package_assembly_type : AssemblyType.t;
  Package_pads : list PackagePad;
  Package_models_3d : list Package3DModel;
  Package_footprints : list Footprint;
  Package_approvals : list string;
}.

(** [Footprint(uuid, name, description, position_3d, rotation_3d)]: the
    five child lists start empty. *)
Definition Footprint_new (uuid : string) (name : Name) (description : Description)
    (position_3d : Position3D) (rotation_3d : Rotation3D) : Footprint :=
  {| Footprint_uuid := uuid; Footprint_name := name;
     Footprint_description := description;
     Footprint_position_3d := position_3d; Footprint_rotation_3d := rotation_3d;
     Footprint_pads := []; Footprint_models_3d := []; Footprint_polygons := [];
     Footprint_circles := []; Footprint_texts := [] |}.

Definition Footprint_add_pad (pad : FootprintPad) (f : Footprint) : Footprint :=
  {| Footprint_uuid := Footprint_uuid f; Footprint_name := Footprint_name f;
     Footprint_description := Footprint_description f;
     Footprint_position_3d := Footprint_position_3d f;
     Footprint_rotation_3d := Footprint_rotation_3d f;
     Footprint_pads := Footprint_pads f ++ [pad];
     Footprint_models_3d := Footprint_models_3d f;
     Footprint_polygons := Footprint_polygons f;
     Footprint_circles := Footprint_circles f;
     Footprint_texts := Footprint_texts f |}.

Definition Footprint_add_3d_model (model : Footprint3DModel) (f : Footprint) : Footprint :=
  {| Footprint_uuid := Footprint_uuid f; Footprint_name := Footprint_name f;
     Footprint_description := Footprint_description f;
     Footprint_position_3d := Footprint_position_3d f;
     Footprint_rotation_3d := Footprint_rotation_3d f;
     Footprint_pads := Footprint_pads f;
     Footprint_models_3d := Footprint_models_3d f ++ [model];
     Footprint_polygons := Footprint_polygons f;
     Footprint_circles := Footprint_circles f;
     Footprint_texts := Footprint_texts f |}.

Definition Footprint_add_polygon (polygon : Polygon) (f : Footprint) : Footprint :=
  {| Footprint_uuid := Footprint_uuid f; Footprint_name := Footprint_name f;
     Footprint_description := Footprint_description f;
     Footprint_position_3d := Footprint_position_3d f;
     Footprint_rotation_3d := Footprint_rotation_3d f;
     Footprint_pads := Footprint_pads f;
     Footprint_models_3d := Footprint_models_3d f;
     Footprint_polygons := Footprint_polygons f ++ [polygon];
     Footprint_circles := Footprint_circles f;
     Footprint_texts := Footprint_texts f |}.

Definition Footprint_add_circle (circle : Circle) (f : Footprint) : Footprint :=
  {| Footprint_uuid := Footprint_uuid f; Footprint_name := Footprint_name f;
     Footprint_description := Footprint_description f;
     Footprint_position_3d := Footprint_position_3d f;
     Footprint_rotation_3d := Footprint_rotation_3d f;
     Footprint_pads := Footprint_pads f;
     Footprint_models_3d := Footprint_models_3d f;
     Footprint_polygons := Footprint_polygons f;
     Footprint_circles := Footprint_circles f ++ [circle];
     Footprint_texts := Footprint_texts f |}.

Definition Footprint_add_text (text : StrokeText) (f : Footprint) : Footprint :=
  {| Footprint_uuid := Footprint_uuid f; Footprint_name := Footprint_name f;
     Footprint_description := Footprint_description f;
     Footprint_position_3d := Footprint_position_3d f;
     Footprint_rotation_3d := Footprint_rotation_3d f;
     Footprint_pads := Footprint_pads f;
     Footprint_models_3d := Footprint_models_3d f;
     Footprint_polygons := Footprint_polygons f;
     Footprint_circles := Footprint_circles f;
     Footprint_texts := Footprint_texts f ++ [text] |}.

(** [Package(uuid, ..., assembly_type)]: the four child lists start empty. *)
Definition Package_new (uuid : string) (name : Name) (description : Description)
    (keywords : Keywords) (author : Author) (version : Version)
    (created : Created) (deprecated : Deprecated) (generated_by : GeneratedBy)
    (categories : list Category) (assembly_type : AssemblyType.t) : Package :=
  {| Package_uuid := uuid; Package_name := name;
     Package_description := description; Package_keywords := keywords;
     Package_author := author; Package_version := version;
     Package_created := created; Package_deprecated := deprecated;
     Package_generated_by := generated_by; Package_categories := categories;
     Package_assembly_type := assembly_type;
     Package_pads := []; Package_models_3d := []; Package_footprints := [];
     Package_approvals := [] |}.

(** The four child lists of a package replaced, the rest kept. *)
Definition Package_with_children (p : Package) (pads : list PackagePad)
    (models_3d : list Package3DModel) (footprints : list Footprint)
    (approvals : list string) : Package :=
  {| Package_uuid := Package_uuid p; Package_name := Package_name p;
     Package_description := Package_description p;
     Package_keywords := Package_keywords p; Package_author := Package_author p;
     Package_version := Package_version p; Package_created := Package_created p;
     Package_deprecated := Package_deprecated p;
     Package_generated_by := Package_generated_by p;
     Package_categories := Package_categories p;
     Package_assembly_type := Package_assembly_type p;
     Package_pads := pads; Package_models_3d := models_3d;
     Package_footprints := footprints; Package_approvals := approvals |}.

Definition Package_add_pad (pad : PackagePad) (p : Package) : Package :=
  Package_with_children p (Package_pads p ++ [pad]) (Package_models_3d p)
    (Package_footprints p) (Package_approvals p).

Definition Package_add_footprint (footprint : Footprint) (p : Package) : Package :=
  Package_with_children p (Package_pads p) (Package_models_3d p)
    (Package_footprints p ++ [footprint]) (Package_approvals p).

Definition Package_add_3d_model (model : Package3DModel) (p : Package) : Package :=
  Package_with_children p (Package_pads p) (Package_models_3d p ++ [model])
    (Package_footprints p) (Package_approvals p).

Definition Package_add_approval (approval : string) (p : Package) : Package :=
  Package_with_children p (Package_pads p) (Package_models_3d p)
    (Package_footprints p) (Package_approvals p ++ [approval]).

Section PackagePy.
Variable I : Imports.
Open Scope result_scope.

(** [Package3DModel]: [__str__], [__eq__], [__lt__]. *)
Definition Package3DModel_str (m : Package3DModel) : result string :=
  name <- Name_str I (Package3DModel_name m) ;;
  Ok (PyStr.concat ["(3d_model "; Package3DModel_uuid m; " "; name; ")"; PyStr.LF]).

Definition Package3DModel_eq (a b : Package3DModel) : result bool :=
  if PyStr.eqb (Package3DModel_uuid a) (Package3DModel_uuid b)
  then Name_eq I (Package3DModel_name a) (Package3DModel_name b)
  else Ok false.

Definition Package3DModel_lt (a b : Package3DModel) : result bool :=
  if PyStr.eqb (Package3DModel_uuid a) (Package3DModel_uuid b)
  then Name_lt I (Package3DModel_name a) (Package3DModel_name b)
  else Ok (PyStr.ltb (Package3DModel_uuid a) (Package3DModel_uuid b)).

(** [Footprint3DModel]: [__str__], [__eq__], [__lt__]. *)
Definition Footprint3DModel_str (m : Footprint3DModel) : result string :=
  Ok (PyStr.concat ["(3d_model "; Footprint3DModel_uuid m; ")"; PyStr.LF]).

Definition Footprint3DModel_eq (a b : Footprint3DModel) : bool :=
  PyStr.eqb (Footprint3DModel_uuid a) (Footprint3DModel_uuid b).

Definition Footprint3DModel_lt (a b : Footprint3DModel) : bool :=
  PyStr.ltb (Footprint3DModel_uuid a) (Footprint3DModel_uuid b).

Definition PackagePad_str (p : PackagePad) : result string :=
  name <- Name_str I (PackagePad_name p) ;;
  Ok (PyStr.concat ["(pad "; PackagePad_uuid p; " "; name; ")"]).

Definition StrokeText_str (t : StrokeText) : result string :=
  layer <- Layer_str I (StrokeText_layer t) ;;
  height <- Height_str I (StrokeText_height t) ;;
  stroke_width <- FloatValue_str I (StrokeText_stroke_width t) ;;
  letter_spacing <- EnumValue_str I (LetterSpacing.enum (StrokeText_letter_spacing t)) ;;
  line_spacing <- EnumValue_str I (LineSpacing.enum (StrokeText_line_spacing t)) ;;
  align <- Align_str I (StrokeText_align t) ;;
  position <- Position_str I (StrokeText_position t) ;;
  rotation <- Rotation_str I (StrokeText_rotation t) ;;
  auto_rotate <- BoolValue_str I (StrokeText_auto_rotate t) ;;
  mirror <- BoolValue_str I (StrokeText_mirror t) ;;
  value <- Value_str I (StrokeText_value t) ;;
  Ok (PyStr.concat
        ["(stroke_text "; StrokeText_uuid t; " "; layer; PyStr.LF;
         " "; height; " "; stroke_width; " "; letter_spacing; " "; line_spacing; PyStr.LF;
         " "; align; " "; position; " "; rotation; PyStr.LF;
         " "; auto_rotate; " "; mirror; " "; value; PyStr.LF; ")"]).

Definition Size_str (s : Size) : result string :=
  width <- format_float I (Size_width s) ;;
  height <- format_float I (Size_height s) ;;
  Ok (PyStr.concat ["(size "; width; " "; height; ")"]).

Definition PadHole_str (h : PadHole) : result string :=
  diameter <- FloatValue_str I (PadHole_diameter h) ;;
  vertices <- rmap (Vertex_str I) (PadHole_vertices h) ;;
  Ok (PyStr.concat
        ["(hole "; PadHole_uuid h; " "; diameter; PyStr.LF;
         indent_entities vertices; ")"]).

Definition FootprintPad_str (p : FootprintPad) : result string :=
  side <- EnumValue_str I (ComponentSide.enum (FootprintPad_side p)) ;;
  shape <- EnumValue_str I (Shape.enum (FootprintPad_shape p)) ;;
  position <- Position_str I (FootprintPad_position p) ;;
  rotation <- Rotation_str I (FootprintPad_rotation p) ;;
  size <- Size_str (FootprintPad_size p) ;;
  radius <- FloatValue_str I (FootprintPad_radius p) ;;
  stop_mask <- EnumValue_str I (StopMaskConfig.enum (FootprintPad_stop_mask p)) ;;
  solder_paste <- EnumValue_str I (SolderPasteConfig.enum (FootprintPad_solder_paste p)) ;;
  copper_clearance <- FloatValue_str I (FootprintPad_copper_clearance p) ;;
  function <- EnumValue_str I (PadFunction.enum (FootprintPad_function p)) ;;
  package_pad <- UUIDValue_str I (FootprintPad_package_pad p) ;;
  holes <- rmap PadHole_str (FootprintPad_holes p) ;;
  Ok (PyStr.concat
        ["(pad "; FootprintPad_uuid p; " "; side; " "; shape; PyStr.LF;
         " "; position; " "; rotation; " "; size; " "; radius; PyStr.LF;
         " "; stop_mask; " "; solder_paste; " "; copper_clearance; " "; function; PyStr.LF;
         " "; package_pad; PyStr.LF;
         indent_entities holes; ")"]).

Definition Footprint_str (f : Footprint) : result string :=
  name <- Name_str I (Footprint_name f) ;;
  description <- Description_str I (Footprint_description f) ;;
  position_3d <- Position3D_str I (Footprint_position_3d f) ;;
  rotation_3d <- Rotation3D_str I (Footprint_rotation_3d f) ;;
  models_3d <- rmap Footprint3DModel_str
                 (sorted Footprint3DModel_lt (Footprint_models_3d f)) ;;
  pads <- rmap FootprintPad_str (Footprint_pads f) ;;
  polygons <- rmap (Polygon_str I) (Footprint_polygons f) ;;
  circles <- rmap (Circle_str I) (Footprint_circles f) ;;
  texts <- rmap StrokeText_str (Footprint_texts f) ;;
  Ok (PyStr.concat
        ["(footprint "; Footprint_uuid f; PyStr.LF;
         " "; name; PyStr.LF;
         " "; description; PyStr.LF;
         " "; position_3d; " "; rotation_3d; PyStr.LF;
         indent_entities models_3d;
         indent_entities pads;
         indent_entities polygons;
         indent_entities circles;
         indent_entities texts;
         ")"]).

Definition Package_str (p : Package) : result string :=
  name <- Name_str I (Package_name p) ;;
  description <- Description_str I (Package_description p) ;;
  keywords <- Keywords_str I (Package_keywords p) ;;
  author <- Author_str I (Package_author p) ;;
  version <- Version_str I (Package_version p) ;;
  created <- Created_str I (Package_created p) ;;
  deprecated <- Deprecated_str I (Package_deprecated p) ;;
  generated_by <- GeneratedBy_str I (Package_generated_by p) ;;
  categories <- rmap (Category_str I) (Package_categories p) ;;
  assembly_type <- EnumValue_str I (AssemblyType.enum (Package_assembly_type p)) ;;
  pads <- rmap PackagePad_str (Package_pads p) ;;
  models_3d <- rmap Package3DModel_str (Package_models_3d p) ;;
  footprints <- rmap Footprint_str (Package_footprints p) ;;
  Ok (PyStr.concat
        ["(librepcb_package "; Package_uuid p; PyStr.LF;
         " "; name; PyStr.LF;
         " "; description; PyStr.LF;
         " "; keywords; PyStr.LF;
         " "; author; PyStr.LF;
         " "; version; PyStr.LF;
         " "; created; PyStr.LF;
         " "; deprecated; PyStr.LF;
         " "; generated_by; PyStr.LF;
         PyStr.concat (map (fun cat => " " +:+ cat +:+ PyStr.LF) categories);
         " "; assembly_type; PyStr.LF;
         indent_entities pads;
         indent_entities models_3d;
         indent_entities footprints;
         indent_entities (sorted PyStr.ltb (Package_approvals p));
         ")"]).

(** [package.serialize(output_directory)]. *)
Definition Package_serialize (p : Package) (output_directory : string) : M unit :=
  (let dir_path := Path.join output_directory (Package_uuid p) in
   e <- Path.exists_ dir_path ;;
   d <- (if e : bool then Path.isdir dir_path else ret false) ;;
   (if negb (e && d) then Path.makedirs dir_path else ret tt) ;;
   (let marker := Path.join dir_path ".librepcb-pkg" in
    Path.open_w marker ;;
    Path.write marker ("1" +:+ PyStr.LF)) ;;
   (let document := Path.join dir_path "package.lp" in
    Path.open_w document ;;
    text <- lift (Package_str p) ;;
    Path.write document text ;;
    Path.write document PyStr.LF))%M.

End PackagePy.

(** ** generate_connectors.py: pad geometry *)

Module Connectors.
Open Scope float_scope.

Definition min_pads : Z := 1.
Definition max_pads : Z := 40.
Definition width : float := 2.54.
Definition top : float := 1.5.
Definition spacing : float := 2.54.
Definition pad_drill : float := 1.0.
Definition pad_size : float * float := (2.54, 1.27).
Definition line_width : float := 0.25.

(** [get_y(pin_number, pin_count, spacing)]. *)
Definition get_y (pin_number pin_count : Z) (spacing : float) : float :=
  let mid := ((pin_count + 1) / 2)%Z in
  let even := (pin_count mod 2 =? 0)%Z in
  let offset := if even then spacing / 2 else PyFloat.of_int 0 in
  PyFloat.round
    (PyFloat.of_int pin_number * spacing - PyFloat.of_int mid * spacing - offset) 2.

(** [get_rectangle_height(pin_count, spacing, top)]. *)
Definition get_rectangle_height (pin_count : Z) (spacing top : float) : float :=
  PyFloat.of_int (pin_count - 1) / 2 * spacing + top.

(** [uuid(typ, pin_number, identifier=None)]. *)
Definition uuid_key (typ : string) (pin_number : Z) (identifier : option string) : string :=
  match identifier with
  | Some i =>
      if truthy i
      then normalize_key (PyStr.concat [typ; "-1x"; PyStr.of_int pin_number; "-"; i])
      else normalize_key (PyStr.concat [typ; "-1x"; PyStr.of_int pin_number])
  | None => normalize_key (PyStr.concat [typ; "-1x"; PyStr.of_int pin_number])
  end.

Definition uuid (typ : string) (pin_number : Z) (identifier : option string) : M string :=
  (let key := uuid_key typ pin_number identifier in
   known <- cache_contains key ;;
   (if negb known then (fresh <- uuid4 ;; cache_set key fresh) else ret tt) ;;
   cache_get key)%M.

Definition generator : string := "librepcb-parts-generator (generate_connectors.py)".
Definition pkgcat_pin_headers : string := "f8be0636-474e-41ea-8340-05caf137596c".
Definition pkgcat_socket_strips : string := "3fe529fe-b8b1-489b-beae-da54e01c9b20".

(** [now()]: [datetime.utcnow().isoformat() + 'Z']. *)
Definition now : M string := (t <- clock_read ;; ret (t +:+ "Z"))%M.

Section Generate.
(** [str(x)] of a [float], as ['{}'.format(x)] renders it. *)
Variable float_str : float -> string.

(** One turn of the loop of [generate(dirpath)], for [i] pins. *)
Definition generate_one (dirpath : string) (i : Z) : M unit :=
  (pkg_uuid <- uuid "pkg" i None ;;
   created <- now ;;
   let head :=
     [ "(librepcb_package " +:+ pkg_uuid;
       PyStr.concat [" (name "; PyStr.DQ; "Socket Strip "; float_str spacing; "mm 1x";
                     PyStr.of_int i; PyStr.DQ; ")"];
       PyStr.concat [" (description "; PyStr.DQ; "A 1x"; PyStr.of_int i;
                     " socket strip with "; float_str spacing; "mm pin spacing.\n\n";
                     "Generated with "; generator; PyStr.DQ; ")"];
       PyStr.concat [" (keywords "; PyStr.DQ; "connector, socket strip, 1x";
                     PyStr.of_int i; PyStr.DQ; ")"];
       PyStr.concat [" (author "; PyStr.DQ; "LibrePCB"; PyStr.DQ; ")"];
       PyStr.concat [" (version "; PyStr.DQ; "0.1"; PyStr.DQ; ")"];
       PyStr.concat [" (created "; created; ")"];
       " (deprecated false)";
       PyStr.concat [" (category "; pkgcat_socket_strips; ")"] ] in
   pad_uuids <- map_M (fun p => uuid "pad" i (Some (PyStr.of_int p))) (seqZ 0 i) ;;
   package_pads <-
     map_M (fun j =>
              match pad_uuids !! Z.to_nat (j - 1) with
              | Some u => ret (PyStr.concat [" (pad "; u; " (name "; PyStr.DQ;
                                             PyStr.of_int j; PyStr.DQ; "))"])
              | None => raise IndexError
              end) (seqZ 1 i) ;;
   footprint_uuid <- uuid "footprint" i (Some "default") ;;
   let footprint_head :=
     [ " (footprint " +:+ footprint_uuid;
       PyStr.concat ["  (name "; PyStr.DQ; "default"; PyStr.DQ; ")"];
       PyStr.concat ["  (description "; PyStr.DQ; PyStr.DQ; ")"] ] in
   footprint_pads <-
     map_M (fun j =>
              let y := get_y j i spacing in
              match pad_uuids !! Z.to_nat (j - 1) with
              | Some u =>
                  ret [ PyStr.concat ["  (pad "; u; " (side tht) (shape round)"];
                        PyStr.concat ["   (pos 0.0 "; float_str y; ") (rot 0.0) (size ";
                                      float_str (fst pad_size); " "; float_str (snd pad_size);
                                      ") (drill "; float_str pad_drill; ")"];
                        "  )" ]
              | None => raise IndexError
              end) (seqZ 1 i) ;;
   contour_uuid <- uuid "polygon" i (Some "contour") ;;
   let height := get_rectangle_height i spacing top in
   let contour :=
     [ PyStr.concat ["  (polygon "; contour_uuid; " (layer top_placement)"];
       PyStr.concat ["   (width "; float_str line_width; ") (fill false) (grab true)"];
       PyStr.concat ["   (vertex (pos -1.27 "; float_str height; ") (angle 0.0))"];
       PyStr.concat ["   (vertex (pos 1.27 "; float_str height; ") (angle 0.0))"];
       PyStr.concat ["   (vertex (pos 1.27 -"; float_str height; ") (angle 0.0))"];
       PyStr.concat ["   (vertex (pos -1.27 -"; float_str height; ") (angle 0.0))"];
       PyStr.concat ["   (vertex (pos -1.27 "; float_str height; ") (angle 0.0))"];
       "  )" ] in
   pin1mark <-
     (if (2 <? i)%Z
      then (mark_uuid <- uuid "polygon" i (Some "pin1mark") ;;
            let y_pin0_marker := height - spacing / 2 - top in
            ret [ PyStr.concat ["  (polygon "; mark_uuid; " (layer top_placement)"];
                  PyStr.concat ["   (width "; float_str line_width; ") (fill false) (grab true)"];
                  PyStr.concat ["   (vertex (pos -1.27 -"; float_str y_pin0_marker; ") (angle 0.0))"];
                  PyStr.concat ["   (vertex (pos 1.27 -"; float_str y_pin0_marker; ") (angle 0.0))"];
                  "  )" ])
      else ret []) ;;
   let lines := head ++ package_pads ++ footprint_head ++ List.concat footprint_pads
                     ++ contour ++ pin1mark ++ [" )"; ")"] in
   let pkg_dir_path := Path.join dirpath pkg_uuid in
   e <- Path.exists_ pkg_dir_path ;;
   d <- (if e : bool then Path.isdir pkg_dir_path else ret false) ;;
   (if negb (e && d) then Path.makedirs pkg_dir_path else ret tt) ;;
   (let marker := Path.join pkg_dir_path ".librepcb-pkg" in
    Path.open_w marker ;;
    Path.write marker ("0.1" +:+ PyStr.LF)) ;;
   (let document := Path.join pkg_dir_path "package.lp" in
    Path.open_w document ;;
    Path.write document (PyStr.join PyStr.LF lines) ;;
    Path.write document PyStr.LF) ;;
   print (PyStr.concat ["1x"; PyStr.of_int i; ": Wrote package "; pkg_uuid]))%M.

(** [generate(dirpath)]. *)
Definition generate (dirpath : string) : M unit :=
  for_each (seqZ min_pads (max_pads + 1 - min_pads)) (generate_one dirpath).

End Generate.

End Connectors.

(** ** entities/device.py and entities/component.py, as generate_led.py uses them *)

Record ComponentUUID := { ComponentUUID_value : string }.
Record PackageUUID := { PackageUUID_value : string }.
Record SignalUUID := { SignalUUID_value : string }.

Record ComponentPad := {
  ComponentPad_pad_uuid : string;
  ComponentPad_signal : SignalUUID;
}.

Record Device := {
  Device_uuid : string;
  Device_name : Name;
  Device_description : Description;
  Device_keywords : Keywords;
  Device_author : Author;
  Device_version : Version;
  Device_created : Created;
  Device_deprecated : Deprecated;
  Device_generated_by : GeneratedBy;
  Device_categories : list Category;
  Device_component_uuid : ComponentUUID;
  Device_package_uuid : PackageUUID;
  Device_pads : list ComponentPad;
}.

(** [device.add_pad(pad)]: appends, as the containers of package.py do. *)
Definition Device_add_pad (pad : ComponentPad) (d : Device) : Device :=
  {| Device_uuid := Device_uuid d; Device_name := Device_name d;
     Device_description := Device_description d;
     Device_keywords := Device_keywords d; Device_author := Device_author d;
     Device_version := Device_version d; Device_created := Device_created d;
     Device_deprecated := Device_deprecated d;
     Device_generated_by := Device_generated_by d;
     Device_categories := Device_categories d;
     Device_component_uuid := Device_component_uuid d;
     Device_package_uuid := Device_package_uuid d;
     Device_pads := Device_pads d ++ [pad] |}.

(** ** generate_led.py *)

Module Led.
Open Scope float_scope.

Definition GENERATOR_NAME : string := "librepcb-parts-generator (generate_led.py)".

Definition lead_width : float := 0.5.
Definition pad_drill : float := 0.8.
Definition default_line_width : float := 0.2.
Definition pkg_text_height : float := 1.0.

(** [uuid(category, full_name, identifier)]. *)
Definition uuid_key (category full_name identifier : string) : string :=
  normalize_key (PyStr.concat [category; "-"; full_name; "-"; identifier]).

Definition uuid (category full_name identifier : string) : M string :=
  (let key := uuid_key category full_name identifier in
   known <- cache_contains key ;;
   (if negb known then (fresh <- uuid4 ;; cache_set key fresh) else ret tt) ;;
   cache_get key)%M.

(** [now()] of the [common] module, which is not among the sources: some
    reading of the clock. *)
Definition now : M string := clock_read.

Record LedConfig := {
  top_diameter : float;
  bot_diameter : float;
  lead_spacing : float;
  body_height : float;
  standoff : float;
  standoff_in_name : bool;
  body_color : string;
  pkg_name : string;
  pkg_description : string;
  dev_name : string;
  dev_description : string;
}.

(** The diameter sign of [dev_name], U+2300, in UTF-8. *)
Definition DIAMETER_SIGN : string :=
  String (ascii_of_nat 226) (String (ascii_of_nat 140) (String (ascii_of_nat 128) EmptyString)).

(** [Vertex(Position(x, y), Angle(angle))]. *)
Definition vertex (x y angle : float) : Vertex :=
  {| Vertex_position := {| Position_x := x; Position_y := y |};
     Vertex_angle := {| Angle_value := angle |} |}.

(** A run of [polygon.add_vertex(v)] calls. *)
Definition add_vertices (vs : list Vertex) (p : Polygon) : Polygon :=
  fold_left (fun p v => Polygon_add_vertex v p) vs p.

(** The footprint object is shared: after [package.add_footprint(footprint)]
    the local variable [footprint] and the last element of
    [package.footprints] are one object, so [footprint.add_x(e)] is a change
    of that last element. *)
Fixpoint update_last {A} (f : A -> A) (l : list A) : list A :=
  match l with
  | [] => []
  | [x] => [f x]
  | x :: l' => x :: update_last f l'
  end.
Definition on_footprint (f : Footprint -> Footprint) (package : Package) : Package :=
  Package_with_children package (Package_pads package) (Package_models_3d package)
    (update_last f (Package_footprints package)) (Package_approvals package).

(** [math.sqrt(x)]: the correctly rounded root, a [ValueError] below zero. *)
Definition sqrt (x : float) : result float :=
  if x <? 0 then Raise (ValueError "math domain error") else Ok (PrimFloat.sqrt x).

Section Generate.

(** From outside the sources: the serialisers package.py imports,
    [format_ipc_dimension] of [common], the float formatting and arithmetic
    of the Python runtime that IEEE 754 does not fix, and
    [Device.serialize], which like [Package.serialize] writes files: it
    acts on the file system. *)
Variable I : Imports.
Variable fd : float -> result string.
Variable format_2f : float -> string.
Variable float_str : float -> string.
Variable asin acos : float -> result float.
Variable degrees : float -> float.
Variable pow : float -> float -> result float.
Variable Device_serialize : Device -> string -> FS -> result unit * FS.

(** [LedConfig(top_diameter, ..., body_color)]. *)
Definition LedConfig_init (top_diameter bot_diameter lead_spacing body_height
    standoff : float) (standoff_in_name : bool) (body_color : string)
    : result LedConfig :=
  (fd_top <- fd top_diameter ;;
   fd_height <- fd body_height ;;
   fd_spacing <- fd lead_spacing ;;
   standoff_option <-
     (if standoff_in_name then (s <- fd standoff ;; Ok ("S" +:+ s)) else Ok EmptyString) ;;
   let pkg_name :=
     PyStr.concat ["LED-THT-P"; fd_spacing; "D"; fd_top; "H"; fd_height;
                   standoff_option; "-"; PyStr.upper body_color] in
   let pkg_description :=
     PyStr.concat
       ["Generic through-hole LED with "; format_2f top_diameter; " mm";
        " body diameter."; PyStr.LF; PyStr.LF;
        "Body height: "; format_2f body_height; " mm."; PyStr.LF;
        "Lead spacing: "; format_2f lead_spacing; " mm."; PyStr.LF;
        "Standoff: "; format_2f standoff; " mm."; PyStr.LF;
        "Body color: "; body_color; ".";
        PyStr.LF; PyStr.LF; "Generated with "; GENERATOR_NAME] in
   let dev_name :=
     PyStr.concat
       ["LED "; DIAMETER_SIGN; float_str top_diameter; "x"; float_str body_height;
        (if standoff_in_name then "+" +:+ float_str standoff else EmptyString);
        "/"; float_str lead_spacing; "mm "; body_color] in
   Ok {| top_diameter := top_diameter; bot_diameter := bot_diameter;
         lead_spacing := lead_spacing; body_height := body_height;
         standoff := standoff; standoff_in_name := standoff_in_name;
         body_color := body_color;
         pkg_name := pkg_name; pkg_description := pkg_description;
         dev_name := dev_name; dev_description := pkg_description |})%res.

(** The two text labels of a footprint differ in five arguments. *)
Definition stroke_text (uuid layer align : string) (x y : float) (value : string)
    : StrokeText :=
  {| StrokeText_uuid := uuid;
     StrokeText_layer := {| Layer_value := layer |};
     StrokeText_height := {| Height_value := 1.0 |};
     StrokeText_stroke_width := StrokeWidth 0.2;
     StrokeText_letter_spacing := LetterSpacing.AUTO;
     StrokeText_line_spacing := LineSpacing.AUTO;
     StrokeText_align := {| Align_value := align |};
     StrokeText_position := {| Position_x := x; Position_y := y |};
     StrokeText_rotation := {| Rotation_value := 0.0 |};
     StrokeText_auto_rotate := AutoRotate true;
     StrokeText_mirror := Mirror false;
     StrokeText_value := {| Value_value := value |} |}.

(** [Polygon(uuid, Layer(layer), Width(width), Fill(fill), GrabArea(False))]. *)
Definition polygon_new (uuid layer : string) (width : float) (fill : bool) : Polygon :=
  Polygon_new uuid {| Layer_value := layer |} {| Width_value := width |}
    {| Fill_value := fill |} {| GrabArea_value := false |}.

Section PerConfig.
Variable config : LedConfig.

Definition category_pkg : string := "pkg".

Definition is_small : bool := top_diameter config <? 5.

Definition _uuid (identifier : string) : M string :=
  uuid category_pkg (pkg_name config) identifier.

(** One turn of [for pad, factor in [('a', 1), ('c', -1)]] in
    [_add_footprint]. *)
Definition _add_footprint_pad (pad_size : Size) (package : Package)
    (pad : string) (factor : float) : M Package :=
  (pad_uuid <- _uuid ("pad-" +:+ pad) ;;
   ret (on_footprint
          (Footprint_add_pad
             {| FootprintPad_uuid := pad_uuid;
                FootprintPad_side := ComponentSide.TOP;
                FootprintPad_shape := Shape.ROUNDED_RECT;
                FootprintPad_position :=
                  {| Position_x := lead_spacing config / 2 * factor; Position_y := 0 |};
                FootprintPad_rotation := {| Rotation_value := 90 |};
                FootprintPad_size := pad_size;
                FootprintPad_radius :=
                  ShapeRadius (if String.eqb pad "c" then 0.0 else 1.0);
                FootprintPad_stop_mask := StopMaskConfig.AUTO;
                FootprintPad_solder_paste := SolderPasteConfig.OFF;
                FootprintPad_copper_clearance := CopperClearance 0.0;
                FootprintPad_function := PadFunction.UNSPECIFIED;
                FootprintPad_package_pad := PackagePadUuid pad_uuid;
                FootprintPad_holes :=
                  [ {| PadHole_uuid := pad_uuid;
                       PadHole_diameter := DrillDiameter pad_drill;
                       PadHole_vertices := [vertex 0.0 0.0 0.0] |} ] |})
          package))%M.

(** [_add_footprint(package, name, identifier_suffix, pad_size)].  The
    footprint it returns is the last one of the package it returns. *)
Definition _add_footprint (package : Package) (name : Name)
    (identifier_suffix : string) (pad_size : Size) : M Package :=
  (footprint_uuid <- _uuid ("footprint" +:+ identifier_suffix) ;;
   let footprint :=
     Footprint_new footprint_uuid name {| Description_value := EmptyString |}
       {| Position3D_x := 0.0; Position3D_y := 0.0; Position3D_z := 0.0 |}
       {| Rotation3D_x := 0.0; Rotation3D_y := 0.0; Rotation3D_z := 0.0 |} in
   let package := Package_add_footprint footprint package in
   package <- _add_footprint_pad pad_size package "a" 1 ;;
   package <- _add_footprint_pad pad_size package "c" (-1) ;;
   ret package)%M.

(** One turn of [for y, suffix in [(y, '-top'), (-y, '-bot')]]. *)
Definition _add_reduced_part (package : Package) (identifier layer : string)
    (inner_radius line_width angle : float) (y : float) (suffix : string) : M Package :=
  (polygon_uuid <- _uuid (identifier +:+ suffix) ;;
   let polygon := polygon_new polygon_uuid layer line_width false in
   let polygon :=
     add_vertices
       [ vertex inner_radius y (if 0 <? y then angle else - angle);
         vertex (- inner_radius) y 0;
         vertex (- inner_radius) (y * 0.80) 0 ] polygon in
   ret (on_footprint (Footprint_add_polygon polygon) package))%M.

(** [_add_flattened_circle(footprint, identifier, layer, outer_radius,
    inner_radius, line_width, reduced=False)]. *)
Definition _add_flattened_circle (package : Package) (identifier layer : string)
    (outer_radius inner_radius line_width : float) (reduced : bool) : M Package :=
  (if outer_radius =? inner_radius
   then
     circle_uuid <- _uuid identifier ;;
     ret (on_footprint
            (Footprint_add_circle
               {| Circle_uuid := circle_uuid;
                  Circle_layer := {| Layer_value := layer |};
                  Circle_width := {| Width_value := line_width |};
                  Circle_position := {| Position_x := 0; Position_y := 0 |};
                  Circle_diameter := {| Diameter_value := outer_radius * 2 |};
                  Circle_fill := {| Fill_value := false |};
                  Circle_grab_area := {| GrabArea_value := false |} |})
            package)
   else
     outer_sq <- lift (pow outer_radius 2) ;;
     inner_sq <- lift (pow inner_radius 2) ;;
     y <- lift (sqrt (outer_sq - inner_sq)) ;;
     angle <-
       (if reduced
        then (q <- lift (PyFloat.div inner_radius outer_radius) ;;
              a <- lift (asin q) ;;
              ret (degrees (2 * a)))
        else (q <- lift (PyFloat.div inner_radius outer_radius) ;;
              a <- lift (acos q) ;;
              ret (180 - degrees a))) ;;
     if negb reduced
     then
       polygon_uuid <- _uuid identifier ;;
       let polygon := polygon_new polygon_uuid layer line_width false in
       let polygon :=
         add_vertices
           [ vertex (- inner_radius) (- y) angle;
             vertex outer_radius 0 angle;
             vertex (- inner_radius) y 0;
             vertex (- inner_radius) (- y) 0 ] polygon in
       ret (on_footprint (Footprint_add_polygon polygon) package)
     else
       package <- _add_reduced_part package identifier layer inner_radius line_width
                    angle y "-top" ;;
       package <- _add_reduced_part package identifier layer inner_radius line_width
                    angle (- y) "-bot" ;;
       ret package)%M.

(** [_add_vertical_footprint(package, name, identifier_suffix, pad_size)]. *)
Definition _add_vertical_footprint (package : Package) (name : Name)
    (identifier_suffix : string) (pad_size : Size) : M Package :=
  (package <- _add_footprint package name identifier_suffix pad_size ;;
   package <- _add_flattened_circle package
                ("polygon-doc" +:+ identifier_suffix) "top_documentation"
                (bot_diameter config / 2 - default_line_width / 2)
                (top_diameter config / 2 - default_line_width / 2)
                default_line_width false ;;
   package <- _add_flattened_circle package
                ("polygon-legend" +:+ identifier_suffix) "top_legend"
                (bot_diameter config / 2 + default_line_width / 2)
                (top_diameter config / 2 + default_line_width / 2)
                default_line_width is_small ;;
   let courtyard_offset := (if 10.0 <=? bot_diameter config then 1.0 else 0.8) / 2 in
   let pad_ring_x_bounds := lead_spacing config / 2 + Size_height pad_size / 2 in
   package <- _add_flattened_circle package
                ("polygon-courtyard" +:+ identifier_suffix) "top_courtyard"
                (PyFloat.max (bot_diameter config / 2) pad_ring_x_bounds + courtyard_offset)
                (PyFloat.max (top_diameter config / 2) pad_ring_x_bounds + courtyard_offset)
                0.0 false ;;
   name_uuid <- _uuid ("text-name" +:+ identifier_suffix) ;;
   let package :=
     on_footprint
       (Footprint_add_text
          (stroke_text name_uuid "top_names" "center bottom"
             0.0 (bot_diameter config / 2 + 0.8) "{{NAME}}")) package in
   value_uuid <- _uuid ("text-value" +:+ identifier_suffix) ;;
   let package :=
     on_footprint
       (Footprint_add_text
          (stroke_text value_uuid "top_values" "center top"
             0.0 (- (bot_diameter config / 2) - 0.8) "{{VALUE}}")) package in
   ret package)%M.

(** One turn of [for pad, factor in [('a', 1), ('c', -1)]] in
    [_add_horizontal_footprint]: a documentation lead. *)
Definition _add_lead (package : Package) (identifier_suffix : string)
    (body_offset : float) (pad : string) (factor : float) : M Package :=
  (polygon_uuid <- _uuid (PyStr.concat ["polygon-doc-"; pad; identifier_suffix]) ;;
   let polygon := polygon_new polygon_uuid "top_documentation" 0 true in
   let x0 := PyFloat.min (lead_spacing config / 2 + lead_width / 2)
                         (top_diameter config / 2) * factor in
   let x1 := (2 * (lead_spacing config / 2) - x0 * factor) * factor in
   let polygon :=
     add_vertices
       [ vertex x0 body_offset 0;
         vertex x1 body_offset 0;
         vertex x1 (- lead_width / 2) 0;
         vertex x0 (- lead_width / 2) 0;
         vertex x0 body_offset 0 ] polygon in
   ret (on_footprint (Footprint_add_polygon polygon) package))%M.

(** [_add_horizontal_footprint(package, name, identifier_suffix, pad_size,
    body_height, body_offset)].  A variable Python assigns again is bound
    again under a primed name. *)
Definition _add_horizontal_footprint (package : Package) (name : Name)
    (identifier_suffix : string) (pad_size : Size)
    (body_height body_offset : float) : M Package :=
  (package <- _add_footprint package name identifier_suffix pad_size ;;
   (* Documentation outline *)
   doc_uuid <- _uuid ("polygon-doc" +:+ identifier_suffix) ;;
   let polygon := polygon_new doc_uuid "top_documentation" default_line_width false in
   let inner_radius := top_diameter config / 2 - default_line_width / 2 in
   let outer_radius := bot_diameter config / 2 - default_line_width / 2 in
   let body_bottom_y := body_offset + default_line_width / 2 in
   let body_middle_y := body_bottom_y + 1.0 - default_line_width in
   let body_top_y := body_bottom_y + body_height - inner_radius - default_line_width in
   let polygon :=
     add_vertices
       [ vertex (- inner_radius) body_middle_y 0;
         vertex (- inner_radius) body_top_y (-180);
         vertex inner_radius body_top_y 0;
         vertex inner_radius body_middle_y 0;
         vertex outer_radius body_middle_y 0;
         vertex outer_radius body_bottom_y 0;
         vertex (- inner_radius) body_bottom_y 0;
         vertex (- inner_radius) body_middle_y 0;
         vertex inner_radius body_middle_y 0 ] polygon in
   let package := on_footprint (Footprint_add_polygon polygon) package in
   (* Documentation leads *)
   package <- _add_lead package identifier_suffix body_offset "a" 1 ;;
   package <- _add_lead package identifier_suffix body_offset "c" (-1) ;;
   (* Determine legend variant *)
   let body_bottom_y' := body_bottom_y - default_line_width in
   let pad_legend_clearance := Size_width pad_size / 2 + default_line_width / 2 + 0.18 in
   let split_legend := body_bottom_y' <? pad_legend_clearance in
   (* legend short *)
   package <-
     (if split_legend
      then
        legend2_uuid <- _uuid ("polygon-legend2" +:+ identifier_suffix) ;;
        let polygon := polygon_new legend2_uuid "top_legend" default_line_width false in
        let legend_x := lead_spacing config / 2 - pad_legend_clearance in
        let polygon :=
          add_vertices
            [ vertex (- legend_x) body_bottom_y' 0;
              vertex legend_x body_bottom_y' 0 ] polygon in
        ret (on_footprint (Footprint_add_polygon polygon) package)
      else ret package) ;;
   (* legend outline *)
   legend_uuid <- _uuid ("polygon-legend" +:+ identifier_suffix) ;;
   let polygon := polygon_new legend_uuid "top_legend" default_line_width false in
   let inner_radius' := top_diameter config / 2 + default_line_width / 2 in
   let outer_radius' := bot_diameter config / 2 + default_line_width / 2 in
   let body_bottom_silkscreen_x := lead_spacing config / 2 + pad_legend_clearance in
   let body_bottom_silkscreen_y := PyFloat.max body_bottom_y' pad_legend_clearance in
   let body_middle_y' := body_middle_y + default_line_width in
   let polygon :=
     add_vertices
       (if negb split_legend
        then [ vertex (- inner_radius') body_bottom_y' 0 ]
        else if body_bottom_silkscreen_x <? inner_radius'
        then [ vertex (- body_bottom_silkscreen_x) body_bottom_y' 0;
               vertex (- inner_radius') body_bottom_y' 0 ]
        else [ vertex (- inner_radius') body_bottom_silkscreen_y 0 ]) polygon in
   let polygon :=
     add_vertices
       [ vertex (- inner_radius') body_top_y (-180);
         vertex inner_radius' body_top_y 0;
         vertex inner_radius' body_middle_y' 0;
         vertex outer_radius' body_middle_y' 0 ] polygon in
   let polygon :=
     add_vertices
       (if negb split_legend
        then [ vertex outer_radius' body_bottom_y' 0;
               vertex (- inner_radius') body_bottom_y' 0 ]
        else if body_bottom_silkscreen_x <? outer_radius'
        then [ vertex outer_radius' body_bottom_y' 0;
               vertex body_bottom_silkscreen_x body_bottom_y' 0 ]
        else [ vertex outer_radius' body_bottom_silkscreen_y 0 ]) polygon in
   let package := on_footprint (Footprint_add_polygon polygon) package in
   (* Courtyard *)
   let courtyard_offset := (if 10.0 <=? bot_diameter config then 1.0 else 0.8) / 2 in
   courtyard_uuid <- _uuid ("polygon-courtyard" +:+ identifier_suffix) ;;
   let polygon := polygon_new courtyard_uuid "top_courtyard" 0.0 false in
   let inner_radius'' := inner_radius' + courtyard_offset in
   let outer_radius'' := outer_radius' + courtyard_offset in
   let body_middle_y'' := body_middle_y' + courtyard_offset in
   let body_bottom_y'' := body_bottom_y' - courtyard_offset in
   let courtyard_bottom_x :=
     PyFloat.min (lead_spacing config / 2 + pad_drill / 2 + courtyard_offset + 0.2)
                 inner_radius'' in
   let courtyard_bottom_y := - pad_drill / 2 - courtyard_offset - 0.2 in
   let polygon :=
     add_vertices
       [ vertex (- inner_radius'') body_bottom_y'' 0;
         vertex (- inner_radius'') body_top_y (-180);
         vertex inner_radius'' body_top_y 0;
         vertex inner_radius'' body_middle_y'' 0;
         vertex outer_radius'' body_middle_y'' 0;
         vertex outer_radius'' body_bottom_y'' 0;
         vertex courtyard_bottom_x body_bottom_y'' 0;
         vertex courtyard_bottom_x courtyard_bottom_y 0;
         vertex (- courtyard_bottom_x) courtyard_bottom_y 0;
         vertex (- courtyard_bottom_x) body_bottom_y'' 0;
         vertex (- inner_radius'') body_bottom_y'' 0 ] polygon in
   let package := on_footprint (Footprint_add_polygon polygon) package in
   (* Text *)
   name_uuid <- _uuid ("text-name" +:+ identifier_suffix) ;;
   let package :=
     on_footprint
       (Footprint_add_text
          (stroke_text name_uuid "top_names" "center top" 0.0 (-1.27) "{{NAME}}"))
       package in
   value_uuid <- _uuid ("text-value" +:+ identifier_suffix) ;;
   let package :=
     on_footprint
       (Footprint_add_text
          (stroke_text value_uuid "top_values" "center top" 0.0 (-3.0) "{{VALUE}}"))
       package in
   ret package)%M.

End PerConfig.

(** [create_date or now()]. *)
Definition created_or_now (create_date : option string) : M string :=
  match create_date with
  | Some d => if truthy d then ret d else now
  | None => now
  end.

(** One turn of the loop of [generate_pkg]: it builds the package of
    [config] and serialises it.  Python drops the package at the end of the
    turn; here it is returned, so that statements can speak of it. *)
Definition generate_pkg_one (library author pkgcat keywords version : string)
    (create_date : option string) (config : LedConfig) : M Package :=
  (uuid_pkg <- _uuid config "pkg" ;;
   print (PyStr.concat ["Generating "; pkg_name config; ": "; uuid_pkg]) ;;
   created <- created_or_now create_date ;;
   let package :=
     Package_new uuid_pkg
       {| Name_value := pkg_name config |}
       {| Description_value := pkg_description config |}
       {| Keywords_value := keywords |}
       {| Author_value := author |}
       {| Version_value := version |}
       {| Created_value := created |}
       {| Deprecated_value := false |}
       {| GeneratedBy_value := EmptyString |}
       [ {| Category_value := pkgcat |} ]
       AssemblyType.AUTO in
   (* Package pads *)
   pad_a <- _uuid config "pad-a" ;;
   let package :=
     Package_add_pad {| PackagePad_uuid := pad_a; PackagePad_name := {| Name_value := "A" |} |}
       package in
   pad_c <- _uuid config "pad-c" ;;
   let package :=
     Package_add_pad {| PackagePad_uuid := pad_c; PackagePad_name := {| Name_value := "C" |} |}
       package in
   (* Add footprints *)
   package <- _add_vertical_footprint config package
                {| Name_value := "Vertical" |} EmptyString
                {| Size_width := 1.4; Size_height := 1.4 |} ;;
   package <-
     (if negb (is_small config)
      then _add_vertical_footprint config package
             {| Name_value := "Vertical, Large Pads" |} "-large"
             {| Size_width := 2.5; Size_height := 1.3 |}
      else ret package) ;;
   package <- _add_horizontal_footprint config package
                {| Name_value := "Horizontal, 0.5 mm Offset" |} "-h050"
                {| Size_width := 1.4; Size_height := 1.4 |}
                (body_height config) 0.5 ;;
   package <- _add_horizontal_footprint config package
                {| Name_value := "Horizontal, 2.54 mm Offset" |} "-h254"
                {| Size_width := 1.4; Size_height := 1.4 |}
                (body_height config) 2.54 ;;
   package <- _add_horizontal_footprint config package
                {| Name_value := "Horizontal, 7.62 mm Offset" |} "-h762"
                {| Size_width := 1.4; Size_height := 1.4 |}
                (body_height config) 7.62 ;;
   Package_serialize I package
     (Path.join (Path.join "out" library) category_pkg) ;;
   ret package)%M.

(** [generate_pkg(library, author, configs, pkgcat, keywords, version,
    create_date)]; the packages of the turns, in turn order. *)
Definition generate_pkg (library author : string) (configs : list LedConfig)
    (pkgcat keywords version : string) (create_date : option string)
    : M (list Package) :=
  map_M (generate_pkg_one library author pkgcat keywords version create_date) configs.

Definition category_dev : string := "dev".

(** One turn of the loop of [generate_dev]; the device is returned as the
    package is above. *)
Definition generate_dev_one (library author cmpcat keywords version : string)
    (create_date : option string) (config : LedConfig) : M Device :=
  (uuid_dev <- uuid category_dev (dev_name config) "dev" ;;
   print (PyStr.concat ["Generating "; dev_name config; ": "; uuid_dev]) ;;
   created <- created_or_now create_date ;;
   package_uuid <- uuid "pkg" (pkg_name config) "pkg" ;;
   let device :=
     {| Device_uuid := uuid_dev;
        Device_name := {| Name_value := dev_name config |};
        Device_description := {| Description_value := dev_description config |};
        Device_keywords := {| Keywords_value := keywords |};
        Device_author := {| Author_value := author |};
        Device_version := {| Version_value := version |};
        Device_created := {| Created_value := created |};
        Device_deprecated := {| Deprecated_value := false |};
        Device_generated_by := {| GeneratedBy_value := EmptyString |};
        Device_categories := [ {| Category_value := cmpcat |} ];
        Device_component_uuid :=
          {| ComponentUUID_value := "2b24b18d-bd95-4fb4-8fe6-bce1d020ead4" |};
        Device_package_uuid := {| PackageUUID_value := package_uuid |};
        Device_pads := [] |} in
   pad_a <- uuid "pkg" (pkg_name config) "pad-a" ;;
   let device :=
     Device_add_pad
       {| ComponentPad_pad_uuid := pad_a;
          ComponentPad_signal :=
            {| SignalUUID_value := "f1467b5c-cc7d-44b4-8076-d729f35b3a6a" |} |} device in
   pad_c <- uuid "pkg" (pkg_name config) "pad-c" ;;
   let device :=
     Device_add_pad
       {| ComponentPad_pad_uuid := pad_c;
          ComponentPad_signal :=
            {| SignalUUID_value := "7b023430-b68f-403a-80b8-c7deb12e7a0c" |} |} device in
   on_fs (Device_serialize device (Path.join (Path.join "out" library) category_dev)) ;;
   ret device)%M.

Definition generate_dev (library author : string) (configs : list LedConfig)
    (cmpcat keywords version : string) (create_date : option string)
    : M (list Device) :=
  map_M (generate_dev_one library author cmpcat keywords version create_date) configs.

(** The script body under [if __name__ == '__main__'], up to the saving of
    the cache: both generators over one list of configs. *)
Definition main_generate (configs : list LedConfig) : M (list Package * list Device) :=
  (packages <- generate_pkg "LibrePCB_Base.lplib" "Danilo B." configs
                 "9c36c4be-3582-4f27-ae00-4c1229f1e870" "led,tht" "0.1"
                 (Some "2022-02-26T00:06:03Z") ;;
   devices <- generate_dev "LibrePCB_Base.lplib" "U. Bruhin" configs
                "70421345-ae1d-4fed-aa60-e7619524b97f" "led,tht" "0.1"
                (Some "2022-08-31T11:18:33Z") ;;
   ret (packages, devices))%M.

(** The four configs of the script. *)
Definition main_configs : result (list LedConfig) :=
  (c1 <- LedConfig_init 3.00 3.80 2.54 4.5 1.0 false "Clear" ;;
   c2 <- LedConfig_init 3.00 3.80 2.54 4.5 5.0 true "Clear" ;;
   c3 <- LedConfig_init 5.00 5.80 2.54 8.7 1.0 false "Clear" ;;
   c4 <- LedConfig_init 5.00 5.80 2.54 8.7 5.0 true "Clear" ;;
   Ok [c1; c2; c3; c4])%res.

End Generate.
End Led.

(** ** The imported serialisers, after the spec *)

Module SpecModel.

(** Modelled from the spec: [escape_string] of [entities.common] is not
    among the sources.  Section 4.1: free text escapes embedded quotes and
    newlines, a newline as a backslash and the letter n. *)
Definition escape_string : string -> string :=
  fix go s :=
    match s with
    | EmptyString => EmptyString
    | String c s' =>
        (if Ascii.eqb c (ascii_of_nat 10) then "\n"
         else if Ascii.eqb c (ascii_of_nat 34) then "\" +:+ PyStr.DQ
         else if Ascii.eqb c "\" then "\\"
         else String c EmptyString) +:+ go s'
    end.

(** Modelled from the spec: [format_float] of [common] is not among the
    sources.  Sections 4.1 and 7: fixed point, never exponential, no
    trailing zero beyond the first decimal ([2.50] renders as [2.5], [2.0]
    as [2.0]), three decimals at most; NaN and the infinities are no legal
    values. *)
Definition digits (width : nat) (n : Z) : string :=
  let s := pretty n in
  String.concat EmptyString (List.repeat "0" (width - String.length s)) +:+ s.

Definition format_float (x : float) : result string :=
  match Prim2SF x with
  | S754_nan => Raise (ValueError "InvalidValue: nan")
  | S754_infinity _ => Raise (ValueError "InvalidValue: inf")
  | S754_zero s => Ok (if s then "-0.0" else "0.0")
  | S754_finite s m e =>
      let n := PyFloat.decimal_digits m e 3 in
      let whole := (n / 1000)%Z in
      let frac := (n mod 1000)%Z in
      Ok ((if s then "-" else EmptyString) +:+ pretty whole +:+ "." +:+
          (if (frac mod 100 =? 0)%Z then digits 1 (frac / 100)
           else if (frac mod 10 =? 0)%Z then digits 2 (frac / 10)
           else digits 3 frac))
  end.

(** Modelled from the spec: the [__str__] methods of [entities.common] are
    not among the sources.  Section 4.1: a value renders as its field-name
    tag and its token; free text is quoted and escaped, booleans and
    enumeration members are lowercase tokens, an identifier reference is the
    identifier after its tag.  Section 4.4: a composite is a parenthesised
    expression whose children are indented. *)
Definition tagged (tag token : string) : string :=
  PyStr.concat ["("; tag; " "; token; ")"].
Definition quoted (tag text : string) : string :=
  tagged tag (PyStr.DQ +:+ escape_string text +:+ PyStr.DQ).
Definition bool_token (b : bool) : string := if b then "true" else "false".
Definition floats (tag : string) (xs : list float) : result string :=
  (tokens <- rmap format_float xs ;; Ok (tagged tag (PyStr.join " " tokens)))%res.

Definition Position_str (p : Position) : result string :=
  floats "position" [Position_x p; Position_y p].
Definition Vertex_str (v : Vertex) : result string :=
  (position <- Position_str (Vertex_position v) ;;
   angle <- floats "angle" [Angle_value (Vertex_angle v)] ;;
   Ok (tagged "vertex" (position +:+ " " +:+ angle)))%res.
Definition shape_style (layer : Layer) (width : Width) (fill : Fill)
    (grab_area : GrabArea) : result string :=
  (width <- floats "width" [Width_value width] ;;
   Ok (PyStr.join " " [tagged "layer" (Layer_value layer); width;
                       tagged "fill" (bool_token (Fill_value fill));
                       tagged "grab_area" (bool_token (GrabArea_value grab_area))]))%res.
Definition Polygon_str (p : Polygon) : result string :=
  (style <- shape_style (Polygon_layer p) (Polygon_width p) (Polygon_fill p)
              (Polygon_grab_area p) ;;
   vertices <- rmap Vertex_str (Polygon_vertices p) ;;
   Ok (PyStr.concat ["(polygon "; Polygon_uuid p; " "; style; PyStr.LF;
                     indent_entities vertices; ")"]))%res.
Definition Circle_str (c : Circle) : result string :=
  (style <- shape_style (Circle_layer c) (Circle_width c) (Circle_fill c)
              (Circle_grab_area c) ;;
   diameter <- floats "diameter" [Diameter_value (Circle_diameter c)] ;;
   position <- Position_str (Circle_position c) ;;
   Ok (PyStr.concat ["(circle "; Circle_uuid c; " "; style; PyStr.LF;
                     " "; diameter; " "; position; PyStr.LF; ")"]))%res.

Definition imports : Imports :=
  Build_Imports
    format_float
    (* Name: __str__, __eq__, __lt__ *)
    (fun x => Ok (quoted "name" (Name_value x)))
    (fun x y => Ok (PyStr.eqb (Name_value x) (Name_value y)))
    (fun x y => Ok (PyStr.ltb (Name_value x) (Name_value y)))
    (* Description, Keywords, Author, Version *)
    (fun x => Ok (quoted "description" (Description_value x)))
    (fun x => Ok (quoted "keywords" (Keywords_value x)))
    (fun x => Ok (quoted "author" (Author_value x)))
    (fun x => Ok (quoted "version" (Version_value x)))
    (* Created, Deprecated, GeneratedBy, Category *)
    (fun x => Ok (tagged "created" (Created_value x)))
    (fun x => Ok (tagged "deprecated" (bool_token (Deprecated_value x))))
    (fun x => Ok (quoted "generated_by" (GeneratedBy_value x)))
    (fun x => Ok (tagged "category" (Category_value x)))
    (* Layer, Height, Align, Value *)
    (fun x => Ok (tagged "layer" (Layer_value x)))
    (fun x => floats "height" [Height_value x])
    (fun x => Ok (tagged "align" (Align_value x)))
    (fun x => Ok (quoted "value" (Value_value x)))
    (* Position, Rotation, Position3D, Rotation3D *)
    Position_str
    (fun x => floats "rotation" [Rotation_value x])
    (fun x => floats "3d_position" [Position3D_x x; Position3D_y x; Position3D_z x])
    (fun x => floats "3d_rotation" [Rotation3D_x x; Rotation3D_y x; Rotation3D_z x])
    (* Vertex, Polygon, Circle *)
    Vertex_str
    Polygon_str
    Circle_str
    (* EnumValue, FloatValue, BoolValue, UUIDValue *)
    (fun x => Ok (tagged (EnumValue_name x) (EnumValue_value x)))
    (fun x => floats (FloatValue_name x) [FloatValue_value x])
    (fun x => Ok (tagged (BoolValue_name x) (bool_token (BoolValue_value x))))
    (fun x => Ok (tagged (UUIDValue_name x) (UUIDValue_value x))).

End SpecModel.

(** ** Vocabulary of the statements *)

(** The calls a generator makes on a footprint under construction. *)
Inductive FootprintCall : Type :=
| add_pad (pad : FootprintPad)
| add_3d_model (model : Footprint3DModel)
| add_polygon (polygon : Polygon)
| add_circle (circle : Circle)
| add_text (text : StrokeText).

Definition Footprint_call (f : Footprint) (c : FootprintCall) : Footprint :=
  match c with
  | add_pad pad => Footprint_add_pad pad f
  | add_3d_model model => Footprint_add_3d_model model f
  | add_polygon polygon => Footprint_add_polygon polygon f
  | add_circle circle => Footprint_add_circle circle f
  | add_text text => Footprint_add_text text f
  end.

(** The footprint after a run of calls, first call first. *)
Definition Footprint_calls (f : Footprint) (cs : list FootprintCall) : Footprint :=
  fold_left Footprint_call cs f.

(** The arguments of the calls of one kind, in call order. *)
Definition pads_added (cs : list FootprintCall) : list FootprintPad :=
  omap (fun c => match c with add_pad x => Some x | _ => None end) cs.
Definition models_3d_added (cs : list FootprintCall) : list Footprint3DModel :=
  omap (fun c => match c with add_3d_model x => Some x | _ => None end) cs.
Definition polygons_added (cs : list FootprintCall) : list Polygon :=
  omap (fun c => match c with add_polygon x => Some x | _ => None end) cs.
Definition circles_added (cs : list FootprintCall) : list Circle :=
  omap (fun c => match c with add_circle x => Some x | _ => None end) cs.
Definition texts_added (cs : list FootprintCall) : list StrokeText :=
  omap (fun c => match c with add_text x => Some x | _ => None end) cs.

(** The calls a generator makes on a package under construction. *)
Inductive PackageCall : Type :=
| pkg_add_pad (pad : PackagePad)
| pkg_add_footprint (footprint : Footprint)
| pkg_add_3d_model (model : Package3DModel)
| pkg_add_approval (approval : string).

Definition Package_call (p : Package) (c : PackageCall) : Package :=
  match c with
  | pkg_add_pad pad => Package_add_pad pad p
  | pkg_add_footprint footprint => Package_add_footprint footprint p
  | pkg_add_3d_model model => Package_add_3d_model model p
  | pkg_add_approval approval => Package_add_approval approval p
  end.

Definition Package_calls (p : Package) (cs : list PackageCall) : Package :=
  fold_left Package_call cs p.

Definition pkg_pads_added (cs : list PackageCall) : list PackagePad :=
  omap (fun c => match c with pkg_add_pad x => Some x | _ => None end) cs.
Definition pkg_footprints_added (cs : list PackageCall) : list Footprint :=
  omap (fun c => match c with pkg_add_footprint x => Some x | _ => None end) cs.
Definition pkg_models_3d_added (cs : list PackageCall) : list Package3DModel :=
  omap (fun c => match c with pkg_add_3d_model x => Some x | _ => None end) cs.
Definition pkg_approvals_added (cs : list PackageCall) : list string :=
  omap (fun c => match c with pkg_add_approval x => Some x | _ => None end) cs.

(** A tree is well formed when every primitive value in it is one its class
    renders: each value built through its constructor is such a value, and
    nothing else is asked of the tree. *)
Section WellFormed.
Variable I : Imports.

Definition StrokeText_wf (t : StrokeText) : Prop :=
  is_Ok (Layer_str I (StrokeText_layer t)) /\
  is_Ok (Height_str I (StrokeText_height t)) /\
  is_Ok (FloatValue_str I (StrokeText_stroke_width t)) /\
  is_Ok (EnumValue_str I (LetterSpacing.enum (StrokeText_letter_spacing t))) /\
  is_Ok (EnumValue_str I (LineSpacing.enum (StrokeText_line_spacing t))) /\
  is_Ok (Align_str I (StrokeText_align t)) /\
  is_Ok (Position_str I (StrokeText_position t)) /\
  is_Ok (Rotation_str I (StrokeText_rotation t)) /\
  is_Ok (BoolValue_str I (StrokeText_auto_rotate t)) /\
  is_Ok (BoolValue_str I (StrokeText_mirror t)) /\
  is_Ok (Value_str I (StrokeText_value t)).

Definition PadHole_wf (h : PadHole) : Prop :=
  is_Ok (FloatValue_str I (PadHole_diameter h)) /\
  Forall (fun v => is_Ok (Vertex_str I v)) (PadHole_vertices h).

Definition FootprintPad_wf (p : FootprintPad) : Prop :=
  is_Ok (EnumValue_str I (ComponentSide.enum (FootprintPad_side p))) /\
  is_Ok (EnumValue_str I (Shape.enum (FootprintPad_shape p))) /\
  is_Ok (Position_str I (FootprintPad_position p)) /\
  is_Ok (Rotation_str I (FootprintPad_rotation p)) /\
  is_Ok (format_float I (Size_width (FootprintPad_size p))) /\
  is_Ok (format_float I (Size_height (FootprintPad_size p))) /\
  is_Ok (FloatValue_str I (FootprintPad_radius p)) /\
  is_Ok (EnumValue_str I (StopMaskConfig.enum (FootprintPad_stop_mask p))) /\
  is_Ok (EnumValue_str I (SolderPasteConfig.enum (FootprintPad_solder_paste p))) /\
  is_Ok (FloatValue_str I (FootprintPad_copper_clearance p)) /\
  is_Ok (EnumValue_str I (PadFunction.enum (FootprintPad_function p))) /\
  is_Ok (UUIDValue_str I (FootprintPad_package_pad p)) /\
  Forall PadHole_wf (FootprintPad_holes p).

Definition Footprint_wf (f : Footprint) : Prop :=
  is_Ok (Name_str I (Footprint_name f)) /\
  is_Ok (Description_str I (Footprint_description f)) /\
  is_Ok (Position3D_str I (Footprint_position_3d f)) /\
  is_Ok (Rotation3D_str I (Footprint_rotation_3d f)) /\
  Forall FootprintPad_wf (Footprint_pads f) /\
  Forall (fun x => is_Ok (Polygon_str I x)) (Footprint_polygons f) /\
  Forall (fun x => is_Ok (Circle_str I x)) (Footprint_circles f) /\
  Forall StrokeText_wf (Footprint_texts f).

Definition Package_wf (p : Package) : Prop :=
  is_Ok (Name_str I (Package_name p)) /\
  is_Ok (Description_str I (Package_description p)) /\
  is_Ok (Keywords_str I (Package_keywords p)) /\
  is_Ok (Author_str I (Package_author p)) /\
  is_Ok (Version_str I (Package_version p)) /\
  is_Ok (Created_str I (Package_created p)) /\
  is_Ok (Deprecated_str I (Package_deprecated p)) /\
  is_Ok (GeneratedBy_str I (Package_generated_by p)) /\
  Forall (fun x => is_Ok (Category_str I x)) (Package_categories p) /\
  is_Ok (EnumValue_str I (AssemblyType.enum (Package_assembly_type p))) /\
  Forall (fun x => is_Ok (Name_str I (PackagePad_name x))) (Package_pads p) /\
  Forall (fun x => is_Ok (Name_str I (Package3DModel_name x))) (Package_models_3d p) /\
  Forall Footprint_wf (Package_footprints p).

End WellFormed.

(** What resolving a key does to a world, in the words of section 4.5: a
    key the cache holds yields the stored identifier and changes nothing; a
    key it does not hold takes the next draw of the random source and
    stores it under the key. *)
Definition resolve (key : string) (w : World) : string * World :=
  match uuid_cache w !! key with
  | Some u => (u, w)
  | None =>
      let u := random w (drawn w) in
      let w' := set_drawn (S (drawn w)) w in
      (u, set_uuid_cache (<[key := u]> (uuid_cache w')) w')
  end.

(** A run of further [uuid] calls, with any arguments, in either script. *)
Definition Led_uuid_calls (calls : list (string * string * string)) : M unit :=
  for_each calls (fun '(category, full_name, identifier) =>
                    (_ <- Led.uuid category full_name identifier ;; ret tt)%M).
Definition Connectors_uuid_calls (calls : list (string * Z * option string)) : M unit :=
  for_each calls (fun '(typ, pin_number, identifier) =>
                    (_ <- Connectors.uuid typ pin_number identifier ;; ret tt)%M).



(** A file system in which the directories above a directory exist. *)
Definition fs_tidy (f : FS) : Prop :=
  forall d x, d ∈ dirs f -> x ∈ Path.parents d -> x ∈ dirs f.

(** Nothing stands where [makedirs(p)] has to create a directory. *)
Definition fs_free (f : FS) (p : string) : Prop :=
  (p ∉ dirs f) /\ files f !! p = None /\
  Forall (fun d => files f !! d = None) (Path.parents p).

(** Distinct keys hold distinct identifiers, and the draws to come are new
    and distinct: what a random 128-bit source gives in practice. *)
Definition keyed_apart (w : World) : Prop :=
  (forall k1 k2 u, uuid_cache w !! k1 = Some u -> uuid_cache w !! k2 = Some u -> k1 = k2) /\
  (forall n k, drawn w <= n -> uuid_cache w !! k <> Some (random w n)) /\
  (forall n m, drawn w <= n -> drawn w <= m -> random w n = random w m -> n = m).

(** How a run moves the world, as far as identifiers go: the cache keeps
    what it holds, and stays keyed apart if it was. *)
Definition advances (w w' : World) : Prop :=
  uuid_cache w ⊆ uuid_cache w' /\ (keyed_apart w -> keyed_apart w').

(** From a world where [P] holds, the statement [m] advances the world, and
    a value it returns satisfies [Q]. *)
Definition spec {A} (P : World -> Prop) (m : M A) (Q : A -> Prop) : Prop :=
  forall w, P w -> advances w (m w).2 /\ forall a, (m w).1 = Ok a -> Q a.

(** A condition on the world that advancing keeps. *)
Definition stable (P : World -> Prop) : Prop :=
  forall w w', advances w w' -> P w -> P w'.

(** The identifiers of the pads of a package: of its package pads, and of
    the pads of its footprints. *)
Definition package_pad_uuids (p : Package) : list string :=
  map PackagePad_uuid (Package_pads p).
Definition footprint_pad_uuids (p : Package) : list string :=
  concat (map (fun f => map FootprintPad_uuid (Footprint_pads f)) (Package_footprints p)).

(** The identifiers a footprint pad holds: its own, the package pad it
    refers to, and those of its holes. *)
Definition pad_identifiers (p : FootprintPad) : string * string * list string :=
  (FootprintPad_uuid p, UUIDValue_value (FootprintPad_package_pad p),
   map PadHole_uuid (FootprintPad_holes p)).

(** The package has identifier [u], pads A and C with identifiers [ua] and
    [uc], and every footprint has two pads that hold [ua] and [uc] alone. *)
Definition pads_shared (u ua uc : string) (p : Package) : Prop :=
  Package_uuid p = u /\
  package_pad_uuids p = [ua; uc] /\
  Forall (fun f => map pad_identifiers (Footprint_pads f) =
                   [(ua, ua, [ua]); (uc, uc, [uc])]) (Package_footprints p).

(** The device refers to the package and to its pads. *)
Definition device_refers_to (d : Device) (p : Package) : Prop :=
  PackageUUID_value (Device_package_uuid d) = Package_uuid p /\
  map ComponentPad_pad_uuid (Device_pads d) = package_pad_uuids p.

(** The keys of a config's package and of its two pads. *)
Definition key_pkg (c : Led.LedConfig) : string := Led.uuid_key "pkg" (Led.pkg_name c) "pkg".
Definition key_pad_a (c : Led.LedConfig) : string := Led.uuid_key "pkg" (Led.pkg_name c) "pad-a".
Definition key_pad_c (c : Led.LedConfig) : string := Led.uuid_key "pkg" (Led.pkg_name c) "pad-c".

(** The cache holds the three identifiers of a config. *)
Definition holds (c : Led.LedConfig) (u ua uc : string) (w : World) : Prop :=
  uuid_cache w !! key_pkg c = Some u /\
  uuid_cache w !! key_pad_a c = Some ua /\
  uuid_cache w !! key_pad_c c = Some uc.

(** ** Sample entities *)

Module Sample.
Open Scope float_scope.

Definition pad_a : FootprintPad :=
  {| FootprintPad_uuid := "5c4a2f0e-0000-4000-8000-00000000000a";
     FootprintPad_side := ComponentSide.TOP;
     FootprintPad_shape := Shape.ROUNDED_RECT;
     FootprintPad_position := {| Position_x := 1.27; Position_y := 0 |};
     FootprintPad_rotation := {| Rotation_value := 90 |};
     FootprintPad_size := {| Size_width := 1.4; Size_height := 1.4 |};
     FootprintPad_radius := ShapeRadius 1.0;
     FootprintPad_stop_mask := StopMaskConfig.AUTO;
     FootprintPad_solder_paste := SolderPasteConfig.OFF;
     FootprintPad_copper_clearance := CopperClearance 0.0;
     FootprintPad_function := PadFunction.UNSPECIFIED;
     FootprintPad_package_pad := PackagePadUuid "5c4a2f0e-0000-4000-8000-00000000000a";
     FootprintPad_holes :=
       [ {| PadHole_uuid := "5c4a2f0e-0000-4000-8000-00000000000a";
            PadHole_diameter := DrillDiameter 0.8;
            PadHole_vertices :=
              [ {| Vertex_position := {| Position_x := 0; Position_y := 0 |};
                   Vertex_angle := {| Angle_value := 0 |} |} ] |} ] |}.

Definition text : StrokeText :=
  {| StrokeText_uuid := "5c4a2f0e-0000-4000-8000-0000000000f1";
     StrokeText_layer := {| Layer_value := "top_names" |};
     StrokeText_height := {| Height_value := 1.0 |};
     StrokeText_stroke_width := StrokeWidth 0.2;
     StrokeText_letter_spacing := LetterSpacing.AUTO;
     StrokeText_line_spacing := LineSpacing.AUTO;
     StrokeText_align := {| Align_value := "center bottom" |};
     StrokeText_position := {| Position_x := 0; Position_y := 2.7 |};
     StrokeText_rotation := {| Rotation_value := 0 |};
     StrokeText_auto_rotate := AutoRotate true;
     StrokeText_mirror := Mirror false;
     StrokeText_value := {| Value_value := "{{NAME}}" |} |}.

Definition circle : Circle :=
  {| Circle_uuid := "5c4a2f0e-0000-4000-8000-0000000000c1";
     Circle_layer := {| Layer_value := "top_documentation" |};
     Circle_width := {| Width_value := 0.2 |};
     Circle_position := {| Position_x := 0; Position_y := 0 |};
     Circle_diameter := {| Diameter_value := 3.6 |};
     Circle_fill := {| Fill_value := false |};
     Circle_grab_area := {| GrabArea_value := false |} |}.

Definition footprint : Footprint :=
  Footprint_calls
    (Footprint_new "5c4a2f0e-0000-4000-8000-0000000000f0"
       {| Name_value := "Vertical" |} {| Description_value := EmptyString |}
       {| Position3D_x := 0; Position3D_y := 0; Position3D_z := 0 |}
       {| Rotation3D_x := 0; Rotation3D_y := 0; Rotation3D_z := 0 |})
    [ add_3d_model {| Footprint3DModel_uuid := "b0000000-0000-4000-8000-000000000002" |};
      add_pad pad_a;
      add_3d_model {| Footprint3DModel_uuid := "a0000000-0000-4000-8000-000000000001" |};
      add_circle circle;
      add_text text ].

Definition model_a : Package3DModel :=
  {| Package3DModel_uuid := "a0000000-0000-4000-8000-000000000001";
     Package3DModel_name := {| Name_value := "Body" |} |}.
Definition model_b : Package3DModel :=
  {| Package3DModel_uuid := "b0000000-0000-4000-8000-000000000002";
     Package3DModel_name := {| Name_value := "Lens" |} |}.

Definition empty_package : Package :=
  Package_new "5c4a2f0e-0000-4000-8000-000000000000"
    {| Name_value := "LED-THT-P254D300H450-CLEAR" |}
    {| Description_value := "Generic through-hole LED" |}
    {| Keywords_value := "led,tht" |} {| Author_value := "Danilo B." |}
    {| Version_value := "0.1" |} {| Created_value := "2022-02-26T00:06:03Z" |}
    {| Deprecated_value := false |} {| GeneratedBy_value := EmptyString |}
    [ {| Category_value := "9c36c4be-3582-4f27-ae00-4c1229f1e870" |} ]
    AssemblyType.AUTO.

Definition package_pad : PackagePad :=
  {| PackagePad_uuid := "5c4a2f0e-0000-4000-8000-00000000000a";
     PackagePad_name := {| Name_value := "A" |} |}.

(** One package built twice: the same calls, the two 3D models added in
    either order. *)
Definition package_ab : Package :=
  Package_calls empty_package
    [ pkg_add_pad package_pad; pkg_add_3d_model model_a; pkg_add_3d_model model_b;
      pkg_add_footprint footprint; pkg_add_approval "suspicious_pad" ].
Definition package_ba : Package :=
  Package_calls empty_package
    [ pkg_add_pad package_pad; pkg_add_3d_model model_b; pkg_add_3d_model model_a;
      pkg_add_footprint footprint; pkg_add_approval "suspicious_pad" ].

(** A world to run the scripts in: an empty cache, an empty file system,
    and made-up draws and clock readings. *)
Definition world : World :=
  {| uuid_cache := ∅;
     random := fun n => "00000000-0000-4000-8000-" +:+ pretty n;
     drawn := 0;
     clock := fun n => "2022-02-26T00:06:" +:+ SpecModel.digits 2 (Z.of_nat n);
     ticks := 0;
     fs := {| dirs := ∅; files := ∅ |};
     stdout := [] |}.

(** An LED whose body has one diameter from top to bottom: every outline
    of its vertical footprints is a full circle, so no trigonometry is
    asked of the runtime. *)
Definition config : Led.LedConfig :=
  {| Led.top_diameter := 5.0;
     Led.bot_diameter := 5.0;
     Led.lead_spacing := 2.54;
     Led.body_height := 8.7;
     Led.standoff := 1.0;
     Led.standoff_in_name := false;
     Led.body_color := "Clear";
     Led.pkg_name := "LED-THT-P254D500H870-CLEAR";
     Led.pkg_description := "Generic through-hole LED with 5.00 mm body diameter.";
     Led.dev_name := "LED 5.0x8.7/2.54mm Clear";
     Led.dev_description := "Generic through-hole LED with 5.00 mm body diameter." |}.

(** A runtime whose [asin], [acos] and [**] are never reached. *)
Definition not_reached (x : float) : result float := Raise (Raised "not reached").
Definition not_reached2 (x y : float) : result float := Raise (Raised "not reached").
Definition degrees (x : float) : float := x * 57.29577951308232.

(** A [Device.serialize] that leaves the file system as it is. *)
Definition Device_serialize (d : Device) (path : string) (f : FS) : result unit * FS :=
  (Ok tt, f).

(** The generators of generate_led.py over the sample config, from the
    sample world. *)
Definition generated_package : result Package * World :=
  Led.generate_pkg_one SpecModel.imports not_reached not_reached degrees not_reached2
    "LibrePCB_Base.lplib" "Danilo B." "9c36c4be-3582-4f27-ae00-4c1229f1e870" "led,tht"
    "0.1" (Some "2022-02-26T00:06:03Z") config world.

Definition generated :=
  Led.main_generate SpecModel.imports not_reached not_reached degrees not_reached2
    Device_serialize [config] world.

End Sample.

(** ** Notions the proofs use *)

(** The normal form of a key, character by character. *)
Definition normalize_char (c : ascii) : ascii :=
  if Ascii.eqb (PyStr.lower_ascii c) " " then "~"%char else PyStr.lower_ascii c.

(** A file name: no slash in it. *)
Definition plain_name (name : string) : Prop :=
  PyStr.startswith name "/" = false /\
  forall seen, Path.parents_aux seen name = [].

(** What [generate_pkg] leaves for [generate_dev]: each config's package,
    with the identifiers the cache then holds for it. *)
Definition built (w : World) (c : Led.LedConfig) (pkg : Package) : Prop :=
  exists ua uc, holds c (Package_uuid pkg) ua uc w /\
                pads_shared (Package_uuid pkg) ua uc pkg.

(** ** Runs of the generators over the sample config *)

(** [generate_pkg] with the arguments of the script, over the sample
    config, from the sample world. *)
Definition sample_generate_pkg (w : World) : result (list Package) * World :=
  Led.generate_pkg SpecModel.imports Sample.not_reached Sample.not_reached Sample.degrees
    Sample.not_reached2 "LibrePCB_Base.lplib" "Danilo B." [Sample.config]
    "9c36c4be-3582-4f27-ae00-4c1229f1e870" "led,tht" "0.1"
    (Some "2022-02-26T00:06:03Z") w.

(** ** What a generated package shows *)

(** What a footprint shows of itself in the editor: its name, and the
    values of its texts. *)
Definition footprint_labels (f : Footprint) : string * list string :=
  (Name_value (Footprint_name f),
   map (fun t => Value_value (StrokeText_value t)) (Footprint_texts f)).

(** The footprints of the package show [L], in this order. *)
Definition labels (L : list (string * list string)) (p : Package) : Prop :=
  map footprint_labels (Package_footprints p) = L.

(** The names of the footprints [generate_pkg] gives the package of a
    config, in the order of the calls that add them. *)
Definition footprint_names (c : Led.LedConfig) : list string :=
  ["Vertical"] ++
  (if Led.is_small c then [] else ["Vertical, Large Pads"]) ++
  ["Horizontal, 0.5 mm Offset"; "Horizontal, 2.54 mm Offset"; "Horizontal, 7.62 mm Offset"].

(** ** What a statement returns or raises *)


(** From any world, a value the statement [m] returns satisfies [Q], and an
    exception it raises satisfies [E]. *)
Definition returns {A} (m : M A) (Q : A -> Prop) (E : exception -> Prop) : Prop :=
  forall w, match (m w).1 with Ok a => Q a | Raise e => E e end.

(** A rendering of floats to run [generate] of generate_connectors.py
    with; the text of [str(x)] is the Python runtime's. *)
Definition sample_float_str (x : float) : string :=
  match SpecModel.format_float x with
  | Ok s => s
  | Raise _ => "nan"
  end.


(** ** generate_connectors.py: the rows it lays out *)

(** The pins [generate] places: pin [j] of a row of [n] pins, for every row
    from [min_pads] to [max_pads] pins. *)
Definition pins_placed : list (Z * Z) :=
  n ← seqZ Connectors.min_pads (Connectors.max_pads + 1 - Connectors.min_pads);
  j ← seqZ 1 n; [(j, n)].

(** What [generate] relies on when it places a pin: the row is centred on
    the origin, the pins come in ascending order one pitch apart, and the
    contour drawn from [get_rectangle_height] passes [top] beyond the pin. *)
Definition pin_well_placed (j n : Z) : bool :=
  let y := Connectors.get_y j n Connectors.spacing in
  let height := Connectors.get_rectangle_height n Connectors.spacing Connectors.top in
  (y =? - Connectors.get_y (n + 1 - j) n Connectors.spacing)%float &&
  (if (j <? n)%Z
   then (y <? Connectors.get_y (j + 1) n Connectors.spacing)%float &&
        (PyFloat.round (Connectors.get_y (j + 1) n Connectors.spacing - y) 2
           =? Connectors.spacing)%float
   else true) &&
  (abs y + Connectors.top <=? height)%float.

(** ** Writing a package: what [serialize] leaves *)

(** The file system [package.serialize(output_directory)] leaves when
    nothing is in its way: the directory is there, the marker is written,
    and the document holds the rendering and a newline, or nothing when the
    rendering raised. *)
Definition serialized (rendering : result string) (dir_path : string) (f : FS) : FS :=
  {| dirs := if bool_decide (dir_path ∈ dirs f) then dirs f
             else dirs f ∪ list_to_set (Path.parents dir_path) ∪ {[dir_path]};
     files := <[Path.join dir_path "package.lp" :=
                  match rendering with
                  | Ok text => text +:+ PyStr.LF
                  | Raise _ => EmptyString
                  end]>
                (<[Path.join dir_path ".librepcb-pkg" := "1" +:+ PyStr.LF]> (files f)) |}.

(** The way is free for [serialize]: its directory is there with the ones
    above it, or nothing stands where it and they will be; and no directory
    has the name of one of its two files. *)
Definition serialize_free (dir_path : string) (f : FS) : Prop :=
  ((dir_path ∈ dirs f /\ forall x, x ∈ Path.parents dir_path -> x ∈ dirs f) \/
   fs_free f dir_path) /\
  (Path.join dir_path ".librepcb-pkg" ∉ dirs f) /\
  (Path.join dir_path "package.lp" ∉ dirs f).

(** A sample package that cannot be rendered by the sample renderers: a
    coordinate of its footprint is not a number. *)
Definition package_with_nan : Package :=
  Package_add_footprint
    (Footprint_new "5c4a2f0e-0000-4000-8000-0000000000f0"
       {| Name_value := "Vertical" |} {| Description_value := EmptyString |}
       {| Position3D_x := nan; Position3D_y := 0; Position3D_z := 0 |}
       {| Rotation3D_x := 0; Rotation3D_y := 0; Rotation3D_z := 0 |})
    Sample.empty_package.

(** ** generate_led.py: the identifiers within a package *)

(** The identifiers a footprint gives out: its own, and those of its
    polygons, circles and texts.  (Its pads carry the identifiers of the
    package pads.) *)
Definition footprint_identifiers (f : Footprint) : list string :=
  Footprint_uuid f ::
  map Polygon_uuid (Footprint_polygons f) ++
  map Circle_uuid (Footprint_circles f) ++
  map StrokeText_uuid (Footprint_texts f).

(** The identifiers a package gives out: its own, those of its pads, and
    those of its footprints. *)
Definition identifiers (p : Package) : list string :=
  Package_uuid p :: map PackagePad_uuid (Package_pads p) ++
  concat (map footprint_identifiers (Package_footprints p)).

(** The identifier string [id] names another cache key than each of the
    strings [used]; and each string of [ids] another than those before it
    and than [used]. *)
Definition freshb (id : string) (used : list string) : bool :=
  forallb (fun id' => negb (String.eqb (normalize_key id) (normalize_key id'))) used.
Fixpoint all_freshb (ids used : list string) : bool :=
  match ids with
  | [] => true
  | id :: ids' => freshb id used && all_freshb ids' (id :: used)
  end.

(** The identifiers of the package are pairwise different, and each is
    what the cache holds for one of the identifier strings [used], in a
    cache that is keyed apart. *)
Definition identified (c : Led.LedConfig) (used : list string) (p : Package)
    (w : World) : Prop :=
  keyed_apart w /\
  NoDup (identifiers p) /\
  Forall (fun u => exists id, id ∈ used /\
                     uuid_cache w !! Led.uuid_key "pkg" (Led.pkg_name c) id = Some u)
         (identifiers p).

(** From a world where [P] holds, a value the statement [m] returns
    satisfies [Q] in the world the statement leaves. *)
Definition hoare {A} (P : World -> Prop) (m : M A) (Q : A -> World -> Prop) : Prop :=
  forall w, P w -> forall a, (m w).1 = Ok a -> Q a (m w).2.

(** The identifier strings of the outlines [_add_flattened_circle] may
    draw, of a vertical and of a horizontal footprint, in the order of the
    calls of [_uuid]. *)
Definition flattened_circle_ids (identifier : string) : list string :=
  [identifier; identifier +:+ "-top"; identifier +:+ "-bot"].
Definition vertical_footprint_ids (identifier_suffix : string) : list string :=
  ["footprint" +:+ identifier_suffix] ++
  flattened_circle_ids ("polygon-doc" +:+ identifier_suffix) ++
  flattened_circle_ids ("polygon-legend" +:+ identifier_suffix) ++
  flattened_circle_ids ("polygon-courtyard" +:+ identifier_suffix) ++
  ["text-name" +:+ identifier_suffix; "text-value" +:+ identifier_suffix].
Definition horizontal_footprint_ids (identifier_suffix : string) : list string :=
  ["footprint" +:+ identifier_suffix;
   "polygon-doc" +:+ identifier_suffix;
   PyStr.concat ["polygon-doc-"; "a"; identifier_suffix];
   PyStr.concat ["polygon-doc-"; "c"; identifier_suffix];
   "polygon-legend2" +:+ identifier_suffix;
   "polygon-legend" +:+ identifier_suffix;
   "polygon-courtyard" +:+ identifier_suffix;
   "text-name" +:+ identifier_suffix;
   "text-value" +:+ identifier_suffix].

(** ** Texts of one line *)

(** No line feed in the text. *)
Fixpoint one_line (s : string) : bool :=
  match s with
  | EmptyString => true
  | String ch s' => negb (Ascii.eqb ch (ascii_of_nat 10)) && one_line s'
  end.

(** ** Statements that return and leave files and output alone *)

(** From any world the statement [m] returns a value that satisfies [Q],
    and leaves the file system and the output as they were. *)
Definition runs {A} (m : M A) (Q : A -> Prop) : Prop :=
  forall w, exists a w', m w = (Ok a, w') /\ Q a /\ fs w' = fs w /\ stdout w' = stdout w.

(** ** generate_led.py: outlines *)

(** The polygon returns to where it starts: it has a first and a last
    vertex, at one position. *)
Definition closed_polygon (q : Polygon) : Prop :=
  exists v v', head (Polygon_vertices q) = Some v /\
               last (Polygon_vertices q) = Some v' /\
               Vertex_position v = Vertex_position v'.

(** Every polygon on the courtyard layer, in every footprint of the
    package, is closed. *)
Definition courtyards_closed (p : Package) : Prop :=
  Forall (fun f =>
            Forall (fun q => Layer_value (Polygon_layer q) = "top_courtyard" ->
                             closed_polygon q)
                   (Footprint_polygons f))
         (Package_footprints p).

(** ** A runtime to run the generators with *)





(** * Properties *)

(** ** Results and lists *)

Lemma rbind_Ok_inv {A B} (r : result A) (k : A -> result B) (b : B) :
  rbind r k = Ok b -> exists a, r = Ok a /\ k a = Ok b.
Proof. destruct r as [a|e]; simpl; [eauto | discriminate]. Qed.

Lemma rmap_is_Ok {A B} (f : A -> result B) (l : list A) :
  Forall (fun x => is_Ok (f x)) l -> is_Ok (rmap f l).
Proof.
  induction 1 as [|x l [y Hy] _ [ys Hys]]; simpl.
  - by exists [].
  - rewrite Hy; simpl. rewrite Hys; simpl. by eexists.
Qed.

Lemma rmap_Ok_length {A B} (f : A -> result B) (l : list A) (ys : list B) :
  rmap f l = Ok ys -> length ys = length l.
Proof.
  revert ys; induction l as [|x l IH]; simpl; intros ys H.
  - by inversion H.
  - apply rbind_Ok_inv in H as (y & _ & H).
    apply rbind_Ok_inv in H as (ys' & Hys & H).
    inversion H; subst; simpl. f_equal; eauto.
Qed.

(** ** Containers keep insertion order *)

Lemma Footprint_calls_fields (f : Footprint) (cs : list FootprintCall) :
  Footprint_uuid (Footprint_calls f cs) = Footprint_uuid f /\
  Footprint_name (Footprint_calls f cs) = Footprint_name f /\
  Footprint_description (Footprint_calls f cs) = Footprint_description f /\
  Footprint_position_3d (Footprint_calls f cs) = Footprint_position_3d f /\
  Footprint_rotation_3d (Footprint_calls f cs) = Footprint_rotation_3d f /\
  Footprint_pads (Footprint_calls f cs) = Footprint_pads f ++ pads_added cs /\
  Footprint_models_3d (Footprint_calls f cs) = Footprint_models_3d f ++ models_3d_added cs /\
  Footprint_polygons (Footprint_calls f cs) = Footprint_polygons f ++ polygons_added cs /\
  Footprint_circles (Footprint_calls f cs) = Footprint_circles f ++ circles_added cs /\
  Footprint_texts (Footprint_calls f cs) = Footprint_texts f ++ texts_added cs.
Proof.
  revert f; induction cs as [|c cs IH]; intros f.
  - simpl. by rewrite !app_nil_r.
  - change (Footprint_calls f (c :: cs)) with (Footprint_calls (Footprint_call f c) cs).
    destruct (IH (Footprint_call f c)) as (-> & -> & -> & -> & -> & -> & -> & -> & -> & ->).
    destruct c; simpl; rewrite <- ?app_assoc; done.
Qed.

Lemma Package_calls_fields (p : Package) (cs : list PackageCall) :
  Package_with_children (Package_calls p cs) [] [] [] [] = Package_with_children p [] [] [] [] /\
  Package_pads (Package_calls p cs) = Package_pads p ++ pkg_pads_added cs /\
  Package_models_3d (Package_calls p cs) = Package_models_3d p ++ pkg_models_3d_added cs /\
  Package_footprints (Package_calls p cs) = Package_footprints p ++ pkg_footprints_added cs /\
  Package_approvals (Package_calls p cs) = Package_approvals p ++ pkg_approvals_added cs.
Proof.
  revert p; induction cs as [|c cs IH]; intros p.
  - simpl. by rewrite !app_nil_r.
  - change (Package_calls p (c :: cs)) with (Package_calls (Package_call p c) cs).
    destruct (IH (Package_call p c)) as (-> & -> & -> & -> & ->).
    destruct c; simpl; rewrite <- ?app_assoc; done.
Qed.

Lemma append_cons (x : ascii) (a b : string) :
  String x a +:+ b = String x (a +:+ b).
Proof. reflexivity. Qed.

Lemma append_assoc (a b c : string) : (a +:+ b) +:+ c = a +:+ (b +:+ c).
Proof. induction a as [|x a IH]; [done |]. by rewrite !append_cons, IH. Qed.

Lemma append_nil_r (a : string) : a +:+ EmptyString = a.
Proof. induction a as [|x a IH]; [done |]. by rewrite append_cons, IH. Qed.

Lemma concat_app (a b : list string) :
  PyStr.concat (a ++ b) = PyStr.concat a +:+ PyStr.concat b.
Proof.
  induction a as [|x a IH]; [done |].
  change (x +:+ PyStr.concat (a ++ b) = (x +:+ PyStr.concat a) +:+ PyStr.concat b).
  by rewrite IH, append_assoc.
Qed.

Lemma indent_entities_app (a b : list string) :
  indent_entities (a ++ b) = indent_entities a +:+ indent_entities b.
Proof. unfold indent_entities. by rewrite map_app, concat_app. Qed.

(** C4: ordered children are emitted in insertion order.  Whatever calls
    build a footprint, its serialisation renders the pads, polygons, circles
    and texts in the order of their [add_*] calls (the 3D models sorted);
    whatever calls build a package, its serialisation renders the package
    pads and the footprints in the order of their calls.  [indent_entities]
    writes the renderings it is handed one after the other. *)
Theorem children_in_insertion_order (I : Imports) :
  (forall uuid name description position_3d rotation_3d (cs : list FootprintCall),
     Footprint_str I
       (Footprint_calls (Footprint_new uuid name description position_3d rotation_3d) cs) =
     (name <- Name_str I name ;;
      description <- Description_str I description ;;
      position_3d <- Position3D_str I position_3d ;;
      rotation_3d <- Rotation3D_str I rotation_3d ;;
      models_3d <- rmap Footprint3DModel_str
                     (sorted Footprint3DModel_lt (models_3d_added cs)) ;;
      pads <- rmap (FootprintPad_str I) (pads_added cs) ;;
      polygons <- rmap (Polygon_str I) (polygons_added cs) ;;
      circles <- rmap (Circle_str I) (circles_added cs) ;;
      texts <- rmap (StrokeText_str I) (texts_added cs) ;;
      Ok (PyStr.concat
            ["(footprint "; uuid; PyStr.LF;
             " "; name; PyStr.LF;
             " "; description; PyStr.LF;
             " "; position_3d; " "; rotation_3d; PyStr.LF;
             indent_entities models_3d;
             indent_entities pads;
             indent_entities polygons;
             indent_entities circles;
             indent_entities texts;
             ")"]))%res) /\
  (forall uuid name description keywords author version created deprecated
          generated_by categories assembly_type (cs : list PackageCall),
     Package_str I
       (Package_calls (Package_new uuid name description keywords author version
                         created deprecated generated_by categories assembly_type) cs) =
     (name <- Name_str I name ;;
      description <- Description_str I description ;;
      keywords <- Keywords_str I keywords ;;
      author <- Author_str I author ;;
      version <- Version_str I version ;;
      created <- Created_str I created ;;
      deprecated <- Deprecated_str I deprecated ;;
      generated_by <- GeneratedBy_str I generated_by ;;
      categories <- rmap (Category_str I) categories ;;
      assembly_type <- EnumValue_str I (AssemblyType.enum assembly_type) ;;
      pads <- rmap (PackagePad_str I) (pkg_pads_added cs) ;;
      models_3d <- rmap (Package3DModel_str I) (pkg_models_3d_added cs) ;;
      footprints <- rmap (Footprint_str I) (pkg_footprints_added cs) ;;
      Ok (PyStr.concat
            ["(librepcb_package "; uuid; PyStr.LF;
             " "; name; PyStr.LF;
             " "; description; PyStr.LF;
             " "; keywords; PyStr.LF;
             " "; author; PyStr.LF;
             " "; version; PyStr.LF;
             " "; created; PyStr.LF;
             " "; deprecated; PyStr.LF;
             " "; generated_by; PyStr.LF;
             PyStr.concat (map (fun cat => " " +:+ cat +:+ PyStr.LF) categories);
             " "; assembly_type; PyStr.LF;
             indent_entities pads;
             indent_entities models_3d;
             indent_entities footprints;
             indent_entities (sorted PyStr.ltb (pkg_approvals_added cs));
             ")"]))%res) /\
  (forall a b : list string,
     indent_entities (a ++ b) = indent_entities a +:+ indent_entities b).
Proof.
  split; [| split].
  - intros uuid name description position_3d rotation_3d cs.
    unfold Footprint_str.
    destruct (Footprint_calls_fields
                (Footprint_new uuid name description position_3d rotation_3d) cs)
      as (-> & -> & -> & -> & -> & -> & -> & -> & -> & ->).
    reflexivity.
  - intros uuid name description keywords author version created deprecated
           generated_by categories assembly_type cs.
    destruct (Package_calls_fields
                (Package_new uuid name description keywords author version created
                   deprecated generated_by categories assembly_type) cs)
      as (Hfix & Hpads & Hmodels & Hfootprints & Happrovals).
    unfold Package_str. rewrite Hpads, Hmodels, Hfootprints, Happrovals.
    injection Hfix as -> -> -> -> -> -> -> -> -> -> ->.
    reflexivity.
  - apply indent_entities_app.
Qed.

(** ** The ordering of 3D models *)

Lemma compare_refl (a : string) : String.compare a a = Eq.
Proof.
  induction a as [|c a IH]; simpl; [done |].
  unfold Ascii.compare. by rewrite N.compare_refl.
Qed.

Lemma ltb_irrefl (a : string) : PyStr.ltb a a = false.
Proof. unfold PyStr.ltb, String.ltb. by rewrite compare_refl. Qed.

Lemma ltb_neq (a b : string) : PyStr.ltb a b = true -> PyStr.eqb a b = false.
Proof.
  intros Hlt. unfold PyStr.eqb. apply String.eqb_neq. intros ->.
  by rewrite ltb_irrefl in Hlt.
Qed.

(** C5: [a < b] on package 3D models is the lexicographic order on (uuid,
    name), [a == b] is equality of both fields, and footprint 3D models are
    ordered and compared by uuid alone.  The comparisons of [Name] are those
    of [entities.common]. *)
Theorem model_3d_ordering (I : Imports) (a b : Package3DModel) (x y : Footprint3DModel) :
  (Package3DModel_lt I a b = Ok true <->
     PyStr.ltb (Package3DModel_uuid a) (Package3DModel_uuid b) = true \/
     (Package3DModel_uuid a = Package3DModel_uuid b /\
      Name_lt I (Package3DModel_name a) (Package3DModel_name b) = Ok true)) /\
  (Package3DModel_eq I a b = Ok true <->
     Package3DModel_uuid a = Package3DModel_uuid b /\
     Name_eq I (Package3DModel_name a) (Package3DModel_name b) = Ok true) /\
  Footprint3DModel_lt x y = PyStr.ltb (Footprint3DModel_uuid x) (Footprint3DModel_uuid y) /\
  (Footprint3DModel_eq x y = true <-> Footprint3DModel_uuid x = Footprint3DModel_uuid y).
Proof.
  unfold Package3DModel_lt, Package3DModel_eq, Footprint3DModel_lt, Footprint3DModel_eq.
  unfold PyStr.eqb at 1 2 3.
  split; [| split; [| split]].
  - destruct (String.eqb_spec (Package3DModel_uuid a) (Package3DModel_uuid b)) as [E|E].
    + split; [auto |]. intros [Hlt | [_ Hname]]; [| done].
      rewrite E, ltb_irrefl in Hlt. discriminate.
    + split; [intros [= ->]; auto |]. intros [-> | [Huuid _]]; done.
  - destruct (String.eqb_spec (Package3DModel_uuid a) (Package3DModel_uuid b)) as [E|E].
    + split; [auto | by intros [_ ?]].
    + split; [discriminate | by intros [? _]].
  - reflexivity.
  - apply String.eqb_eq.
Qed.

(** ** The serialiser returns *)

Ltac ok_step :=
  match goal with
  | H : is_Ok ?r |- context [rbind ?r _] =>
      let s := fresh "s" in destruct H as [s ->]; cbn [rbind]
  end.

Section Totality.
Variable I : Imports.

Lemma StrokeText_str_total (t : StrokeText) :
  StrokeText_wf I t -> is_Ok (StrokeText_str I t).
Proof.
  unfold StrokeText_wf, StrokeText_str.
  intros (? & ? & ? & ? & ? & ? & ? & ? & ? & ? & ?).
  repeat ok_step. by eexists.
Qed.

Lemma PadHole_str_total (h : PadHole) :
  PadHole_wf I h -> is_Ok (PadHole_str I h).
Proof.
  unfold PadHole_wf, PadHole_str. intros (? & Hv%rmap_is_Ok).
  repeat ok_step. by eexists.
Qed.

Lemma FootprintPad_str_total (p : FootprintPad) :
  FootprintPad_wf I p -> is_Ok (FootprintPad_str I p).
Proof.
  unfold FootprintPad_wf, FootprintPad_str, Size_str.
  intros (? & ? & ? & ? & ? & ? & ? & ? & ? & ? & ? & ? & Hh).
  assert (is_Ok (rmap (PadHole_str I) (FootprintPad_holes p))).
  { apply rmap_is_Ok. eapply Forall_impl; [exact Hh |]. apply PadHole_str_total. }
  repeat ok_step. by eexists.
Qed.

Lemma Footprint3DModel_rmap_total (l : list Footprint3DModel) :
  is_Ok (rmap Footprint3DModel_str l).
Proof. apply rmap_is_Ok, Forall_forall. intros m _. by eexists. Qed.

Lemma Footprint_str_total (f : Footprint) :
  Footprint_wf I f -> is_Ok (Footprint_str I f).
Proof.
  unfold Footprint_wf, Footprint_str.
  intros (? & ? & ? & ? & Hpads & Hpoly%rmap_is_Ok & Hcirc%rmap_is_Ok & Htexts).
  pose proof (Footprint3DModel_rmap_total
                (sorted Footprint3DModel_lt (Footprint_models_3d f))).
  assert (is_Ok (rmap (FootprintPad_str I) (Footprint_pads f))).
  { apply rmap_is_Ok. eapply Forall_impl; [exact Hpads |]. apply FootprintPad_str_total. }
  assert (is_Ok (rmap (StrokeText_str I) (Footprint_texts f))).
  { apply rmap_is_Ok. eapply Forall_impl; [exact Htexts |]. apply StrokeText_str_total. }
  repeat ok_step. by eexists.
Qed.

Lemma Package_str_total (p : Package) :
  Package_wf I p -> is_Ok (Package_str I p).
Proof.
  unfold Package_wf, Package_str.
  intros (? & ? & ? & ? & ? & ? & ? & ? & Hcat%rmap_is_Ok & ? & Hpads & Hmodels & Hfoot).
  assert (is_Ok (rmap (PackagePad_str I) (Package_pads p))).
  { apply rmap_is_Ok. eapply Forall_impl; [exact Hpads |].
    intros x [s Hs]. unfold PackagePad_str. rewrite Hs. by eexists. }
  assert (is_Ok (rmap (Package3DModel_str I) (Package_models_3d p))).
  { apply rmap_is_Ok. eapply Forall_impl; [exact Hmodels |].
    intros x [s Hs]. unfold Package3DModel_str. rewrite Hs. by eexists. }
  assert (is_Ok (rmap (Footprint_str I) (Package_footprints p))).
  { apply rmap_is_Ok. eapply Forall_impl; [exact Hfoot |]. apply Footprint_str_total. }
  repeat ok_step. by eexists.
Qed.

End Totality.

(** C6: the serialiser is total over well-formed trees.  When every
    primitive value in a package tree renders, [str(package)] returns a
    string: the serialisers of package.py, the sorting and the indentation
    add no way to fail. *)
Theorem serializer_total (I : Imports) (p : Package) :
  Package_wf I p -> exists s : string, Package_str I p = Ok s.
Proof. apply Package_str_total. Qed.

Lemma sample_package_wf : Package_wf SpecModel.imports Sample.package_ab.
Proof.
  repeat first [ split | apply Forall_cons | apply Forall_nil
               | (eexists; vm_compute; reflexivity) ].
Qed.

Lemma serializer_total_witness :
  Package_wf SpecModel.imports Sample.package_ab /\
  exists s : string, Package_str SpecModel.imports Sample.package_ab = Ok s.
Proof.
  split; [exact sample_package_wf |].
  exact (serializer_total SpecModel.imports Sample.package_ab sample_package_wf).
Defined.

(** ** The UUID cache *)

Lemma resolve_lookup (key : string) (w : World) :
  uuid_cache (resolve key w).2 !! key = Some (resolve key w).1.
Proof.
  unfold resolve. destruct (uuid_cache w !! key) eqn:E; simpl; [done |].
  apply lookup_insert_eq.
Qed.

Lemma resolve_grows (key : string) (w : World) :
  uuid_cache w ⊆ uuid_cache (resolve key w).2.
Proof.
  unfold resolve. destruct (uuid_cache w !! key) eqn:E; simpl; [done |].
  by apply insert_subseteq.
Qed.

Lemma resolve_hit (key u : string) (w : World) :
  uuid_cache w !! key = Some u -> resolve key w = (u, w).
Proof. unfold resolve. by intros ->. Qed.

(** The three statements that end both [uuid] functions. *)
Lemma lookup_or_mint_resolve (key : string) (w : World) :
  (known <- cache_contains key ;;
   (if negb known then (fresh <- uuid4 ;; cache_set key fresh) else ret tt) ;;
   cache_get key)%M w = (Ok (resolve key w).1, (resolve key w).2).
Proof.
  unfold bind, cache_contains, cache_get, cache_set, uuid4, ret, resolve.
  destruct (uuid_cache w !! key) as [u|] eqn:E.
  - rewrite bool_decide_eq_true_2 by eauto. simpl. by rewrite E.
  - rewrite bool_decide_eq_false_2 by (by intros [? ?]). simpl.
    by rewrite lookup_insert_eq.
Qed.

Lemma Led_uuid_resolve (category full_name identifier : string) (w : World) :
  Led.uuid category full_name identifier w =
  (Ok (resolve (Led.uuid_key category full_name identifier) w).1,
   (resolve (Led.uuid_key category full_name identifier) w).2).
Proof. apply lookup_or_mint_resolve. Qed.

Lemma Connectors_uuid_resolve (typ : string) (pin_number : Z)
    (identifier : option string) (w : World) :
  Connectors.uuid typ pin_number identifier w =
  (Ok (resolve (Connectors.uuid_key typ pin_number identifier) w).1,
   (resolve (Connectors.uuid_key typ pin_number identifier) w).2).
Proof. apply lookup_or_mint_resolve. Qed.

Lemma Led_uuid_calls_keep (calls : list (string * string * string))
    (key u : string) (w : World) :
  uuid_cache w !! key = Some u ->
  uuid_cache (Led_uuid_calls calls w).2 !! key = Some u.
Proof.
  revert w; induction calls as [|[[c n] i] calls IH]; intros w Hw; [done |].
  unfold Led_uuid_calls; cbn [for_each]. unfold bind at 1 2.
  rewrite Led_uuid_resolve. cbn [ret].
  apply IH. eapply lookup_weaken; [exact Hw | apply resolve_grows].
Qed.

Lemma Connectors_uuid_calls_keep (calls : list (string * Z * option string))
    (key u : string) (w : World) :
  uuid_cache w !! key = Some u ->
  uuid_cache (Connectors_uuid_calls calls w).2 !! key = Some u.
Proof.
  revert w; induction calls as [|[[c n] i] calls IH]; intros w Hw; [done |].
  unfold Connectors_uuid_calls; cbn [for_each]. unfold bind at 1 2.
  rewrite Connectors_uuid_resolve. cbn [ret].
  apply IH. eapply lookup_weaken; [exact Hw | apply resolve_grows].
Qed.

(** C3: identifier resolution is idempotent within a run.  In both scripts
    a call of [uuid] returns what [resolve] says for its key: the stored
    identifier on a hit, and on the first miss the next draw, which it
    stores under the key.  The same call made again right away, or after
    any further [uuid] calls, returns that identifier and changes nothing. *)
Theorem uuid_memoizes :
  (forall (category full_name identifier : string) (w : World),
     let key := Led.uuid_key category full_name identifier in
     let u := (resolve key w).1 in
     let w1 := (resolve key w).2 in
     Led.uuid category full_name identifier w = (Ok u, w1) /\
     uuid_cache w1 !! key = Some u /\
     Led.uuid category full_name identifier w1 = (Ok u, w1) /\
     forall later : list (string * string * string),
       let w2 := (Led_uuid_calls later w1).2 in
       Led.uuid category full_name identifier w2 = (Ok u, w2)) /\
  (forall (typ : string) (pin_number : Z) (identifier : option string) (w : World),
     let key := Connectors.uuid_key typ pin_number identifier in
     let u := (resolve key w).1 in
     let w1 := (resolve key w).2 in
     Connectors.uuid typ pin_number identifier w = (Ok u, w1) /\
     uuid_cache w1 !! key = Some u /\
     Connectors.uuid typ pin_number identifier w1 = (Ok u, w1) /\
     forall later : list (string * Z * option string),
       let w2 := (Connectors_uuid_calls later w1).2 in
       Connectors.uuid typ pin_number identifier w2 = (Ok u, w2)).
Proof.
  split.
  - intros category full_name identifier w key u w1.
    pose proof (resolve_lookup key w) as Hkey. fold u w1 in Hkey.
    split; [apply Led_uuid_resolve |]. split; [exact Hkey |].
    split.
    + rewrite Led_uuid_resolve. fold key. by rewrite (resolve_hit _ _ _ Hkey).
    + intros later w2. rewrite Led_uuid_resolve. fold key.
      by rewrite (resolve_hit key u w2 (Led_uuid_calls_keep later key u w1 Hkey)).
  - intros typ pin_number identifier w key u w1.
    pose proof (resolve_lookup key w) as Hkey. fold u w1 in Hkey.
    split; [apply Connectors_uuid_resolve |]. split; [exact Hkey |].
    split.
    + rewrite Connectors_uuid_resolve. fold key. by rewrite (resolve_hit _ _ _ Hkey).
    + intros later w2. rewrite Connectors_uuid_resolve. fold key.
      by rewrite (resolve_hit key u w2 (Connectors_uuid_calls_keep later key u w1 Hkey)).
Qed.

(** ** Cache keys *)

Lemma map_ascii_app (f : ascii -> ascii) (a b : string) :
  PyStr.map_ascii f (a +:+ b) = PyStr.map_ascii f a +:+ PyStr.map_ascii f b.
Proof.
  induction a as [|x a IH]; [done |].
  rewrite append_cons. cbn [PyStr.map_ascii]. by rewrite append_cons, <- IH.
Qed.

Lemma map_ascii_map_ascii (f g : ascii -> ascii) (a : string) :
  PyStr.map_ascii f (PyStr.map_ascii g a) = PyStr.map_ascii (fun c => f (g c)) a.
Proof. induction a as [|x a IH]; [done |]. cbn [PyStr.map_ascii]. by rewrite <- IH. Qed.


Lemma normalize_key_map (s : string) :
  normalize_key s = PyStr.map_ascii normalize_char s.
Proof.
  unfold normalize_key, PyStr.replace_char, PyStr.lower.
  by rewrite map_ascii_map_ascii.
Qed.

Lemma normalize_key_app (a b : string) :
  normalize_key (a +:+ b) = normalize_key a +:+ normalize_key b.
Proof. rewrite !normalize_key_map. apply map_ascii_app. Qed.








(** ** The 1x4 socket strip *)

(** C7: for the 1x4 connector, [get_y(j, 4, 2.54)] is -3.81, -1.27, 1.27
    and 3.81 for j = 1, 2, 3, 4: four pads 2.54 mm apart, centred on 0. *)
Theorem get_y_1x4 :
  Connectors.get_y 1 4 2.54 = (-3.81)%float /\
  Connectors.get_y 2 4 2.54 = (-1.27)%float /\
  Connectors.get_y 3 4 2.54 = 1.27%float /\
  Connectors.get_y 4 4 2.54 = 3.81%float.
Proof. repeat split; vm_compute; reflexivity. Qed.

(** ** Construction order and the output *)

(** C1 fails on package-level 3D models: [Package.__str__] hands
    [self.models_3d] to [indent_entities] as it is, where
    [Footprint.__str__] sorts its own.  The two sample packages are built by
    the same calls, the two [add_3d_model] calls swapped; they hold the same
    children and serialise to different texts. *)
Theorem package_3d_models_not_sorted :
  Package_with_children Sample.package_ab [] [] [] [] =
    Package_with_children Sample.package_ba [] [] [] [] /\
  Package_pads Sample.package_ab = Package_pads Sample.package_ba /\
  Package_footprints Sample.package_ab = Package_footprints Sample.package_ba /\
  Package_approvals Sample.package_ab = Package_approvals Sample.package_ba /\
  Package_models_3d Sample.package_ab ≡ₚ Package_models_3d Sample.package_ba /\
  exists doc_ab doc_ba : string,
    Package_str SpecModel.imports Sample.package_ab = Ok doc_ab /\
    Package_str SpecModel.imports Sample.package_ba = Ok doc_ba /\
    String.eqb doc_ab doc_ba = false.
Proof.
  split; [reflexivity |]. split; [reflexivity |]. split; [reflexivity |].
  split; [reflexivity |]. split; [apply perm_swap |].
  eexists _, _. split; [vm_compute; reflexivity |].
  split; [vm_compute; reflexivity |]. vm_compute; reflexivity.
Qed.

(** *** What sorting buys: the sorted child lists *)

Section SortedByKey.
Context {A : Type} (key : A -> string) (key_inj : forall a b, key a = key b -> a = b).

Let lt (a b : A) : bool := PyStr.ltb (key a) (key b).
Let R (a b : A) : Prop := String.le (key a) (key b).

Lemma lt_false_le (a b : A) : lt b a = false -> R a b.
Proof.
  unfold lt, R, String.le, PyStr.ltb, String.ltb, String.leb.
  rewrite (String.compare_antisym (key b) (key a)).
  destruct (String.compare (key a) (key b)); simpl; done.
Qed.

Lemma lt_true_le (a b : A) : lt a b = true -> R a b.
Proof.
  unfold lt, R, String.le, PyStr.ltb, String.ltb, String.leb.
  destruct (String.compare (key a) (key b)); simpl; done.
Qed.

Lemma R_trans (a b c : A) : R a b -> R b c -> R a c.
Proof. unfold R. intros. by etrans. Qed.

Lemma R_antisym (a b : A) : R a b -> R b a -> a = b.
Proof. unfold R. intros H1 H2. apply key_inj. by apply (anti_symm String.le). Qed.

Lemma insert_sorted_perm (x : A) (l : list A) : insert_sorted lt x l ≡ₚ x :: l.
Proof.
  induction l as [|y l IH]; simpl; [done |].
  destruct (lt y x); [| done]. rewrite IH. apply perm_swap.
Qed.

Lemma sorted_perm (l : list A) : sorted lt l ≡ₚ l.
Proof.
  induction l as [|x l IH]; simpl; [done |].
  unfold sorted in *. cbn [foldr]. by rewrite insert_sorted_perm, IH.
Qed.

Lemma insert_sorted_Sorted (x : A) (l : list A) :
  StronglySorted R l -> StronglySorted R (insert_sorted lt x l).
Proof.
  induction 1 as [|y l Hl IH Hy]; simpl.
  - by repeat constructor.
  - destruct (lt y x) eqn:E.
    + constructor; [done |].
      rewrite insert_sorted_perm. constructor; [by apply lt_true_le | done].
    + pose proof (lt_false_le _ _ E) as Hxy.
      constructor; [by constructor |].
      constructor; [done |].
      eapply Forall_impl; [exact Hy |]. intros z Hz. by eapply R_trans.
Qed.

Lemma sorted_Sorted (l : list A) : StronglySorted R (sorted lt l).
Proof.
  induction l as [|x l IH]; [constructor |].
  unfold sorted in *. cbn [foldr]. by apply insert_sorted_Sorted.
Qed.

(** Two lists with the same elements sort to one list. *)
Lemma sorted_perm_eq (l l' : list A) : l ≡ₚ l' -> sorted lt l = sorted lt l'.
Proof.
  intros Hperm.
  apply (StronglySorted_unique_strong R); [| apply sorted_Sorted.. |].
  - intros a b _ _. apply R_antisym.
  - by rewrite !sorted_perm.
Qed.

End SortedByKey.

Lemma sorted_models_3d_perm (l l' : list Footprint3DModel) :
  l ≡ₚ l' -> sorted Footprint3DModel_lt l = sorted Footprint3DModel_lt l'.
Proof.
  apply (sorted_perm_eq Footprint3DModel_uuid).
  intros [a] [b]; simpl. by intros ->.
Qed.

Lemma sorted_approvals_perm (l l' : list string) :
  l ≡ₚ l' -> sorted PyStr.ltb l = sorted PyStr.ltb l'.
Proof. apply (sorted_perm_eq (fun s => s)). auto. Qed.

(** X3 (the part of claim C1 that holds): a footprint's serialisation does
    not depend on the order in which its 3D model references were added,
    nor a package's on the order in which its approvals were added. *)
Theorem sorted_children_order_independent (I : Imports) (f : Footprint) (p : Package)
    (models_3d : list Footprint3DModel) (approvals : list string) :
  Footprint_models_3d f ≡ₚ models_3d ->
  Package_approvals p ≡ₚ approvals ->
  Footprint_str I f =
    Footprint_str I
      {| Footprint_uuid := Footprint_uuid f; Footprint_name := Footprint_name f;
         Footprint_description := Footprint_description f;
         Footprint_position_3d := Footprint_position_3d f;
         Footprint_rotation_3d := Footprint_rotation_3d f;
         Footprint_pads := Footprint_pads f;
         Footprint_models_3d := models_3d;
         Footprint_polygons := Footprint_polygons f;
         Footprint_circles := Footprint_circles f;
         Footprint_texts := Footprint_texts f |} /\
  Package_str I p =
    Package_str I (Package_with_children p (Package_pads p) (Package_models_3d p)
                     (Package_footprints p) approvals).
Proof.
  intros Hm Ha. split.
  - unfold Footprint_str; simpl. by rewrite (sorted_models_3d_perm _ _ Hm).
  - unfold Package_str; simpl. by rewrite (sorted_approvals_perm _ _ Ha).
Qed.

Lemma sorted_children_order_independent_witness :
  Footprint_models_3d Sample.footprint ≡ₚ
    rev (Footprint_models_3d Sample.footprint) /\
  Package_approvals (Package_add_approval "missing_footprint_3d_model" Sample.package_ab) ≡ₚ
    ["missing_footprint_3d_model"; "suspicious_pad"] /\
  Package_str SpecModel.imports
    (Package_add_approval "missing_footprint_3d_model" Sample.package_ab) =
  Package_str SpecModel.imports
    (Package_with_children Sample.package_ab (Package_pads Sample.package_ab)
       (Package_models_3d Sample.package_ab) (Package_footprints Sample.package_ab)
       ["missing_footprint_3d_model"; "suspicious_pad"]).
Proof.
  assert (H1 : Footprint_models_3d Sample.footprint ≡ₚ
               rev (Footprint_models_3d Sample.footprint)) by apply perm_swap.
  assert (H2 : Package_approvals
                 (Package_add_approval "missing_footprint_3d_model" Sample.package_ab) ≡ₚ
               ["missing_footprint_3d_model"; "suspicious_pad"]) by apply perm_swap.
  split; [exact H1 |]. split; [exact H2 |].
  exact (proj2 (sorted_children_order_independent SpecModel.imports Sample.footprint _ _ _
                  H1 H2)).
Defined.

(** ** Writing a package *)

Lemma string_app_assoc_cons (seen : string) (c : ascii) (rest : string) :
  (seen +:+ String c EmptyString) +:+ rest = seen +:+ String c rest.
Proof. by rewrite append_assoc. Qed.

Lemma parents_aux_app (seen a b : string) :
  Path.parents_aux seen (a +:+ b) =
  Path.parents_aux seen a ++ Path.parents_aux (seen +:+ a) b.
Proof.
  revert seen; induction a as [|c a IH]; intros seen.
  - simpl. by rewrite append_nil_r.
  - rewrite append_cons. cbn [Path.parents_aux].
    rewrite IH, string_app_assoc_cons. by rewrite <- app_assoc.
Qed.


Lemma plain_marker : plain_name ".librepcb-pkg".
Proof. split; [reflexivity | intros seen; reflexivity]. Qed.

Lemma plain_document : plain_name "package.lp".
Proof. split; [reflexivity | intros seen; reflexivity]. Qed.

(** The directory a joined file name lies in is the joined directory or
    one above it. *)
Lemma join_parent (d name x : string) :
  plain_name name ->
  last (Path.parents (Path.join d name)) = Some x ->
  x = d \/ x ∈ Path.parents d.
Proof.
  intros [Hstart Hplain]. unfold Path.join, Path.parents. rewrite Hstart.
  destruct (String.eqb_spec d EmptyString) as [-> | Hd]; cbn [orb].
  - cbn [String.append]. by rewrite Hplain.
  - destruct (PyStr.endswith d "/").
    + rewrite parents_aux_app, Hplain, app_nil_r. intros Hlast. right.
      apply last_Some in Hlast as [l' ->]. set_solver.
    + rewrite parents_aux_app.
      change ("/" +:+ name) with (String "/" name). cbn [Path.parents_aux].
      replace (String.eqb (EmptyString +:+ d) EmptyString) with false
        by (symmetry; by apply String.eqb_neq).
      cbn [Ascii.eqb Bool.eqb negb andb]. rewrite Hplain.
      rewrite app_nil_r, last_snoc. intros [= <-]. by left.
Qed.

Lemma length_append (a b : string) :
  String.length (a +:+ b) = String.length a + String.length b.
Proof. induction a as [|c a IH]; [done |]. rewrite append_cons. simpl. by rewrite IH. Qed.

Lemma parents_aux_length (seen rest x : string) :
  x ∈ Path.parents_aux seen rest ->
  String.length x < String.length seen + String.length rest.
Proof.
  revert seen; induction rest as [|c rest IH]; intros seen; cbn [Path.parents_aux].
  - by intros ?%elem_of_nil.
  - intros [Hx | Hx]%elem_of_app.
    + destruct (Ascii.eqb c "/" && negb (String.eqb seen EmptyString));
        [| by apply elem_of_nil in Hx].
      apply list_elem_of_singleton in Hx as ->. simpl. lia.
    + apply IH in Hx. rewrite length_append in Hx. simpl in *. lia.
Qed.

Lemma join_length (d name : string) :
  PyStr.startswith name "/" = false ->
  String.length d + String.length name <= String.length (Path.join d name).
Proof.
  intros Hstart. unfold Path.join. rewrite Hstart.
  destruct (String.eqb d EmptyString || PyStr.endswith d "/");
    rewrite !length_append; simpl; lia.
Qed.

(** A file joined to a directory is neither that directory nor one above
    it. *)
Lemma join_not_above (d name : string) :
  plain_name name -> 0 < String.length name ->
  Path.join d name <> d /\ Path.join d name ∉ Path.parents d.
Proof.
  intros [Hstart _] Hname. pose proof (join_length d name Hstart) as Hlen. split.
  - intros E. rewrite E in Hlen. lia.
  - intros Hin%parents_aux_length. simpl in Hin. lia.
Qed.

Lemma join_inj (d a b : string) :
  PyStr.startswith a "/" = false -> PyStr.startswith b "/" = false ->
  Path.join d a = Path.join d b -> a = b.
Proof.
  intros Ha Hb. unfold Path.join. rewrite Ha, Hb.
  destruct (String.eqb d EmptyString || PyStr.endswith d "/"); intros E.
  - by apply (inj (String.append d)) in E.
  - apply (inj (String.append d)) in E. by apply (inj (String.append "/")) in E.
Qed.

Lemma open_w_ok (p : string) (w : World) :
  p ∉ dirs (fs w) ->
  (forall x, last (Path.parents p) = Some x -> x ∈ dirs (fs w)) ->
  Path.open_w p w =
  (Ok tt, set_fs {| dirs := dirs (fs w); files := <[p := EmptyString]> (files (fs w)) |} w).
Proof.
  intros Hp Hparent. unfold Path.open_w.
  rewrite bool_decide_eq_false_2 by done.
  destruct (last (Path.parents p)) as [x|]; [| done].
  by rewrite bool_decide_eq_true_2 by auto.
Qed.

Lemma makedirs_ok (p : string) (w : World) :
  fs_free (fs w) p ->
  Path.makedirs p w =
  (Ok tt, set_fs {| dirs := dirs (fs w) ∪ list_to_set (Path.parents p) ∪ {[p]};
                    files := files (fs w) |} w).
Proof.
  intros (Hdir & Hfile & Hparents). unfold Path.makedirs.
  rewrite bool_decide_eq_false_2 by done.
  rewrite bool_decide_eq_false_2 by (rewrite Hfile; by intros [? ?]).
  cbn [orb].
  destruct (List.find _ (Path.parents p)) as [d|] eqn:E; [| done].
  apply List.find_some in E as [Hin Hd]. apply bool_decide_eq_true in Hd.
  rewrite Forall_forall in Hparents.
  rewrite (Hparents d) in Hd by (by apply list_elem_of_In). by destruct Hd.
Qed.

Lemma prefix_append (a b : string) : String.prefix a (a +:+ b) = true.
Proof.
  induction a as [|c a IH]; [by destruct b |].
  rewrite append_cons. simpl. destruct (ascii_dec c c); [done | congruence].
Qed.

Lemma Package_str_head (I : Imports) (p : Package) (text : string) :
  Package_str I p = Ok text ->
  PyStr.startswith text ("(librepcb_package " +:+ Package_uuid p) = true.
Proof.
  unfold Package_str. intros H.
  repeat (apply rbind_Ok_inv in H as (? & _ & H)).
  injection H as <-. unfold PyStr.startswith.
  cbn [PyStr.concat]. rewrite <- append_assoc. apply prefix_append.
Qed.

(** The statements of [serialize] after the directory is there. *)
Lemma serialize_files (I : Imports) (p : Package) (dir_path text : string) (w : World) :
  Package_str I p = Ok text ->
  dir_path ∈ dirs (fs w) ->
  (forall x, x ∈ Path.parents dir_path -> x ∈ dirs (fs w)) ->
  Path.join dir_path ".librepcb-pkg" ∉ dirs (fs w) ->
  Path.join dir_path "package.lp" ∉ dirs (fs w) ->
  ((Path.open_w (Path.join dir_path ".librepcb-pkg") ;;
    Path.write (Path.join dir_path ".librepcb-pkg") ("1" +:+ PyStr.LF)) ;;
   (Path.open_w (Path.join dir_path "package.lp") ;;
    text <- lift (Package_str I p) ;;
    Path.write (Path.join dir_path "package.lp") text ;;
    Path.write (Path.join dir_path "package.lp") PyStr.LF))%M w =
  (Ok tt,
   set_fs {| dirs := dirs (fs w);
             files := <[Path.join dir_path "package.lp" := text +:+ PyStr.LF]>
                        (<[Path.join dir_path ".librepcb-pkg" := "1" +:+ PyStr.LF]>
                           (files (fs w))) |} w).
Proof.
  intros Htext Hdir Habove Hmarker Hdocument.
  assert (Hparent : forall name x, plain_name name ->
            last (Path.parents (Path.join dir_path name)) = Some x -> x ∈ dirs (fs w)).
  { intros name x Hname [-> | Hx]%join_parent; auto. }
  unfold bind at 1 2.
  rewrite (open_w_ok _ w Hmarker (fun x => Hparent _ x plain_marker)).
  unfold Path.write at 1. cbn [fs set_fs dirs files].
  unfold bind at 1.
  rewrite open_w_ok; cbn [fs set_fs dirs files];
    [| done | exact (fun x => Hparent _ x plain_document)].
  unfold bind, lift. rewrite Htext. unfold Path.write. cbn [fs set_fs dirs files].
  unfold set_fs; cbn. do 2 f_equal. f_equal.
  rewrite !lookup_insert_eq, !insert_insert_eq. cbn [default].
  reflexivity.
Qed.

(** X1 (the layout of claim C8): output layout and framing.  On a tidy
    file system with nothing in the way,
    [package.serialize(output_directory)] returns; the directory named by
    the package's identifier exists afterwards; the files written are
    exactly the version marker and the document, whose content is
    [str(package)] and a final newline; and [str(package)] begins with
    [(librepcb_package] and the identifier. *)
Theorem serialize_layout (I : Imports) (p : Package) (output_directory text : string)
    (w : World) :
  let dir_path := Path.join output_directory (Package_uuid p) in
  let marker := Path.join dir_path ".librepcb-pkg" in
  let document := Path.join dir_path "package.lp" in
  Package_str I p = Ok text ->
  fs_tidy (fs w) ->
  dir_path ∈ dirs (fs w) \/ fs_free (fs w) dir_path ->
  marker ∉ dirs (fs w) ->
  document ∉ dirs (fs w) ->
  exists w' : World,
    Package_serialize I p output_directory w = (Ok tt, w') /\
    dir_path ∈ dirs (fs w') /\
    files (fs w') =
      <[document := text +:+ PyStr.LF]> (<[marker := "1" +:+ PyStr.LF]> (files (fs w))) /\
    marker <> document /\
    PyStr.startswith text ("(librepcb_package " +:+ Package_uuid p) = true /\
    uuid_cache w' = uuid_cache w.
Proof.
  intros dir_path marker document Htext Htidy Hdir Hmarker Hdocument.
  assert (Hne : marker <> document).
  { intros E%join_inj; [discriminate | reflexivity | reflexivity]. }
  pose proof (Package_str_head I p text Htext) as Hhead.
  unfold Package_serialize. fold dir_path.
  unfold bind at 1, Path.exists_ at 1.
  destruct (decide (dir_path ∈ dirs (fs w))) as [Hin | Hout].
  - rewrite (bool_decide_eq_true_2 _ Hin). cbn [orb].
    unfold bind at 1, Path.isdir at 1. rewrite (bool_decide_eq_true_2 _ Hin).
    cbn [andb negb]. unfold bind at 1, ret at 1.
    rewrite (serialize_files I p dir_path text w Htext Hin); [| eauto | done..].
    eexists. split; [reflexivity |]. by cbn.
  - destruct Hdir as [? | Hfree]; [done |].
    destruct Hfree as (Hfree1 & Hfree2 & Hfree3).
    rewrite (bool_decide_eq_false_2 _ Hout).
    rewrite bool_decide_eq_false_2 by (rewrite Hfree2; by intros [? ?]).
    cbn [orb]. unfold bind at 1, ret at 1. cbn [andb negb].
    unfold bind at 1. rewrite makedirs_ok by done.
    destruct (join_not_above dir_path ".librepcb-pkg" plain_marker) as [? ?];
      [cbn; lia |].
    destruct (join_not_above dir_path "package.lp" plain_document) as [? ?];
      [cbn; lia |].
    rewrite (serialize_files I p dir_path text _ Htext); cbn [fs set_fs dirs files].
    + eexists. split; [reflexivity |]. cbn. split; [set_solver | done].
    + set_solver.
    + intros x Hx. apply elem_of_union_l, elem_of_union_r.
      by apply elem_of_list_to_set.
    + fold marker. rewrite !elem_of_union, elem_of_list_to_set, elem_of_singleton.
      intros [[? | ?] | ?]; done.
    + fold document. rewrite !elem_of_union, elem_of_list_to_set, elem_of_singleton.
      intros [[? | ?] | ?]; done.
Qed.

Lemma serialize_layout_witness :
  exists (text : string) (w' : World),
    Package_str SpecModel.imports Sample.package_ab = Ok text /\
    Package_serialize SpecModel.imports Sample.package_ab "out/LibrePCB_Base.lplib/pkg"
      Sample.world = (Ok tt, w') /\
    "out/LibrePCB_Base.lplib/pkg/5c4a2f0e-0000-4000-8000-000000000000" ∈ dirs (fs w') /\
    files (fs w') =
      {[ "out/LibrePCB_Base.lplib/pkg/5c4a2f0e-0000-4000-8000-000000000000/package.lp" :=
           text +:+ PyStr.LF;
         "out/LibrePCB_Base.lplib/pkg/5c4a2f0e-0000-4000-8000-000000000000/.librepcb-pkg" :=
           "1" +:+ PyStr.LF ]}.
Proof.
  destruct (Package_str_total _ _ sample_package_wf) as [text Htext].
  destruct (serialize_layout SpecModel.imports Sample.package_ab
              "out/LibrePCB_Base.lplib/pkg" text Sample.world Htext)
    as (w' & Hrun & Hdir & Hfiles & _).
  - intros d x Hd. by apply elem_of_empty in Hd.
  - right. split; [apply not_elem_of_empty |]. split; [apply lookup_empty |].
    apply Forall_forall. intros d _. apply lookup_empty.
  - apply not_elem_of_empty.
  - apply not_elem_of_empty.
  - exists text, w'. split; [exact Htext |]. split; [exact Hrun |].
    split; [exact Hdir |]. rewrite Hfiles. reflexivity.
Defined.

(** ** How a run moves the world *)

Lemma advances_refl (w : World) : advances w w.
Proof. by split. Qed.

Lemma advances_trans (w1 w2 w3 : World) :
  advances w1 w2 -> advances w2 w3 -> advances w1 w3.
Proof. intros [H1 K1] [H2 K2]. split; [by etrans | auto]. Qed.

Lemma advances_same_ids (w w' : World) :
  uuid_cache w' = uuid_cache w -> random w' = random w -> drawn w' = drawn w ->
  advances w w'.
Proof.
  intros Hc Hr Hd. split; [by rewrite Hc |].
  unfold keyed_apart. by rewrite Hc, Hr, Hd.
Qed.

Lemma advances_resolve (key : string) (w : World) : advances w (resolve key w).2.
Proof.
  split; [apply resolve_grows |].
  unfold resolve. destruct (uuid_cache w !! key) eqn:E; [done |].
  intros (Hinj & Hfresh & Hdraws). repeat split; cbn.
  - intros k1 k2 u. rewrite !lookup_insert.
    destruct (decide (key = k1)) as [<- | N1], (decide (key = k2)) as [<- | N2];
      try done.
    + intros [= <-] K. by destruct (Hfresh (drawn w) k2 (Nat.le_refl _)).
    + intros K [= <-]. by destruct (Hfresh (drawn w) k1 (Nat.le_refl _)).
    + apply Hinj.
  - intros n k Hn. rewrite lookup_insert.
    destruct (decide (key = k)) as [<- | N].
    + intros [= K]. apply Hdraws in K; lia.
    + apply Hfresh. lia.
  - intros n m Hn Hm. apply Hdraws; lia.
Qed.

Lemma stable_holds (c : Led.LedConfig) (u ua uc : string) : stable (holds c u ua uc).
Proof.
  intros w w' [Hsub _] (H1 & H2 & H3).
  repeat split; by eapply lookup_weaken.
Qed.

Lemma stable_True : stable (fun _ => True).
Proof. done. Qed.

Lemma bind_Ok {A B} (m : M A) (k : A -> M B) (w w' : World) (a : A) :
  m w = (Ok a, w') -> bind m k w = k a w'.
Proof. unfold bind. by intros ->. Qed.

Lemma bind_Raise {A B} (m : M A) (k : A -> M B) (w w' : World) (e : exception) :
  m w = (Raise e, w') -> bind m k w = (Raise e, w').
Proof. unfold bind. by intros ->. Qed.

Section SpecRules.
Context {A B : Type}.

Lemma spec_ret (P : World -> Prop) (a : A) (Q : A -> Prop) :
  Q a -> spec P (ret a) Q.
Proof. intros Ha w _. split; [apply advances_refl |]. by intros ? [= <-]. Qed.

Lemma spec_raise (P : World -> Prop) (e : exception) (Q : A -> Prop) :
  spec P (raise e) Q.
Proof. intros w _. split; [apply advances_refl | done]. Qed.

Lemma spec_lift (P : World -> Prop) (r : result A) (Q : A -> Prop) :
  (forall a, r = Ok a -> Q a) -> spec P (lift r) Q.
Proof. intros Hr w _. split; [apply advances_refl | exact Hr]. Qed.

Lemma spec_bind (P : World -> Prop) (m : M A) (k : A -> M B)
    (Q1 : A -> Prop) (Q2 : B -> Prop) :
  stable P -> spec P m Q1 -> (forall a, Q1 a -> spec P (k a) Q2) ->
  spec P (bind m k) Q2.
Proof.
  intros HP Hm Hk w Hw. destruct (Hm w Hw) as [Hadv Hq].
  unfold bind. destruct (m w) as [[a|e] w1]; cbn in *; [| done].
  destruct (Hk a (Hq a eq_refl) w1 (HP _ _ Hadv Hw)) as [Hadv' Hq'].
  split; [by eapply advances_trans | done].
Qed.

Lemma spec_weaken (P : World -> Prop) (m : M A) (Q Q' : A -> Prop) :
  spec P m Q -> (forall a, Q a -> Q' a) -> spec P m Q'.
Proof. intros Hm HQ w Hw. destruct (Hm w Hw). split; auto. Qed.

(** A statement that leaves the cache and the random source alone. *)
Lemma spec_same_ids (P : World -> Prop) (m : M A) :
  (forall w, uuid_cache (m w).2 = uuid_cache w /\ random (m w).2 = random w /\
             drawn (m w).2 = drawn w) ->
  spec P m (fun _ => True).
Proof.
  intros Hm w _. destruct (Hm w) as (? & ? & ?).
  split; [by apply advances_same_ids | done].
Qed.

End SpecRules.

Lemma spec_uuid (P : World -> Prop) (category full_name identifier : string) :
  spec P (Led.uuid category full_name identifier) (fun _ => True).
Proof. intros w _. rewrite Led_uuid_resolve. split; [apply advances_resolve | done]. Qed.

Lemma spec_print (P : World -> Prop) (line : string) : spec P (print line) (fun _ => True).
Proof. by apply spec_same_ids. Qed.

Lemma spec_clock_read (P : World -> Prop) : spec P clock_read (fun _ => True).
Proof. by apply spec_same_ids. Qed.

Lemma spec_on_fs {A} (P : World -> Prop) (f : FS -> result A * FS) :
  spec P (on_fs f) (fun _ => True).
Proof. by apply spec_same_ids. Qed.

Lemma spec_exists (P : World -> Prop) (p : string) : spec P (Path.exists_ p) (fun _ => True).
Proof. by apply spec_same_ids. Qed.

Lemma spec_isdir (P : World -> Prop) (p : string) : spec P (Path.isdir p) (fun _ => True).
Proof. by apply spec_same_ids. Qed.

Lemma spec_makedirs (P : World -> Prop) (p : string) : spec P (Path.makedirs p) (fun _ => True).
Proof.
  apply spec_same_ids. intros w. unfold Path.makedirs.
  destruct (_ || _); [done |]. by destruct (List.find _ _).
Qed.

Lemma spec_open_w (P : World -> Prop) (p : string) : spec P (Path.open_w p) (fun _ => True).
Proof.
  apply spec_same_ids. intros w. unfold Path.open_w.
  destruct (bool_decide _); [done |].
  destruct (last _); [| done]. by destruct (bool_decide _).
Qed.

Lemma spec_write (P : World -> Prop) (p s : string) : spec P (Path.write p s) (fun _ => True).
Proof. by apply spec_same_ids. Qed.

Create HintDb spec discriminated.
#[export] Hint Resolve spec_uuid spec_print spec_clock_read spec_on_fs spec_exists
  spec_isdir spec_makedirs spec_open_w spec_write stable_holds stable_True : spec.

Lemma spec_lift_True {A} (P : World -> Prop) (r : result A) :
  spec P (lift r) (fun _ => True).
Proof. by apply spec_lift. Qed.

#[export] Hint Resolve spec_lift_True : spec.

(** Walks through a statement.  A bind whose first part yields a package
    passes the invariant [inv] on; any other first part passes nothing on.
    What is left are the goals [inv p] of the packages returned. *)
Ltac spec_go inv :=
  lazymatch goal with
  | |- stable _ => solve [eauto with spec]
  | |- spec _ (@bind Package _ _ _) _ =>
      eapply (spec_bind _ _ _ inv); [ spec_go inv | spec_go inv | intros ? ?; spec_go inv ]
  | |- spec _ (bind _ _) _ =>
      eapply (spec_bind _ _ _ (fun _ => True));
      [ spec_go inv | spec_go inv | intros ? _; spec_go inv ]
  | |- spec _ (ret _) (fun _ => True) => by apply spec_ret
  | |- spec _ (ret _) _ => apply spec_ret
  | |- spec _ (raise _) _ => apply spec_raise
  | |- spec _ (if ?b then _ else _) _ => destruct b; spec_go inv
  | |- spec _ (match ?o with Some _ => _ | None => _ end) _ => destruct o; spec_go inv
  | |- _ => first [ solve [eauto with spec] | idtac ]
  end.

Lemma spec_Package_serialize (P : World -> Prop) (I : Imports) (p : Package)
    (output_directory : string) :
  stable P -> spec P (Package_serialize I p output_directory) (fun _ => True).
Proof.
  intros HP. unfold Package_serialize. cbv zeta.
  spec_go (fun _ : Package => True).
Qed.

(** ** generate_led.py: which identifiers the entities get *)

Lemma update_last_snoc {A} (f : A -> A) (l : list A) (x : A) :
  Led.update_last f (l ++ [x]) = l ++ [f x].
Proof.
  induction l as [|y l IH]; [done |].
  cbn [app Led.update_last]. rewrite IH. by destruct l.
Qed.

Lemma update_last_map {A B} (f : A -> A) (g : A -> B) (l : list A) :
  (forall x, g (f x) = g x) -> map g (Led.update_last f l) = map g l.
Proof.
  intros Hfg. induction l as [|y l IH]; [done |].
  destruct l as [|z l]; cbn [Led.update_last map] in *; [by rewrite Hfg |].
  by rewrite IH.
Qed.

Lemma Forall_map_eq {A B} (P : B -> Prop) (g : A -> B) (l l' : list A) :
  map g l' = map g l -> Forall (fun x => P (g x)) l -> Forall (fun x => P (g x)) l'.
Proof.
  intros Hmap H. apply (proj1 (List.Forall_map g P l')).
  rewrite Hmap. by apply (proj2 (List.Forall_map g P l)).
Qed.

Section LedIdentifiers.
Variable I : Imports.
Variable asin acos : float -> result float.
Variable degrees : float -> float.
Variable pow : float -> float -> result float.
Variable Device_serialize : Device -> string -> FS -> result unit * FS.
Variable c : Led.LedConfig.
Variables u ua uc : string.

Lemma pads_shared_on_footprint (f : Footprint -> Footprint) (p : Package) :
  (forall x, Footprint_pads (f x) = Footprint_pads x) ->
  pads_shared u ua uc p -> pads_shared u ua uc (Led.on_footprint f p).
Proof.
  intros Hf (Hu & Hpads & Hfoot). split; [exact Hu |]. split; [exact Hpads |].
  cbn.
  apply (Forall_map_eq (fun pads => map pad_identifiers pads = _) Footprint_pads
           (Package_footprints p)); [| exact Hfoot].
  by apply update_last_map.
Qed.

(** Closes the goals [spec_go] leaves: a package changed by adding shapes
    and texts to its last footprint. *)
Ltac shared :=
  repeat (apply pads_shared_on_footprint; [reflexivity |]); assumption.

Lemma _uuid_hit (identifier x : string) (w : World) :
  uuid_cache w !! Led.uuid_key "pkg" (Led.pkg_name c) identifier = Some x ->
  Led._uuid c identifier w = (Ok x, w).
Proof.
  intros Hx. unfold Led._uuid, Led.category_pkg.
  by rewrite Led_uuid_resolve, (resolve_hit _ _ _ Hx).
Qed.

Lemma _uuid_resolve (identifier : string) (w : World) :
  Led._uuid c identifier w =
  (Ok (resolve (Led.uuid_key "pkg" (Led.pkg_name c) identifier) w).1,
   (resolve (Led.uuid_key "pkg" (Led.pkg_name c) identifier) w).2).
Proof. exact (Led_uuid_resolve Led.category_pkg (Led.pkg_name c) identifier w). Qed.

Lemma spec__uuid (P : World -> Prop) (identifier : string) :
  spec P (Led._uuid c identifier) (fun _ => True).
Proof. exact (spec_uuid P Led.category_pkg (Led.pkg_name c) identifier). Qed.

Lemma _add_footprint_pad_hit (pad_size : Size) (p : Package) (pad x : string)
    (factor : float) (w : World) :
  uuid_cache w !! Led.uuid_key "pkg" (Led.pkg_name c) ("pad-" +:+ pad) = Some x ->
  exists fp, Led._add_footprint_pad c pad_size p pad factor w =
               (Ok (Led.on_footprint (Footprint_add_pad fp) p), w) /\
             pad_identifiers fp = (x, x, [x]).
Proof.
  intros Hx. unfold Led._add_footprint_pad.
  eexists. split; [| shelve].
  rewrite (bind_Ok _ _ _ _ _ (_uuid_hit _ _ _ Hx)). reflexivity.
  Unshelve. reflexivity.
Qed.

Lemma spec__add_footprint (p : Package) (name : Name) (identifier_suffix : string)
    (pad_size : Size) :
  pads_shared u ua uc p ->
  spec (holds c u ua uc) (Led._add_footprint c p name identifier_suffix pad_size)
       (pads_shared u ua uc).
Proof.
  intros (Hu & Hpads & Hfoot) w Hw.
  unfold Led._add_footprint.
  rewrite (bind_Ok _ _ _ _ _ (_uuid_resolve _ w)).
  set (fu := (resolve _ w).1). set (w1 := (resolve _ w).2).
  assert (Hadv : advances w w1) by apply advances_resolve.
  destruct (stable_holds c u ua uc w w1 Hadv Hw) as (_ & Ha & Hc).
  cbv zeta.
  match goal with
  | |- context [Led._add_footprint_pad c pad_size ?q "a" ?f] =>
      destruct (_add_footprint_pad_hit pad_size q "a" ua f w1 Ha) as (fa & Ea & Ia)
  end.
  rewrite (bind_Ok _ _ _ _ _ Ea). cbv beta.
  match goal with
  | |- context [Led._add_footprint_pad c pad_size ?q "c" ?f] =>
      destruct (_add_footprint_pad_hit pad_size q "c" uc f w1 Hc) as (fc & Ec & Ic)
  end.
  rewrite (bind_Ok _ _ _ _ _ Ec). cbv beta.
  cbn [ret fst snd]. split; [exact Hadv |].
  intros a [= <-]. split; [exact Hu |]. split; [exact Hpads |].
  cbn. rewrite !update_last_snoc. apply Forall_app. split; [exact Hfoot |].
  constructor; [| constructor]. cbn. by rewrite Ia, Ic.
Qed.

#[local] Hint Resolve spec__uuid spec__add_footprint : spec.
#[local] Hint Extern 1 (pads_shared _ _ _ (Led.on_footprint _ _)) =>
  apply pads_shared_on_footprint; [reflexivity |] : spec.

Lemma spec__add_reduced_part (p : Package) (identifier layer : string)
    (inner_radius line_width angle y : float) (suffix : string) :
  pads_shared u ua uc p ->
  spec (holds c u ua uc)
       (Led._add_reduced_part c p identifier layer inner_radius line_width angle y suffix)
       (pads_shared u ua uc).
Proof.
  intros Hp. unfold Led._add_reduced_part. cbv zeta.
  spec_go (pads_shared u ua uc). shared.
Qed.

#[local] Hint Resolve spec__add_reduced_part : spec.

Lemma spec__add_flattened_circle (p : Package) (identifier layer : string)
    (outer_radius inner_radius line_width : float) (reduced : bool) :
  pads_shared u ua uc p ->
  spec (holds c u ua uc)
       (Led._add_flattened_circle asin acos degrees pow c p identifier layer
          outer_radius inner_radius line_width reduced)
       (pads_shared u ua uc).
Proof.
  intros Hp. unfold Led._add_flattened_circle. cbv zeta.
  spec_go (pads_shared u ua uc); shared.
Qed.

#[local] Hint Resolve spec__add_flattened_circle : spec.

Lemma spec__add_vertical_footprint (p : Package) (name : Name)
    (identifier_suffix : string) (pad_size : Size) :
  pads_shared u ua uc p ->
  spec (holds c u ua uc)
       (Led._add_vertical_footprint asin acos degrees pow c p name identifier_suffix
          pad_size)
       (pads_shared u ua uc).
Proof.
  intros Hp. unfold Led._add_vertical_footprint. cbv zeta.
  spec_go (pads_shared u ua uc); shared.
Qed.

Lemma spec__add_lead (p : Package) (identifier_suffix : string) (body_offset : float)
    (pad : string) (factor : float) :
  pads_shared u ua uc p ->
  spec (holds c u ua uc) (Led._add_lead c p identifier_suffix body_offset pad factor)
       (pads_shared u ua uc).
Proof.
  intros Hp. unfold Led._add_lead. cbv zeta.
  spec_go (pads_shared u ua uc). shared.
Qed.

#[local] Hint Resolve spec__add_vertical_footprint spec__add_lead : spec.

Lemma spec__add_horizontal_footprint (p : Package) (name : Name)
    (identifier_suffix : string) (pad_size : Size) (body_height body_offset : float) :
  pads_shared u ua uc p ->
  spec (holds c u ua uc)
       (Led._add_horizontal_footprint c p name identifier_suffix pad_size body_height
          body_offset)
       (pads_shared u ua uc).
Proof.
  intros Hp. unfold Led._add_horizontal_footprint. cbv zeta.
  spec_go (pads_shared u ua uc); shared.
Qed.

#[local] Hint Resolve spec__add_horizontal_footprint : spec.

End LedIdentifiers.

Lemma print_run (line : string) (w : World) :
  print line w = (Ok tt, set_stdout (stdout w ++ [line]) w).
Proof. reflexivity. Qed.

Lemma created_or_now_run (create_date : option string) (w : World) :
  exists s w', Led.created_or_now create_date w = (Ok s, w') /\
    uuid_cache w' = uuid_cache w /\ random w' = random w /\ drawn w' = drawn w.
Proof.
  unfold Led.created_or_now, Led.now, clock_read, ret.
  destruct create_date as [d|]; [destruct (truthy d) |]; by eexists _, _.
Qed.

Lemma spec_created_or_now (P : World -> Prop) (create_date : option string) :
  spec P (Led.created_or_now create_date) (fun _ => True).
Proof.
  intros w _. destruct (created_or_now_run create_date w) as (s & w' & -> & ? & ? & ?).
  split; [by apply advances_same_ids | done].
Qed.

#[export] Hint Resolve spec_created_or_now spec_Package_serialize : spec.

Section LedGenerators.
Variable I : Imports.
Variable asin acos : float -> result float.
Variable degrees : float -> float.
Variable pow : float -> float -> result float.
Variable Device_serialize : Device -> string -> FS -> result unit * FS.

#[local] Hint Resolve spec__uuid spec__add_vertical_footprint
  spec__add_horizontal_footprint : spec.
#[local] Hint Extern 1 (pads_shared _ _ _ (Package_add_pad _ _)) =>
  repeat split; first [reflexivity | constructor] : spec.

(** A package [generate_pkg] builds carries the identifier the cache holds
    for it, and its pads and footprint pads carry the two the cache holds
    for its pads. *)
Lemma generate_pkg_one_spec (library author pkgcat keywords version : string)
    (create_date : option string) (c : Led.LedConfig) (w : World) :
  let run := Led.generate_pkg_one I asin acos degrees pow library author pkgcat
               keywords version create_date c w in
  advances w run.2 /\
  forall pkg, run.1 = Ok pkg ->
    exists ua uc, holds c (Package_uuid pkg) ua uc run.2 /\
                  pads_shared (Package_uuid pkg) ua uc pkg.
Proof.
  cbv zeta. unfold Led.generate_pkg_one.
  (* uuid_pkg = _uuid('pkg') *)
  rewrite (bind_Ok _ _ _ _ _ (_uuid_resolve c "pkg" w)). cbv beta.
  pose proof (advances_resolve (key_pkg c) w) as A1.
  pose proof (resolve_lookup (key_pkg c) w) as L1.
  unfold key_pkg in A1, L1.
  set (u := (resolve (Led.uuid_key "pkg" (Led.pkg_name c) "pkg") w).1) in *.
  set (w1 := (resolve (Led.uuid_key "pkg" (Led.pkg_name c) "pkg") w).2) in *.
  (* print, created *)
  rewrite (bind_Ok _ _ _ _ _ (print_run _ w1)). cbv beta.
  set (w2 := set_stdout _ w1).
  assert (A2 : advances w1 w2) by (by apply advances_same_ids).
  destruct (created_or_now_run create_date w2) as (created & w3 & E & E1 & E2 & E3).
  rewrite (bind_Ok _ _ _ _ _ E). cbv beta.
  assert (A3 : advances w2 w3) by (by apply advances_same_ids).
  (* the package pads *)
  rewrite (bind_Ok _ _ _ _ _ (_uuid_resolve c "pad-a" w3)). cbv beta.
  pose proof (advances_resolve (key_pad_a c) w3) as A4.
  pose proof (resolve_lookup (key_pad_a c) w3) as L4.
  unfold key_pad_a in A4, L4.
  set (ua := (resolve (Led.uuid_key "pkg" (Led.pkg_name c) "pad-a") w3).1) in *.
  set (w4 := (resolve (Led.uuid_key "pkg" (Led.pkg_name c) "pad-a") w3).2) in *.
  rewrite (bind_Ok _ _ _ _ _ (_uuid_resolve c "pad-c" w4)). cbv beta.
  pose proof (advances_resolve (key_pad_c c) w4) as A5.
  pose proof (resolve_lookup (key_pad_c c) w4) as L5.
  unfold key_pad_c in A5, L5.
  set (uc := (resolve (Led.uuid_key "pkg" (Led.pkg_name c) "pad-c") w4).1) in *.
  set (w5 := (resolve (Led.uuid_key "pkg" (Led.pkg_name c) "pad-c") w4).2) in *.
  assert (H5 : holds c u ua uc w5).
  { split; [| split; [| exact L5]].
    - eapply lookup_weaken; [exact L1 |].
      etrans; [apply A2 |]. etrans; [apply A3 |]. etrans; [apply A4 | apply A5].
    - eapply lookup_weaken; [exact L4 | apply A5]. }
  (* the footprints and the files *)
  match goal with
  | |- advances _ (?m w5).2 /\ _ =>
      assert (Hrest : spec (holds c u ua uc) m (pads_shared u ua uc))
  end.
  { cbv zeta. spec_go (pads_shared u ua uc); try assumption.
    all: try (by repeat split). }
  destruct (Hrest w5 H5) as [A6 Hpkg].
  split.
  - eapply advances_trans; [exact A1 |]. eapply advances_trans; [exact A2 |].
    eapply advances_trans; [exact A3 |]. eapply advances_trans; [exact A4 |].
    eapply advances_trans; [exact A5 | exact A6].
  - intros pkg Hrun. exists ua, uc.
    destruct (Hpkg pkg Hrun) as (Hu & Hpads & Hfoot).
    split; [| by rewrite Hu].
    rewrite Hu. eapply stable_holds; [exact A6 | exact H5].
Qed.

(** A device [generate_dev] builds for a config refers to the identifiers
    the cache holds for the config's package and pads. *)
Lemma generate_dev_one_spec (library author cmpcat keywords version : string)
    (create_date : option string) (c : Led.LedConfig) (u ua uc : string) (w : World) :
  let run := Led.generate_dev_one Device_serialize library author cmpcat keywords
               version create_date c w in
  holds c u ua uc w ->
  advances w run.2 /\
  forall dev, run.1 = Ok dev ->
    PackageUUID_value (Device_package_uuid dev) = u /\
    map ComponentPad_pad_uuid (Device_pads dev) = [ua; uc].
Proof.
  cbv zeta. intros Hw. unfold Led.generate_dev_one.
  rewrite (bind_Ok _ _ _ _ _
             (Led_uuid_resolve Led.category_dev (Led.dev_name c) "dev" w)). cbv beta.
  pose proof (advances_resolve
                (Led.uuid_key Led.category_dev (Led.dev_name c) "dev") w) as A1.
  set (ud := (resolve _ w).1) in *. set (w1 := (resolve _ w).2) in *.
  rewrite (bind_Ok _ _ _ _ _ (print_run _ w1)). cbv beta.
  set (w2 := set_stdout _ w1).
  assert (A2 : advances w1 w2) by (by apply advances_same_ids).
  destruct (created_or_now_run create_date w2) as (created & w3 & E & E1 & E2 & E3).
  rewrite (bind_Ok _ _ _ _ _ E). cbv beta.
  assert (A3 : advances w2 w3) by (by apply advances_same_ids).
  assert (A03 : advances w w3).
  { eapply advances_trans; [exact A1 |]. eapply advances_trans; [exact A2 | exact A3]. }
  destruct (stable_holds c u ua uc w w3 A03 Hw) as (Hu & Ha & Hc).
  assert (Rpkg : Led.uuid "pkg" (Led.pkg_name c) "pkg" w3 = (Ok u, w3)).
  { rewrite Led_uuid_resolve. fold (key_pkg c). by rewrite (resolve_hit _ _ _ Hu). }
  assert (Ra : Led.uuid "pkg" (Led.pkg_name c) "pad-a" w3 = (Ok ua, w3)).
  { rewrite Led_uuid_resolve. fold (key_pad_a c). by rewrite (resolve_hit _ _ _ Ha). }
  assert (Rc : Led.uuid "pkg" (Led.pkg_name c) "pad-c" w3 = (Ok uc, w3)).
  { rewrite Led_uuid_resolve. fold (key_pad_c c). by rewrite (resolve_hit _ _ _ Hc). }
  rewrite (bind_Ok _ _ _ _ _ Rpkg). cbv beta.
  rewrite (bind_Ok _ _ _ _ _ Ra). cbv beta.
  rewrite (bind_Ok _ _ _ _ _ Rc). cbv beta.
  unfold bind, on_fs, ret.
  match goal with
  | |- context [Device_serialize ?d ?path (fs w3)] =>
      set (f := Device_serialize d path (fs w3))
  end.
  assert (A4 : advances w3 (set_fs f.2 w3)) by (by apply advances_same_ids).
  destruct f.1 as [[]|e]; cbn [fst snd].
  - split; [by eapply advances_trans |]. by intros dev [= <-].
  - split; [by eapply advances_trans | done].
Qed.

Lemma map_M_cons {A B} (f : A -> M B) (x : A) (l : list A) (w : World) :
  map_M f (x :: l) w =
  match f x w with
  | (Ok y, w1) =>
      match map_M f l w1 with
      | (Ok ys, w2) => (Ok (y :: ys), w2)
      | (Raise e, w2) => (Raise e, w2)
      end
  | (Raise e, w1) => (Raise e, w1)
  end.
Proof.
  cbn [map_M]. unfold bind, ret.
  destruct (f x w) as [[y|e] w1]; [| done].
  by destruct (map_M f l w1) as [[ys|e] w2].
Qed.


Lemma built_stable (w w' : World) (c : Led.LedConfig) (pkg : Package) :
  advances w w' -> built w c pkg -> built w' c pkg.
Proof.
  intros Hadv (ua & uc & Hh & Hs). exists ua, uc.
  split; [by eapply stable_holds | done].
Qed.

Lemma generate_pkg_spec (library author : string) (configs : list Led.LedConfig)
    (pkgcat keywords version : string) (create_date : option string) (w : World) :
  let run := Led.generate_pkg I asin acos degrees pow library author configs pkgcat
               keywords version create_date w in
  advances w run.2 /\
  forall pkgs, run.1 = Ok pkgs -> Forall2 (built run.2) configs pkgs.
Proof.
  cbv zeta. unfold Led.generate_pkg.
  revert w; induction configs as [|c cs IH]; intros w.
  - split; [apply advances_refl |]. intros pkgs [= <-]. constructor.
  - rewrite map_M_cons.
    pose proof (generate_pkg_one_spec library author pkgcat keywords version
                  create_date c w) as [A1 H1].
    destruct (Led.generate_pkg_one _ _ _ _ _ _ _ _ _ _ _ c w) as [[pkg|e] w1];
      cbn [fst snd] in *; [| by split].
    destruct (IH w1) as [A2 H2].
    destruct (map_M _ cs w1) as [[pkgs|e] w2]; cbn [fst snd] in *.
    + split; [by eapply advances_trans |].
      intros ? [= <-]. constructor; [| by apply H2].
      eapply built_stable; [exact A2 |]. by apply H1.
    + split; [by eapply advances_trans | done].
Qed.

Lemma generate_dev_spec (library author : string) (configs : list Led.LedConfig)
    (cmpcat keywords version : string) (create_date : option string)
    (pkgs : list Package) (w : World) :
  let run := Led.generate_dev Device_serialize library author configs cmpcat
               keywords version create_date w in
  Forall2 (built w) configs pkgs ->
  forall devs, run.1 = Ok devs -> Forall2 device_refers_to devs pkgs.
Proof.
  cbv zeta. unfold Led.generate_dev. intros Hbuilt.
  revert configs w Hbuilt; induction pkgs as [|pkg pkgs IH]; intros configs w Hbuilt.
  - apply Forall2_nil_inv_r in Hbuilt as ->. intros devs [= <-]. constructor.
  - apply Forall2_cons_inv_r in Hbuilt as (c & cs & Hc & Hcs & ->).
    rewrite map_M_cons. destruct Hc as (ua & uc & Hh & Hu & Hpads & _).
    pose proof (generate_dev_one_spec library author cmpcat keywords version
                  create_date c _ ua uc w Hh) as [A1 H1].
    destruct (Led.generate_dev_one _ _ _ _ _ _ _ c w) as [[dev|e] w1];
      cbn [fst snd] in *; [| done].
    assert (Hcs1 : Forall2 (built w1) cs pkgs).
    { eapply Forall2_impl; [exact Hcs |]. intros ? ?. by apply built_stable. }
    specialize (IH cs w1 Hcs1).
    destruct (map_M _ cs w1) as [[devs|e] w2]; cbn [fst snd] in *; [| done].
    intros ? [= <-]. constructor; [| by apply IH].
    destruct (H1 dev eq_refl) as [Hd1 Hd2].
    split; [done | by rewrite Hd2, Hpads].
Qed.

End LedGenerators.

(** X2 (the integrity of claim C10): the device refers to the package
    through the shared cache.  When the script's two generators run one
    after the other over one list of configs and return, each config's
    device carries the identifier of the config's package as its
    [package_uuid], and its two pads carry the identifiers of the package's
    pads A and C. *)
Theorem device_refers_to_package (I : Imports) (asin acos : float -> result float)
    (degrees : float -> float) (pow : float -> float -> result float)
    (Device_serialize : Device -> string -> FS -> result unit * FS)
    (configs : list Led.LedConfig) (w : World)
    (packages : list Package) (devices : list Device) :
  (Led.main_generate I asin acos degrees pow Device_serialize configs w).1 =
    Ok (packages, devices) ->
  Forall2 device_refers_to devices packages.
Proof.
  unfold Led.main_generate. unfold bind at 1.
  pose proof (generate_pkg_spec I asin acos degrees pow "LibrePCB_Base.lplib"
                "Danilo B." configs "9c36c4be-3582-4f27-ae00-4c1229f1e870" "led,tht"
                "0.1" (Some "2022-02-26T00:06:03Z") w) as [_ Hpkg].
  destruct (Led.generate_pkg _ _ _ _ _ _ _ _ _ _ _ _ w) as [[pkgs|e] w1];
    cbn [fst snd] in *; [| done].
  unfold bind at 1.
  pose proof (generate_dev_spec Device_serialize "LibrePCB_Base.lplib" "U. Bruhin"
                configs "70421345-ae1d-4fed-aa60-e7619524b97f" "led,tht" "0.1"
                (Some "2022-08-31T11:18:33Z") pkgs w1 (Hpkg pkgs eq_refl)) as Hdev.
  destruct (Led.generate_dev _ _ _ _ _ _ _ _ w1) as [[devs|e] w2];
    cbn [fst snd] in *; [| done].
  intros [= <- <-]. by apply Hdev.
Qed.

(** * Further properties of the generators *)

(** ** generate_led.py: the identifiers of a package and of its pads *)

Lemma device_refers_to_package_witness :
  exists (packages : list Package) (devices : list Device),
    Sample.generated.1 = Ok (packages, devices) /\
    Forall2 device_refers_to devices packages.
Proof.
  destruct Sample.generated.1 as [[packages devices]|e] eqn:E.
  - exists packages, devices. split; [reflexivity |].
    exact (device_refers_to_package _ _ _ _ _ _ _ _ _ _ E).
  - vm_compute in E. discriminate E.
Defined.

Lemma Led_uuid_key_split (category full_name identifier : string) :
  Led.uuid_key category full_name identifier =
  normalize_key (category +:+ "-" +:+ full_name +:+ "-") +:+ normalize_key identifier.
Proof.
  unfold Led.uuid_key. cbn [PyStr.concat]. rewrite append_nil_r.
  rewrite <- normalize_key_app. f_equal. by rewrite !append_assoc.
Qed.

Lemma Led_uuid_key_differ (category full_name i j : string) :
  normalize_key i <> normalize_key j ->
  Led.uuid_key category full_name i <> Led.uuid_key category full_name j.
Proof.
  rewrite !Led_uuid_key_split. intros H E. apply H.
  by apply (inj (String.app _)) in E.
Qed.

Lemma keys_of_config_differ (c : Led.LedConfig) :
  key_pad_a c <> key_pad_c c /\ key_pkg c <> key_pad_a c /\ key_pkg c <> key_pad_c c.
Proof. repeat split; apply Led_uuid_key_differ; by vm_compute. Qed.

Lemma built_apart (w : World) (c : Led.LedConfig) (pkg : Package) :
  keyed_apart w -> built w c pkg ->
  exists ua uc, ua <> uc /\ Package_uuid pkg <> ua /\ Package_uuid pkg <> uc /\
                pads_shared (Package_uuid pkg) ua uc pkg.
Proof.
  intros (Hinj & _ & _) (ua & uc & (Hu & Ha & Hc) & Hs).
  destruct (keys_of_config_differ c) as (Nac & Nua & Nuc).
  exists ua, uc. repeat split; try apply Hs.
  - intros ->. by apply Nac, (Hinj _ _ uc).
  - intros E. rewrite E in Hu. by apply Nua, (Hinj _ _ ua).
  - intros E. rewrite E in Hu. by apply Nuc, (Hinj _ _ uc).
Qed.

(** X4: in every package [generate_pkg] builds, the two package pads have
    two different identifiers, both different from the package's own, and
    every footprint has exactly two pads, which hold these two identifiers
    and no other: a footprint pad, the package pad it refers to and the
    pad's hole share one identifier. *)
Theorem generate_pkg_pads_share_identifiers (I : Imports)
    (asin acos : float -> result float) (degrees : float -> float)
    (pow : float -> float -> result float) (library author : string)
    (configs : list Led.LedConfig) (pkgcat keywords version : string)
    (create_date : option string) (w : World) (pkgs : list Package) :
  keyed_apart w ->
  (Led.generate_pkg I asin acos degrees pow library author configs pkgcat keywords
     version create_date w).1 = Ok pkgs ->
  Forall (fun pkg =>
            exists ua uc, ua <> uc /\ Package_uuid pkg <> ua /\ Package_uuid pkg <> uc /\
                          pads_shared (Package_uuid pkg) ua uc pkg) pkgs.
Proof.
  intros Hw Hrun.
  destruct (generate_pkg_spec I asin acos degrees pow library author configs pkgcat
              keywords version create_date w) as [[_ Hk] Hb].
  specialize (Hb pkgs Hrun). specialize (Hk Hw).
  eapply Forall2_Forall_r; [exact Hb |].
  apply Forall_forall. intros c _ pkg Hc. exact (built_apart _ c pkg Hk Hc).
Qed.

Lemma sample_world_keyed_apart : keyed_apart Sample.world.
Proof.
  split; [| split].
  - intros k1 k2 u H. unfold Sample.world in H. cbn [uuid_cache] in H.
    by rewrite lookup_empty in H.
  - intros n k _. unfold Sample.world. cbn [uuid_cache]. by rewrite lookup_empty.
  - intros n m _ _ E. unfold Sample.world in E. cbn [random] in E.
    apply (inj (String.app _)) in E. by apply (inj pretty) in E.
Qed.

Lemma generate_pkg_pads_share_identifiers_witness :
  exists pkgs : list Package,
    keyed_apart Sample.world /\
    (sample_generate_pkg Sample.world).1 = Ok pkgs /\
    Forall (fun pkg =>
              exists ua uc, ua <> uc /\ Package_uuid pkg <> ua /\ Package_uuid pkg <> uc /\
                            pads_shared (Package_uuid pkg) ua uc pkg) pkgs.
Proof.
  destruct (sample_generate_pkg Sample.world).1 as [pkgs|e] eqn:E.
  - exists pkgs. split; [exact sample_world_keyed_apart |]. split; [reflexivity |].
    exact (generate_pkg_pads_share_identifiers _ _ _ _ _ _ _ _ _ _ _ _ _ _
             sample_world_keyed_apart E).
  - vm_compute in E. discriminate E.
Defined.

(** ** The cache over whole runs *)

Lemma spec_map_M {A B} (P : World -> Prop) (f : A -> M B) (l : list A) :
  stable P -> (forall x, spec P (f x) (fun _ => True)) ->
  spec P (map_M f l) (fun _ => True).
Proof.
  intros HP Hf. induction l as [|x l IH]; cbn [map_M];
    spec_go (fun _ : Package => True).
Qed.

Lemma spec_for_each {A} (P : World -> Prop) (l : list A) (body : A -> M unit) :
  stable P -> (forall x, spec P (body x) (fun _ => True)) ->
  spec P (for_each l body) (fun _ => True).
Proof.
  intros HP Hf. induction l as [|x l IH]; cbn [for_each];
    spec_go (fun _ : Package => True).
Qed.

Lemma spec_Connectors_uuid (P : World -> Prop) (typ : string) (pin_number : Z)
    (identifier : option string) :
  spec P (Connectors.uuid typ pin_number identifier) (fun _ => True).
Proof.
  intros w _. rewrite Connectors_uuid_resolve. split; [apply advances_resolve | done].
Qed.

#[export] Hint Resolve spec_Connectors_uuid : spec.

Lemma spec_Connectors_generate_one (float_str : float -> string) (dirpath : string)
    (i : Z) :
  spec (fun _ => True) (Connectors.generate_one float_str dirpath i) (fun _ => True).
Proof.
  unfold Connectors.generate_one, Connectors.now. cbv zeta.
  spec_go (fun _ : Package => True);
    (apply spec_map_M; [apply stable_True | intros x; spec_go (fun _ : Package => True)]).
Qed.

Lemma spec_generate_dev_one
    (Device_serialize : Device -> string -> FS -> result unit * FS)
    (library author cmpcat keywords version : string) (create_date : option string)
    (c : Led.LedConfig) :
  spec (fun _ => True)
       (Led.generate_dev_one Device_serialize library author cmpcat keywords version
          create_date c) (fun _ => True).
Proof. unfold Led.generate_dev_one. cbv zeta. spec_go (fun _ : Package => True). Qed.

(** X5: a run of a generator only adds to the cache.  Whatever the script
    body of generate_led.py or [generate] of generate_connectors.py does,
    and also when it raises midway, every key the cache held still has the
    identifier it had; and a cache that kept distinct keys on distinct
    identifiers, with a random source that does not repeat itself, is still
    such a cache afterwards. *)
Theorem generators_only_add_to_cache (I : Imports) (asin acos : float -> result float)
    (degrees : float -> float) (pow : float -> float -> result float)
    (Device_serialize : Device -> string -> FS -> result unit * FS)
    (configs : list Led.LedConfig) (float_str : float -> string) (dirpath : string)
    (w : World) :
  advances w (Led.main_generate I asin acos degrees pow Device_serialize configs w).2 /\
  advances w (Connectors.generate float_str dirpath w).2.
Proof.
  split.
  - unfold Led.main_generate.
    pose proof (generate_pkg_spec I asin acos degrees pow "LibrePCB_Base.lplib"
                  "Danilo B." configs "9c36c4be-3582-4f27-ae00-4c1229f1e870" "led,tht"
                  "0.1" (Some "2022-02-26T00:06:03Z") w) as [A1 _].
    unfold bind at 1.
    destruct (Led.generate_pkg _ _ _ _ _ _ _ _ _ _ _ _ w) as [[pkgs|e] w1];
      cbn [fst snd] in *; [| exact A1].
    assert (A2 : spec (fun _ => True)
                   (Led.generate_dev Device_serialize "LibrePCB_Base.lplib" "U. Bruhin"
                      configs "70421345-ae1d-4fed-aa60-e7619524b97f" "led,tht" "0.1"
                      (Some "2022-08-31T11:18:33Z")) (fun _ => True)).
    { apply spec_map_M; [apply stable_True |]. intros c. apply spec_generate_dev_one. }
    destruct (A2 w1 Logic.I) as [A3 _]. unfold bind.
    destruct (Led.generate_dev _ _ _ _ _ _ _ _ w1) as [[devs|e] w2];
      cbn [fst snd ret] in *; by eapply advances_trans.
  - unfold Connectors.generate.
    apply (spec_for_each (fun _ => True)); [apply stable_True | | done].
    intros i. apply spec_Connectors_generate_one.
Qed.

Lemma Forall2_same_left {A B C} (R1 : A -> B -> Prop) (R2 : A -> C -> Prop)
    (S : B -> C -> Prop) (l : list A) (l1 : list B) (l2 : list C) :
  (forall a b c, R1 a b -> R2 a c -> S b c) ->
  Forall2 R1 l l1 -> Forall2 R2 l l2 -> Forall2 S l1 l2.
Proof.
  intros HS H1. revert l2. induction H1 as [|a b l l1 Hab _ IH]; intros l2 H2.
  - apply Forall2_nil_inv_l in H2 as ->. constructor.
  - apply Forall2_cons_inv_l in H2 as (c & l2' & Hac & H2 & ->).
    constructor; [by eapply HS | by apply IH].
Qed.

(** X6: identifiers are stable across runs.  When [generate_pkg] has
    returned, a later run over the same configs, from any world whose cache
    contains what the first run left, gives every package the identifier it
    had in the first run, and its two pads the identifiers they had. *)
Theorem generate_pkg_identifiers_stable (I : Imports)
    (asin acos : float -> result float) (degrees : float -> float)
    (pow : float -> float -> result float) (library author : string)
    (configs : list Led.LedConfig) (pkgcat keywords version : string)
    (create_date : option string) (w w' : World) (pkgs pkgs' : list Package) :
  let generate_pkg :=
    Led.generate_pkg I asin acos degrees pow library author configs pkgcat keywords
      version create_date in
  (generate_pkg w).1 = Ok pkgs ->
  uuid_cache (generate_pkg w).2 ⊆ uuid_cache w' ->
  (generate_pkg w').1 = Ok pkgs' ->
  Forall2 (fun p p' => Package_uuid p' = Package_uuid p /\
                       package_pad_uuids p' = package_pad_uuids p) pkgs pkgs'.
Proof.
  intros generate_pkg Hrun Hsub Hrun'.
  destruct (generate_pkg_spec I asin acos degrees pow library author configs pkgcat
              keywords version create_date w) as [_ Hb].
  destruct (generate_pkg_spec I asin acos degrees pow library author configs pkgcat
              keywords version create_date w') as [[Hsub' _] Hb'].
  specialize (Hb pkgs Hrun). specialize (Hb' pkgs' Hrun').
  fold generate_pkg in Hb, Hb', Hsub'.
  eapply Forall2_same_left; [| exact Hb | exact Hb'].
  intros c p p' (ua & uc & (Hu & Ha & Hc) & (_ & Hpads & _))
    (ua' & uc' & (Hu' & Ha' & Hc') & (_ & Hpads' & _)).
  assert (Hsub2 : uuid_cache (generate_pkg w).2 ⊆ uuid_cache (generate_pkg w').2)
    by (by etrans).
  pose proof (lookup_weaken _ _ _ _ Hu Hsub2) as Ku.
  pose proof (lookup_weaken _ _ _ _ Ha Hsub2) as Ka.
  pose proof (lookup_weaken _ _ _ _ Hc Hsub2) as Kc.
  clear Hu Ha Hc. rename Ku into Hu, Ka into Ha, Kc into Hc.
  rewrite Hu in Hu'. rewrite Ha in Ha'. rewrite Hc in Hc'.
  injection Hu' as Hu'. injection Ha' as ->. injection Hc' as ->.
  split; [by symmetry | by rewrite Hpads, Hpads'].
Qed.

Lemma generate_pkg_identifiers_stable_witness :
  exists pkgs pkgs' : list Package,
    (sample_generate_pkg Sample.world).1 = Ok pkgs /\
    (sample_generate_pkg (sample_generate_pkg Sample.world).2).1 = Ok pkgs' /\
    Forall2 (fun p p' => Package_uuid p' = Package_uuid p /\
                         package_pad_uuids p' = package_pad_uuids p) pkgs pkgs'.
Proof.
  destruct (sample_generate_pkg Sample.world).1 as [pkgs|e] eqn:E;
    [| vm_compute in E; discriminate E].
  destruct (sample_generate_pkg (sample_generate_pkg Sample.world).2).1
    as [pkgs'|e] eqn:E'; [| vm_compute in E'; discriminate E'].
  exists pkgs, pkgs'. split; [reflexivity |]. split; [reflexivity |].
  exact (generate_pkg_identifiers_stable _ _ _ _ _ _ _ _ _ _ _ _ _ _ _ _
           E (reflexivity _) E').
Defined.

(** ** generate_led.py: the footprints of a package *)

Lemma map_M_Forall2 {A B} (f : A -> M B) (R : A -> B -> Prop) (l : list A) :
  (forall x w y, (f x w).1 = Ok y -> R x y) ->
  forall w ys, (map_M f l w).1 = Ok ys -> Forall2 R l ys.
Proof.
  intros Hf. induction l as [|x l IH]; intros w ys.
  - intros [= <-]. constructor.
  - rewrite map_M_cons. specialize (Hf x w).
    destruct (f x w) as [[y|e] w1]; cbn [fst snd] in *; [| done].
    specialize (IH w1).
    destruct (map_M f l w1) as [[ys'|e] w2]; cbn [fst snd] in *; [| done].
    intros [= <-]. constructor; [by apply Hf | by apply IH].
Qed.

Lemma labels_on_footprint (f : Footprint -> Footprint) (L : list (string * list string))
    (p : Package) :
  (forall x, footprint_labels (f x) = footprint_labels x) ->
  labels L p -> labels L (Led.on_footprint f p).
Proof.
  unfold labels. intros Hf <-. cbn. by apply update_last_map.
Qed.

Lemma labels_add_text (t : StrokeText) (L : list (string * list string)) (n : string)
    (ts : list string) (p : Package) :
  labels (L ++ [(n, ts)]) p ->
  labels (L ++ [(n, ts ++ [Value_value (StrokeText_value t)])])
         (Led.on_footprint (Footprint_add_text t) p).
Proof.
  unfold labels. cbn. intros H.
  apply List.map_eq_app in H as (l1 & l2 & -> & <- & H2).
  destruct l2 as [|y [|? ?]]; try discriminate H2.
  injection H2 as Hn Hts.
  rewrite update_last_snoc, List.map_app. cbn. unfold footprint_labels at 2.
  cbn. by rewrite List.map_app, Hn, Hts.
Qed.

Section LedFootprints.
Variable I : Imports.
Variable asin acos : float -> result float.
Variable degrees : float -> float.
Variable pow : float -> float -> result float.
Variable c : Led.LedConfig.

Let any : World -> Prop := fun _ => True.

#[local] Hint Extern 1 (labels _ (Led.on_footprint _ _)) =>
  apply labels_on_footprint; [reflexivity |] : spec.

(** Closes the goals [spec_go] leaves: a package changed by adding shapes
    to its last footprint. *)
Ltac labelled :=
  repeat (apply labels_on_footprint; [reflexivity |]); assumption.

Lemma labels__add_footprint (L : list (string * list string)) (p : Package)
    (name : Name) (identifier_suffix : string) (pad_size : Size) :
  labels L p ->
  spec any (Led._add_footprint c p name identifier_suffix pad_size)
       (labels (L ++ [(Name_value name, [])])).
Proof.
  intros Hp. unfold Led._add_footprint, Led._add_footprint_pad. cbv zeta.
  spec_go (labels (L ++ [(Name_value name, [])])).
  all: try (by apply spec__uuid).
  - repeat (apply labels_on_footprint; [reflexivity |]).
    unfold labels in *. cbn. by rewrite List.map_app, Hp.
  - labelled.
  - assumption.
Qed.

Lemma labels__add_reduced_part (L : list (string * list string)) (p : Package)
    (identifier layer : string) (inner_radius line_width angle y : float)
    (suffix : string) :
  labels L p ->
  spec any
       (Led._add_reduced_part c p identifier layer inner_radius line_width angle y suffix)
       (labels L).
Proof.
  intros Hp. unfold Led._add_reduced_part. cbv zeta.
  spec_go (labels L); first [by apply spec__uuid | labelled].
Qed.

#[local] Hint Resolve spec__uuid labels__add_footprint labels__add_reduced_part : spec.

Lemma labels__add_flattened_circle (L : list (string * list string)) (p : Package)
    (identifier layer : string) (outer_radius inner_radius line_width : float)
    (reduced : bool) :
  labels L p ->
  spec any
       (Led._add_flattened_circle asin acos degrees pow c p identifier layer
          outer_radius inner_radius line_width reduced)
       (labels L).
Proof.
  intros Hp. unfold Led._add_flattened_circle. cbv zeta.
  spec_go (labels L); labelled.
Qed.

Lemma labels__add_lead (L : list (string * list string)) (p : Package)
    (identifier_suffix : string) (body_offset : float) (pad : string) (factor : float) :
  labels L p ->
  spec any (Led._add_lead c p identifier_suffix body_offset pad factor) (labels L).
Proof.
  intros Hp. unfold Led._add_lead. cbv zeta.
  spec_go (labels L); labelled.
Qed.

#[local] Hint Resolve labels__add_flattened_circle labels__add_lead : spec.

Lemma labels__add_vertical_footprint (L : list (string * list string)) (p : Package)
    (name : Name) (identifier_suffix : string) (pad_size : Size) :
  labels L p ->
  spec any
       (Led._add_vertical_footprint asin acos degrees pow c p name identifier_suffix
          pad_size)
       (labels (L ++ [(Name_value name, ["{{NAME}}"; "{{VALUE}}"])])).
Proof.
  intros Hp. unfold Led._add_vertical_footprint. cbv zeta.
  eapply (spec_bind _ _ _ (labels (L ++ [(Name_value name, [])])));
    [apply stable_True | by apply labels__add_footprint | intros p1 H1].
  spec_go (labels (L ++ [(Name_value name, [])])).
  all: try assumption.
  match goal with
  | |- labels _ (Led.on_footprint (Footprint_add_text ?v) (Led.on_footprint (Footprint_add_text ?n) ?q)) =>
      apply (labels_add_text v L (Name_value name) ["{{NAME}}"]);
      apply (labels_add_text n L (Name_value name) []); assumption
  end.
Qed.

Lemma labels__add_horizontal_footprint (L : list (string * list string)) (p : Package)
    (name : Name) (identifier_suffix : string) (pad_size : Size)
    (body_height body_offset : float) :
  labels L p ->
  spec any
       (Led._add_horizontal_footprint c p name identifier_suffix pad_size body_height
          body_offset)
       (labels (L ++ [(Name_value name, ["{{NAME}}"; "{{VALUE}}"])])).
Proof.
  intros Hp. unfold Led._add_horizontal_footprint. cbv zeta.
  eapply (spec_bind _ _ _ (labels (L ++ [(Name_value name, [])])));
    [apply stable_True | by apply labels__add_footprint | intros p1 H1].
  spec_go (labels (L ++ [(Name_value name, [])])).
  all: try assumption.
  all: try labelled.
  match goal with
  | |- labels _ (Led.on_footprint (Footprint_add_text ?v) (Led.on_footprint (Footprint_add_text ?n) ?q)) =>
      apply (labels_add_text v L (Name_value name) ["{{NAME}}"]);
      apply (labels_add_text n L (Name_value name) []); labelled
  end.
Qed.

Ltac next_statement :=
  eapply (spec_bind _ _ _ (fun _ => True));
  [apply stable_True | solve [eauto with spec] | intros ? _].

Lemma labels_generate_pkg_one (library author pkgcat keywords version : string)
    (create_date : option string) :
  spec any
       (Led.generate_pkg_one I asin acos degrees pow library author pkgcat keywords
          version create_date c)
       (labels (map (fun n => (n, ["{{NAME}}"; "{{VALUE}}"])) (footprint_names c))).
Proof.
  unfold Led.generate_pkg_one. cbv zeta.
  do 5 next_statement.
  eapply (spec_bind _ _ _ (labels ([] ++ [("Vertical", ["{{NAME}}"; "{{VALUE}}"])])));
    [apply stable_True | by apply labels__add_vertical_footprint | intros p1 H1].
  eapply (spec_bind _ _ _
            (labels ([("Vertical", ["{{NAME}}"; "{{VALUE}}"])] ++
                     if Led.is_small c then []
                     else [("Vertical, Large Pads", ["{{NAME}}"; "{{VALUE}}"])])));
    [apply stable_True | | intros p2 H2].
  { destruct (Led.is_small c); cbn [negb].
    - apply spec_ret. by rewrite app_nil_r.
    - by apply labels__add_vertical_footprint. }
  eapply (spec_bind _ _ _ _);
    [apply stable_True | apply labels__add_horizontal_footprint; exact H2
    | intros p3 H3].
  eapply (spec_bind _ _ _ _);
    [apply stable_True | apply labels__add_horizontal_footprint; exact H3
    | intros p4 H4].
  eapply (spec_bind _ _ _ _);
    [apply stable_True | apply labels__add_horizontal_footprint; exact H4
    | intros p5 H5].
  next_statement. apply spec_ret.
  unfold labels in *. rewrite H5. unfold footprint_names.
  by destruct (Led.is_small c).
Qed.

End LedFootprints.

(** X7: the footprints of a generated package.  Every package
    [generate_pkg] builds has the footprints Vertical, then Vertical, Large
    Pads unless the LED is small (top diameter below 5 mm), then the three
    horizontal ones, in this order; and every footprint carries exactly two
    texts, the name and the value placeholder. *)
Theorem generate_pkg_footprints (I : Imports) (asin acos : float -> result float)
    (degrees : float -> float) (pow : float -> float -> result float)
    (library author : string) (configs : list Led.LedConfig)
    (pkgcat keywords version : string) (create_date : option string)
    (w : World) (pkgs : list Package) :
  (Led.generate_pkg I asin acos degrees pow library author configs pkgcat keywords
     version create_date w).1 = Ok pkgs ->
  Forall2 (fun c pkg =>
             map footprint_labels (Package_footprints pkg) =
             map (fun n => (n, ["{{NAME}}"; "{{VALUE}}"])) (footprint_names c))
          configs pkgs.
Proof.
  unfold Led.generate_pkg. apply map_M_Forall2. intros c w' pkg Hrun.
  exact (proj2 (labels_generate_pkg_one I asin acos degrees pow c library author pkgcat
                  keywords version create_date w' Logic.I) pkg Hrun).
Qed.

Lemma generate_pkg_footprints_witness :
  exists pkgs : list Package,
    (sample_generate_pkg Sample.world).1 = Ok pkgs /\
    Forall2 (fun c pkg =>
               map footprint_labels (Package_footprints pkg) =
               map (fun n => (n, ["{{NAME}}"; "{{VALUE}}"])) (footprint_names c))
            [Sample.config] pkgs.
Proof.
  destruct (sample_generate_pkg Sample.world).1 as [pkgs|e] eqn:E;
    [| vm_compute in E; discriminate E].
  exists pkgs. split; [reflexivity |].
  exact (generate_pkg_footprints _ _ _ _ _ _ _ _ _ _ _ _ _ _ E).
Defined.

(** ** generate_connectors.py: what [generate] can raise *)

Section Returns.
Context {A B : Type}.
Variable E : exception -> Prop.


Lemma returns_raise (e : exception) (Q : A -> Prop) : E e -> returns (raise e) Q E.
Proof. intros He w. exact He. Qed.



End Returns.







(** A pad index of the loops of [generate] is within [pad_uuids]. *)
Lemma pad_index_in_range {A} (pad_uuids : list A) (i j : Z) :
  length pad_uuids = length (seqZ 0 i) -> j ∈ seqZ 1 i ->
  is_Some (pad_uuids !! Z.to_nat (j - 1)).
Proof.
  rewrite length_seqZ, elem_of_seqZ. intros Hlen Hj.
  apply lookup_lt_is_Some. lia.
Qed.




(** ** generate_connectors.py: where the pins are *)

Lemma pins_placed_elem (j n : Z) :
  (1 <= j <= n)%Z -> (n <= 40)%Z -> (j, n) ∈ pins_placed.
Proof.
  intros Hj Hn. unfold pins_placed.
  apply list_elem_of_bind. exists n. split.
  - apply list_elem_of_bind. exists j. split; [by left |].
    apply elem_of_seqZ. lia.
  - apply elem_of_seqZ. unfold Connectors.min_pads, Connectors.max_pads. lia.
Qed.

Lemma pins_placed_well : forallb (fun '(j, n) => pin_well_placed j n) pins_placed = true.
Proof. vm_compute. reflexivity. Qed.

(** X9: the pins of every row [generate] lays out, of 1 to 40 pins.  Pin
    [j] and pin [n + 1 - j] lie mirrored about the origin (the middle pin
    of an odd row at 0); each pin lies below the next, and the two are
    2.54 apart to the two decimals kept; and the contour, drawn at
    [get_rectangle_height], passes at least [top] beyond every pin. *)
Theorem get_y_rows_centred (j n : Z) :
  (1 <= j <= n)%Z -> (n <= 40)%Z ->
  let y := Connectors.get_y j n Connectors.spacing in
  let next := Connectors.get_y (j + 1) n Connectors.spacing in
  let height := Connectors.get_rectangle_height n Connectors.spacing Connectors.top in
  (y =? - Connectors.get_y (n + 1 - j) n Connectors.spacing)%float = true /\
  ((j < n)%Z -> (y <? next)%float = true /\
                (PyFloat.round (next - y) 2 =? 2.54)%float = true) /\
  (abs y + 1.5 <=? height)%float = true.
Proof.
  intros Hj Hn. cbv zeta.
  pose proof pins_placed_well as H. rewrite forallb_forall in H.
  specialize (H (j, n) (proj1 (list_elem_of_In _ _) (pins_placed_elem j n Hj Hn))).
  cbn beta iota in H. unfold pin_well_placed in H. cbv zeta in H.
  apply andb_prop in H as [H H3]. apply andb_prop in H as [H1 H2].
  split; [exact H1 |]. split; [| exact H3].
  intros Hlt. apply Z.ltb_lt in Hlt. rewrite Hlt in H2.
  apply andb_prop in H2 as [? ?]. by split.
Qed.

Lemma get_y_rows_centred_witness :
  (Connectors.get_y 2 5 Connectors.spacing =?
     - Connectors.get_y 4 5 Connectors.spacing)%float = true /\
  (Connectors.get_y 2 5 Connectors.spacing <?
     Connectors.get_y 3 5 Connectors.spacing)%float = true.
Proof.
  destruct (get_y_rows_centred 2 5 ltac:(lia) ltac:(lia)) as (H1 & H2 & _).
  split; [exact H1 |]. exact (proj1 (H2 ltac:(lia))).
Defined.

(** ** Writing a package: failure and repetition *)

(** The statements of [serialize] after the directory is there, whether
    the rendering returns or raises. *)
Lemma serialize_files_outcome (I : Imports) (p : Package) (dir_path : string)
    (w : World) :
  dir_path ∈ dirs (fs w) ->
  (forall x, x ∈ Path.parents dir_path -> x ∈ dirs (fs w)) ->
  Path.join dir_path ".librepcb-pkg" ∉ dirs (fs w) ->
  Path.join dir_path "package.lp" ∉ dirs (fs w) ->
  ((Path.open_w (Path.join dir_path ".librepcb-pkg") ;;
    Path.write (Path.join dir_path ".librepcb-pkg") ("1" +:+ PyStr.LF)) ;;
   (Path.open_w (Path.join dir_path "package.lp") ;;
    text <- lift (Package_str I p) ;;
    Path.write (Path.join dir_path "package.lp") text ;;
    Path.write (Path.join dir_path "package.lp") PyStr.LF))%M w =
  (rbind (Package_str I p) (fun _ => Ok tt),
   set_fs {| dirs := dirs (fs w);
             files := <[Path.join dir_path "package.lp" :=
                          match Package_str I p with
                          | Ok text => text +:+ PyStr.LF
                          | Raise _ => EmptyString
                          end]>
                        (<[Path.join dir_path ".librepcb-pkg" := "1" +:+ PyStr.LF]>
                           (files (fs w))) |} w).
Proof.
  intros Hdir Habove Hmarker Hdocument.
  assert (Hparent : forall name x, plain_name name ->
            last (Path.parents (Path.join dir_path name)) = Some x -> x ∈ dirs (fs w)).
  { intros name x Hname [-> | Hx]%join_parent; auto. }
  unfold bind at 1 2.
  rewrite (open_w_ok _ w Hmarker (fun x => Hparent _ x plain_marker)).
  unfold Path.write at 1. cbn [fs set_fs dirs files].
  unfold bind at 1.
  rewrite open_w_ok; cbn [fs set_fs dirs files];
    [| done | exact (fun x => Hparent _ x plain_document)].
  unfold bind, lift. destruct (Package_str I p) as [text|e]; cbn [rbind].
  - unfold Path.write. cbn [fs set_fs dirs files].
    unfold set_fs; cbn. do 2 f_equal. f_equal.
    rewrite !lookup_insert_eq, !insert_insert_eq. cbn [default].
    reflexivity.
  - unfold set_fs; cbn. do 2 f_equal. f_equal.
    rewrite !lookup_insert_eq, !insert_insert_eq. cbn [default].
    reflexivity.
Qed.

Lemma serialize_outcome (I : Imports) (p : Package) (output_directory : string)
    (w : World) :
  serialize_free (Path.join output_directory (Package_uuid p)) (fs w) ->
  Package_serialize I p output_directory w =
  (rbind (Package_str I p) (fun _ => Ok tt),
   set_fs (serialized (Package_str I p) (Path.join output_directory (Package_uuid p))
             (fs w)) w).
Proof.
  set (dir_path := Path.join output_directory (Package_uuid p)).
  intros (Hdir & Hmarker & Hdocument).
  unfold Package_serialize, serialized. fold dir_path.
  unfold bind at 1, Path.exists_ at 1.
  destruct Hdir as [[Hin Habove] | Hfree].
  - rewrite (bool_decide_eq_true_2 _ Hin). cbn [orb].
    unfold bind at 1, Path.isdir at 1. rewrite (bool_decide_eq_true_2 _ Hin).
    cbn [andb negb]. unfold bind at 1, ret at 1.
    by rewrite (serialize_files_outcome I p dir_path w Hin).
  - pose proof Hfree as (Hout & Hfile & _).
    rewrite (bool_decide_eq_false_2 _ Hout).
    rewrite bool_decide_eq_false_2 by (rewrite Hfile; by intros [? ?]).
    cbn [orb]. unfold bind at 1, ret at 1. cbn [andb negb].
    unfold bind at 1. rewrite makedirs_ok by done.
    destruct (join_not_above dir_path ".librepcb-pkg" plain_marker) as [? ?];
      [cbn; lia |].
    destruct (join_not_above dir_path "package.lp" plain_document) as [? ?];
      [cbn; lia |].
    rewrite (serialize_files_outcome I p dir_path); cbn [fs set_fs dirs files].
    + reflexivity.
    + set_solver.
    + intros x Hx. apply elem_of_union_l, elem_of_union_r.
      by apply elem_of_list_to_set.
    + rewrite !elem_of_union, elem_of_list_to_set, elem_of_singleton.
      intros [[? | ?] | ?]; done.
    + rewrite !elem_of_union, elem_of_list_to_set, elem_of_singleton.
      intros [[? | ?] | ?]; done.
Qed.

Lemma serialized_free (rendering : result string) (dir_path : string) (f : FS) :
  serialize_free dir_path f -> serialize_free dir_path (serialized rendering dir_path f).
Proof.
  intros (Hdir & Hmarker & Hdocument).
  destruct (join_not_above dir_path ".librepcb-pkg" plain_marker) as [? ?];
    [cbn; lia |].
  destruct (join_not_above dir_path "package.lp" plain_document) as [? ?];
    [cbn; lia |].
  unfold serialize_free, serialized. cbn [dirs files].
  destruct (decide (dir_path ∈ dirs f)) as [Hin | Hout].
  - rewrite (bool_decide_eq_true_2 _ Hin).
    destruct Hdir as [Hdir | (Hout & _)]; [| done].
    split; [by left | by split].
  - rewrite (bool_decide_eq_false_2 _ Hout). split; [left; split |].
    + by apply elem_of_union_r, elem_of_singleton.
    + intros x Hx. apply elem_of_union_l, elem_of_union_r.
      by apply elem_of_list_to_set.
    + rewrite !elem_of_union, !elem_of_list_to_set, !elem_of_singleton.
      split; intros [[? | ?] | ?]; done.
Qed.

Lemma serialized_dir (rendering : result string) (dir_path : string) (f : FS) :
  dir_path ∈ dirs (serialized rendering dir_path f).
Proof.
  unfold serialized. cbn [dirs].
  destruct (decide (dir_path ∈ dirs f)) as [Hin | Hout].
  - by rewrite (bool_decide_eq_true_2 _ Hin).
  - rewrite (bool_decide_eq_false_2 _ Hout).
    by apply elem_of_union_r, elem_of_singleton.
Qed.

Lemma serialized_again (rendering : result string) (dir_path : string) (f : FS) :
  serialized rendering dir_path (serialized rendering dir_path f) =
  serialized rendering dir_path f.
Proof.
  unfold serialized at 1.
  rewrite (bool_decide_eq_true_2 _ (serialized_dir rendering dir_path f)).
  unfold serialized. cbn [dirs files]. f_equal.
  destruct (decide (Path.join dir_path "package.lp" =
                    Path.join dir_path ".librepcb-pkg")) as [E | N].
  - apply join_inj in E; [discriminate E | reflexivity | reflexivity].
  - rewrite (insert_insert_ne _ (Path.join dir_path ".librepcb-pkg")
               (Path.join dir_path "package.lp")) by done.
    by rewrite !insert_insert_eq.
Qed.

(** X10: running [serialize] again changes nothing.  When nothing is in
    its way, a second [package.serialize(output_directory)] right after the
    first ends as the first did, returning or raising what it raised, and
    leaves every directory and file as the first left it. *)
Theorem serialize_again_changes_nothing (I : Imports) (p : Package)
    (output_directory : string) (w : World) :
  serialize_free (Path.join output_directory (Package_uuid p)) (fs w) ->
  let first := Package_serialize I p output_directory w in
  Package_serialize I p output_directory first.2 = first.
Proof.
  intros Hfree. cbv zeta. rewrite (serialize_outcome I p output_directory w Hfree).
  cbn [snd]. rewrite serialize_outcome; cbn [fs set_fs].
  - by rewrite serialized_again.
  - by apply serialized_free.
Qed.

Lemma sample_world_serialize_free (dir_path : string) :
  serialize_free dir_path (fs Sample.world).
Proof.
  split; [right | split; apply not_elem_of_empty].
  split; [apply not_elem_of_empty |]. split; [apply lookup_empty |].
  apply Forall_forall. intros d _. apply lookup_empty.
Qed.

Lemma serialize_again_changes_nothing_witness :
  serialize_free
    (Path.join "out/LibrePCB_Base.lplib/pkg" (Package_uuid Sample.package_ab))
    (fs Sample.world) /\
  Package_serialize SpecModel.imports Sample.package_ab "out/LibrePCB_Base.lplib/pkg"
    (Package_serialize SpecModel.imports Sample.package_ab "out/LibrePCB_Base.lplib/pkg"
       Sample.world).2 =
  Package_serialize SpecModel.imports Sample.package_ab "out/LibrePCB_Base.lplib/pkg"
    Sample.world.
Proof.
  split; [apply sample_world_serialize_free |].
  exact (serialize_again_changes_nothing SpecModel.imports Sample.package_ab
           "out/LibrePCB_Base.lplib/pkg" Sample.world (sample_world_serialize_free _)).
Defined.

(** X11: a rendering that raises leaves half a package behind.
    [serialize] opens the document before it renders the package: when
    [str(package)] raises, [serialize] raises the same exception, and by
    then the directory is made, the marker written, and the document there
    and empty, whatever it held before. *)
Theorem serialize_failure_leaves_empty_document (I : Imports) (p : Package)
    (output_directory : string) (w : World) (e : exception) :
  let dir_path := Path.join output_directory (Package_uuid p) in
  Package_str I p = Raise e ->
  serialize_free dir_path (fs w) ->
  exists w' : World,
    Package_serialize I p output_directory w = (Raise e, w') /\
    dir_path ∈ dirs (fs w') /\
    files (fs w') =
      <[Path.join dir_path "package.lp" := EmptyString]>
        (<[Path.join dir_path ".librepcb-pkg" := "1" +:+ PyStr.LF]> (files (fs w))).
Proof.
  intros dir_path Hstr Hfree.
  rewrite (serialize_outcome I p output_directory w Hfree). fold dir_path.
  rewrite Hstr. eexists. split; [reflexivity |]. cbn [fs set_fs serialized dirs files].
  split; [| reflexivity].
  apply (serialized_dir (Raise e) dir_path (fs w)).
Qed.

Lemma serialize_failure_leaves_empty_document_witness :
  exists (e : exception) (w' : World),
    Package_str SpecModel.imports package_with_nan = Raise e /\
    Package_serialize SpecModel.imports package_with_nan "out/LibrePCB_Base.lplib/pkg"
      Sample.world = (Raise e, w') /\
    files (fs w') =
      {[ "out/LibrePCB_Base.lplib/pkg/5c4a2f0e-0000-4000-8000-000000000000/package.lp" :=
           EmptyString;
         "out/LibrePCB_Base.lplib/pkg/5c4a2f0e-0000-4000-8000-000000000000/.librepcb-pkg" :=
           "1" +:+ PyStr.LF ]}.
Proof.
  destruct (Package_str SpecModel.imports package_with_nan) as [text|e] eqn:Hstr;
    [vm_compute in Hstr; discriminate Hstr |].
  destruct (serialize_failure_leaves_empty_document SpecModel.imports package_with_nan
              "out/LibrePCB_Base.lplib/pkg" Sample.world e Hstr
              (sample_world_serialize_free _)) as (w' & Hrun & _ & Hfiles).
  exists e, w'. split; [reflexivity |]. split; [exact Hrun |].
  rewrite Hfiles. reflexivity.
Defined.

(** ** generate_led.py: no identifier is given out twice *)

Section HoareRules.
Context {A B : Type}.

Lemma hoare_ret (P : World -> Prop) (a : A) (Q : A -> World -> Prop) :
  (forall w, P w -> Q a w) -> hoare P (ret a) Q.
Proof. intros H w Hw a' [= <-]. by apply H. Qed.

Lemma hoare_bind (P : World -> Prop) (m : M A) (k : A -> M B)
    (Q1 : A -> World -> Prop) (Q2 : B -> World -> Prop) :
  hoare P m Q1 -> (forall a, hoare (Q1 a) (k a) Q2) -> hoare P (bind m k) Q2.
Proof.
  intros Hm Hk w Hw b. specialize (Hm w Hw). unfold bind.
  destruct (m w) as [[a|e] w1]; cbn [fst snd] in *; [| done].
  apply (Hk a w1). by apply Hm.
Qed.

Lemma hoare_pre (P P' : World -> Prop) (m : M A) (Q : A -> World -> Prop) :
  (forall w, P w -> P' w) -> hoare P' m Q -> hoare P m Q.
Proof. intros HP Hm w Hw. apply Hm. by apply HP. Qed.

Lemma hoare_post (P : World -> Prop) (m : M A) (Q Q' : A -> World -> Prop) :
  hoare P m Q -> (forall a w, Q a w -> Q' a w) -> hoare P m Q'.
Proof. intros Hm HQ w Hw a Ha. apply HQ. by apply Hm. Qed.

(** A statement that only advances the world keeps what advancing keeps. *)
Lemma hoare_of_spec (P : World -> Prop) (m : M A) :
  stable P -> spec (fun _ => True) m (fun _ => True) ->
  hoare P m (fun _ w => P w).
Proof.
  intros HP Hm w Hw a _. destruct (Hm w Logic.I) as [Hadv _].
  by apply (HP w).
Qed.

End HoareRules.

Lemma stable_and (P Q : World -> Prop) :
  stable P -> stable Q -> stable (fun w => P w /\ Q w).
Proof. intros HP HQ w w' Hadv [? ?]. split; [by eapply HP | by eapply HQ]. Qed.

Lemma stable_lookup (key u : string) :
  stable (fun w => uuid_cache w !! key = Some u).
Proof. intros w w' [Hsub _] H. by eapply lookup_weaken. Qed.

Lemma stable_keyed_apart : stable keyed_apart.
Proof. intros w w' [_ H]. exact H. Qed.

Lemma stable_identified (c : Led.LedConfig) (used : list string) (p : Package) :
  stable (identified c used p).
Proof.
  intros w w' Hadv (Hk & Hnd & Hall). split; [by apply (stable_keyed_apart w) |].
  split; [exact Hnd |].
  eapply Forall_impl; [exact Hall |]. intros u (id & Hid & Hu).
  exists id. split; [exact Hid |]. by apply (stable_lookup _ _ w).
Qed.

#[export] Hint Resolve stable_and stable_lookup stable_keyed_apart stable_identified
  : spec.

Lemma hoare__uuid (c : Led.LedConfig) (P : World -> Prop) (identifier : string) :
  stable P ->
  hoare P (Led._uuid c identifier)
        (fun u w => P w /\
                    uuid_cache w !! Led.uuid_key "pkg" (Led.pkg_name c) identifier = Some u).
Proof.
  intros HP w Hw u. rewrite _uuid_resolve. cbn [fst snd]. intros [= <-]. split.
  - eapply HP; [apply advances_resolve | exact Hw].
  - apply resolve_lookup.
Qed.

(** *** Identifier strings that name different keys *)

Lemma freshb_differ (c : Led.LedConfig) (id id' : string) (used : list string) :
  freshb id used = true -> id' ∈ used ->
  Led.uuid_key "pkg" (Led.pkg_name c) id <> Led.uuid_key "pkg" (Led.pkg_name c) id'.
Proof.
  unfold freshb. rewrite forallb_forall. intros H Hin.
  apply Led_uuid_key_differ. intros E.
  specialize (H id' (proj1 (list_elem_of_In _ _) Hin)).
  rewrite E in H. by rewrite String.eqb_refl in H.
Qed.

(** *** What the calls add to the identifiers of a package *)

Lemma NoDup_part {A} (k l : list A) : k ⊆+ l -> NoDup l -> NoDup k.
Proof.
  intros [k' Hk]%submseteq_Permutation Hl. rewrite Hk in Hl.
  by apply NoDup_app in Hl as [? _].
Qed.

Lemma identified_add (c : Led.LedConfig) (used used' : list string) (p p' : Package)
    (u id : string) (w : World) :
  identifiers p' ⊆+ u :: identifiers p ->
  identified c used p w ->
  uuid_cache w !! Led.uuid_key "pkg" (Led.pkg_name c) id = Some u ->
  freshb id used' = true ->
  used ⊆ used' ->
  identified c (id :: used') p' w.
Proof.
  intros Hsub (Hk & Hnd & Hall) Hu Hfresh Hincl.
  assert (Hnew : u ∉ identifiers p).
  { intros Hin. rewrite Forall_forall in Hall.
    destruct (Hall u Hin) as (id' & Hid' & Hu').
    destruct Hk as (Hinj & _).
    apply (freshb_differ c id id' used' Hfresh); [by apply Hincl |].
    by apply (Hinj _ _ u). }
  split; [exact Hk |]. split.
  - apply (NoDup_part _ _ Hsub). by constructor.
  - apply Forall_forall. intros x Hx.
    apply (elem_of_submseteq _ _ _ Hx) in Hsub.
    apply elem_of_cons in Hsub as [-> | Hin].
    + exists id. split; [by left | exact Hu].
    + rewrite Forall_forall in Hall. destruct (Hall x Hin) as (id' & Hid' & Hu').
      exists id'. split; [right; by apply Hincl | exact Hu'].
Qed.

Lemma identified_keep (c : Led.LedConfig) (used used' : list string) (p p' : Package)
    (w : World) :
  identifiers p' ⊆+ identifiers p ->
  identified c used p w ->
  used ⊆ used' ->
  identified c used' p' w.
Proof.
  intros Hsub (Hk & Hnd & Hall) Hincl. split; [exact Hk |]. split.
  - by apply (NoDup_part _ _ Hsub).
  - apply Forall_forall. intros x Hx.
    apply (elem_of_submseteq _ _ _ Hx) in Hsub.
    rewrite Forall_forall in Hall. destruct (Hall x Hsub) as (id' & Hid' & Hu').
    exists id'. split; [by apply Hincl | exact Hu'].
Qed.

Lemma update_last_identifiers (g : Footprint -> Footprint) (us : list string)
    (l : list Footprint) :
  (forall x, footprint_identifiers (g x) ≡ₚ us ++ footprint_identifiers x) ->
  concat (map footprint_identifiers (Led.update_last g l)) ⊆+
  us ++ concat (map footprint_identifiers l).
Proof.
  intros Hg. induction l as [|x l IH]; [apply submseteq_nil_l |].
  destruct l as [|y l].
  - cbn [Led.update_last map concat]. rewrite !app_nil_r. by rewrite Hg.
  - change (Led.update_last g (x :: y :: l)) with (x :: Led.update_last g (y :: l)).
    cbn [map concat]. cbn [map concat] in IH.
    etrans; [apply submseteq_skips_l, IH |]. solve_submseteq.
Qed.

Lemma on_footprint_identifiers (g : Footprint -> Footprint) (us : list string)
    (p : Package) :
  (forall x, footprint_identifiers (g x) ≡ₚ us ++ footprint_identifiers x) ->
  identifiers (Led.on_footprint g p) ⊆+ us ++ identifiers p.
Proof.
  intros Hg. unfold identifiers. cbn.
  pose proof (update_last_identifiers g us (Package_footprints p) Hg) as H.
  etrans; [apply submseteq_skip, submseteq_skips_l, H |]. solve_submseteq.
Qed.

Lemma add_vertices_uuid (vs : list Vertex) (q : Polygon) :
  Polygon_uuid (Led.add_vertices vs q) = Polygon_uuid q.
Proof.
  unfold Led.add_vertices. revert q.
  induction vs as [|v vs IH]; intros q; [done |]. cbn [fold_left]. by rewrite IH.
Qed.

Lemma identifiers_add_pad (x : FootprintPad) (p : Package) :
  identifiers (Led.on_footprint (Footprint_add_pad x) p) ⊆+ identifiers p.
Proof. by apply (on_footprint_identifiers _ []). Qed.

Lemma identifiers_add_polygon (x : Polygon) (p : Package) :
  identifiers (Led.on_footprint (Footprint_add_polygon x) p) ⊆+
  Polygon_uuid x :: identifiers p.
Proof.
  apply (on_footprint_identifiers _ [Polygon_uuid x]). intros f.
  unfold footprint_identifiers. cbn. rewrite map_app. cbn. solve_Permutation.
Qed.

Lemma identifiers_add_circle (x : Circle) (p : Package) :
  identifiers (Led.on_footprint (Footprint_add_circle x) p) ⊆+
  Circle_uuid x :: identifiers p.
Proof.
  apply (on_footprint_identifiers _ [Circle_uuid x]). intros f.
  unfold footprint_identifiers. cbn. rewrite map_app. cbn. solve_Permutation.
Qed.

Lemma identifiers_add_text (x : StrokeText) (p : Package) :
  identifiers (Led.on_footprint (Footprint_add_text x) p) ⊆+
  StrokeText_uuid x :: identifiers p.
Proof.
  apply (on_footprint_identifiers _ [StrokeText_uuid x]). intros f.
  unfold footprint_identifiers. cbn. rewrite map_app. cbn. solve_Permutation.
Qed.

Lemma identifiers_add_footprint (u : string) (name : Name) (description : Description)
    (position_3d : Position3D) (rotation_3d : Rotation3D) (p : Package) :
  identifiers
    (Package_add_footprint (Footprint_new u name description position_3d rotation_3d) p)
  ⊆+ u :: identifiers p.
Proof.
  unfold identifiers. cbn. rewrite map_app, List.concat_app. cbn. solve_submseteq.
Qed.

Lemma identifiers_add_package_pad (x : PackagePad) (p : Package) :
  identifiers (Package_add_pad x p) ⊆+ PackagePad_uuid x :: identifiers p.
Proof.
  unfold identifiers. cbn. rewrite map_app. cbn. solve_submseteq.
Qed.

Lemma identified_weaken (c : Led.LedConfig) (used used' : list string) (p : Package)
    (w : World) :
  identified c used p w -> used ⊆ used' -> identified c used' p w.
Proof. intros H Hincl. by apply (identified_keep c used used' p p w). Qed.

Lemma identified_new (c : Led.LedConfig) (u : string) (name : Name)
    (description : Description) (keywords : Keywords) (author : Author)
    (version : Version) (created : Created) (deprecated : Deprecated)
    (generated_by : GeneratedBy) (categories : list Category)
    (assembly_type : AssemblyType.t) (w : World) :
  keyed_apart w ->
  uuid_cache w !! Led.uuid_key "pkg" (Led.pkg_name c) "pkg" = Some u ->
  identified c ["pkg"]
    (Package_new u name description keywords author version created deprecated
       generated_by categories assembly_type) w.
Proof.
  intros Hk Hu. split; [exact Hk |]. unfold identifiers. cbn. split.
  - apply NoDup_singleton.
  - constructor; [| constructor]. exists "pkg". split; [by left | exact Hu].
Qed.

Lemma hoare_pre' {A} (P P' : World -> Prop) (m : M A) (Q : A -> World -> Prop) :
  hoare P' m Q -> (forall w, P w -> P' w) -> hoare P m Q.
Proof. intros Hm HP. by apply (hoare_pre P P'). Qed.

Lemma all_freshb_cons (id : string) (ids used : list string) :
  all_freshb (id :: ids) used = true ->
  freshb id used = true /\ all_freshb ids (id :: used) = true.
Proof. cbn [all_freshb]. apply andb_prop. Qed.

(** Inclusions between lists of identifier strings. *)
Ltac incl_solve :=
  try unfold vertical_footprint_ids; try unfold horizontal_footprint_ids;
  try unfold flattened_circle_ids; cbn [app rev];
  first [ reflexivity
        | let x := fresh "x" in
          let Hx := fresh "Hx" in
          intros x Hx; rewrite ?elem_of_cons in Hx; rewrite ?elem_of_cons; tauto ].

Lemma all_freshb_cons_intro (id : string) (ids used : list string) :
  freshb id used = true -> all_freshb ids (id :: used) = true ->
  all_freshb (id :: ids) used = true.
Proof. intros H1 H2. cbn [all_freshb]. by rewrite H1, H2. Qed.

(** Freshness from the freshness at hand. *)
Ltac fresh_here :=
  lazymatch goal with
  | |- freshb ?id _ = true =>
      match goal with
      | H : freshb id _ = true |- _ => exact H
      end
  end.
Ltac fresh_walk :=
  lazymatch goal with
  | |- all_freshb (_ :: _) _ = true =>
      apply all_freshb_cons_intro; [fresh_here | fresh_walk]
  | |- all_freshb [] _ = true => reflexivity
  | |- freshb _ _ = true => fresh_here
  end.
Ltac explicit_ids :=
  try unfold vertical_footprint_ids; try unfold horizontal_footprint_ids;
  try unfold flattened_circle_ids; cbn [app rev].
Ltac fresh_solve := explicit_ids; fresh_walk.

(** The conjunctions of a precondition. *)
Ltac split_hyps :=
  repeat match goal with
         | H : _ /\ _ |- _ => destruct H
         end.

(** [identified c ?used p w] for a package [p] built by adding to a package
    of which it is at hand. *)
Ltac ids_core :=
  lazymatch goal with
  | |- identified _ _ (Led.on_footprint (Footprint_add_pad _) _) _ =>
      eapply (identified_keep _ _ _ _ _ _ (identifiers_add_pad _ _));
      [ids_core | reflexivity]
  | |- identified _ _ (Led.on_footprint (Footprint_add_polygon _) _) _ =>
      eapply (identified_add _ _ _ _ _ _ _ _ (identifiers_add_polygon _ _));
      [ids_core | rewrite ?add_vertices_uuid; eassumption | fresh_here | incl_solve]
  | |- identified _ _ (Led.on_footprint (Footprint_add_circle _) _) _ =>
      eapply (identified_add _ _ _ _ _ _ _ _ (identifiers_add_circle _ _));
      [ids_core | eassumption | fresh_here | incl_solve]
  | |- identified _ _ (Led.on_footprint (Footprint_add_text _) _) _ =>
      eapply (identified_add _ _ _ _ _ _ _ _ (identifiers_add_text _ _));
      [ids_core | eassumption | fresh_here | incl_solve]
  | |- identified _ _ (Package_add_footprint (Footprint_new _ _ _ _ _) _) _ =>
      eapply (identified_add _ _ _ _ _ _ _ _ (identifiers_add_footprint _ _ _ _ _ _));
      [ids_core | eassumption | fresh_here | incl_solve]
  | |- identified _ _ (Package_add_pad _ _) _ =>
      eapply (identified_add _ _ _ _ _ _ _ _ (identifiers_add_package_pad _ _));
      [ids_core | eassumption | fresh_here | incl_solve]
  | |- identified _ _ (Package_new _ _ _ _ _ _ _ _ _ _ _) _ =>
      apply identified_new; [assumption | eassumption]
  | |- identified _ _ _ _ => eassumption
  end.

Ltac ids_solve :=
  split_hyps; eapply identified_weaken; [ids_core | incl_solve].

(** A step through a statement. *)
Ltac stable_solve := solve [eauto 10 with spec].
Ltac plain_statement :=
  first [ solve [eauto with spec]
        | solve [spec_go (fun _ : Package => True)] ].
Ltac hoare_step :=
  lazymatch goal with
  | |- hoare _ (bind (Led._uuid _ _) _) _ =>
      eapply hoare_bind; [apply hoare__uuid; stable_solve | intros ?; cbv beta]
  | |- hoare _ (bind _ _) _ =>
      eapply hoare_bind;
      [apply hoare_of_spec; [stable_solve | plain_statement] | intros ?; cbv beta]
  | |- hoare _ (ret _) _ => apply hoare_ret; intros ? ?; ids_solve
  end.
(** A call of a helper that adds to the package. *)
Ltac hoare_call helper :=
  eapply hoare_bind;
  [ eapply hoare_pre'; [eapply helper; fresh_solve | intros ? ?; ids_solve]
  | intros ?; cbv beta ].

Section LedDistinct.
Variable I : Imports.
Variable asin acos : float -> result float.
Variable degrees : float -> float.
Variable pow : float -> float -> result float.
Variable c : Led.LedConfig.

Lemma distinct__add_footprint_pad (used : list string) (pad_size : Size) (p : Package)
    (pad : string) (factor : float) :
  hoare (identified c used p) (Led._add_footprint_pad c pad_size p pad factor)
        (fun p' w => identified c used p' w).
Proof.
  unfold Led._add_footprint_pad. hoare_step. hoare_step.
Qed.

Lemma distinct__add_footprint (used : list string) (p : Package) (name : Name)
    (identifier_suffix : string) (pad_size : Size) :
  freshb ("footprint" +:+ identifier_suffix) used = true ->
  hoare (identified c used p) (Led._add_footprint c p name identifier_suffix pad_size)
        (fun p' w => identified c (("footprint" +:+ identifier_suffix) :: used) p' w).
Proof.
  intros Hfresh. unfold Led._add_footprint. cbv zeta.
  hoare_step.
  eapply hoare_bind;
    [eapply hoare_pre'; [eapply distinct__add_footprint_pad | intros ? ?; ids_solve]
    | intros ?; cbv beta].
  hoare_call distinct__add_footprint_pad.
  hoare_step.
Qed.

Lemma distinct__add_reduced_part (used : list string) (p : Package)
    (identifier layer : string) (inner_radius line_width angle y : float)
    (suffix : string) :
  freshb (identifier +:+ suffix) used = true ->
  hoare (identified c used p)
        (Led._add_reduced_part c p identifier layer inner_radius line_width angle y suffix)
        (fun p' w => identified c ((identifier +:+ suffix) :: used) p' w).
Proof.
  intros Hfresh. unfold Led._add_reduced_part. cbv zeta.
  hoare_step. hoare_step.
Qed.

Lemma distinct__add_flattened_circle (used : list string) (p : Package)
    (identifier layer : string) (outer_radius inner_radius line_width : float)
    (reduced : bool) :
  all_freshb (flattened_circle_ids identifier) used = true ->
  hoare (identified c used p)
        (Led._add_flattened_circle asin acos degrees pow c p identifier layer
           outer_radius inner_radius line_width reduced)
        (fun p' w => identified c (rev (flattened_circle_ids identifier) ++ used) p' w).
Proof.
  intros Hfresh. unfold flattened_circle_ids in *. cbn [rev app].
  apply all_freshb_cons in Hfresh as [F1 Hfresh].
  apply all_freshb_cons in Hfresh as [F2 Hfresh].
  apply all_freshb_cons in Hfresh as [F3 _].
  unfold Led._add_flattened_circle. cbv zeta.
  destruct (outer_radius =? inner_radius)%float.
  - hoare_step. hoare_step.
  - do 4 hoare_step. destruct reduced; cbn [negb].
    + hoare_call distinct__add_reduced_part.
      hoare_call distinct__add_reduced_part.
      hoare_step.
    + hoare_step. hoare_step.
Qed.

Lemma distinct__add_lead (used : list string) (p : Package) (identifier_suffix : string)
    (body_offset : float) (pad : string) (factor : float) :
  freshb (PyStr.concat ["polygon-doc-"; pad; identifier_suffix]) used = true ->
  hoare (identified c used p)
        (Led._add_lead c p identifier_suffix body_offset pad factor)
        (fun p' w =>
           identified c (PyStr.concat ["polygon-doc-"; pad; identifier_suffix] :: used)
                      p' w).
Proof.
  intros Hfresh. unfold Led._add_lead. cbv zeta.
  hoare_step. hoare_step.
Qed.

Lemma distinct__add_vertical_footprint (used : list string) (p : Package) (name : Name)
    (identifier_suffix : string) (pad_size : Size) :
  all_freshb (vertical_footprint_ids identifier_suffix) used = true ->
  hoare (identified c used p)
        (Led._add_vertical_footprint asin acos degrees pow c p name identifier_suffix
           pad_size)
        (fun p' w =>
           identified c (rev (vertical_footprint_ids identifier_suffix) ++ used) p' w).
Proof.
  intros Hfresh. unfold vertical_footprint_ids, flattened_circle_ids in *.
  cbn [rev app] in *.
  repeat (apply all_freshb_cons in Hfresh as [? Hfresh]).
  unfold Led._add_vertical_footprint. cbv zeta.
  hoare_call distinct__add_footprint.
  hoare_call distinct__add_flattened_circle.
  hoare_call distinct__add_flattened_circle.
  hoare_call distinct__add_flattened_circle.
  hoare_step. hoare_step. hoare_step.
Qed.

Lemma distinct__add_horizontal_footprint (used : list string) (p : Package) (name : Name)
    (identifier_suffix : string) (pad_size : Size) (body_height body_offset : float) :
  all_freshb (horizontal_footprint_ids identifier_suffix) used = true ->
  hoare (identified c used p)
        (Led._add_horizontal_footprint c p name identifier_suffix pad_size body_height
           body_offset)
        (fun p' w =>
           identified c (rev (horizontal_footprint_ids identifier_suffix) ++ used) p' w).
Proof.
  intros Hfresh. unfold horizontal_footprint_ids in *. cbn [rev app] in *.
  repeat (apply all_freshb_cons in Hfresh as [? Hfresh]).
  unfold Led._add_horizontal_footprint. cbv zeta.
  hoare_call distinct__add_footprint.
  hoare_step.
  hoare_call distinct__add_lead.
  hoare_call distinct__add_lead.
  eapply (hoare_bind _ _ _
            (fun p' w =>
               identified c
                 (("polygon-legend2" +:+ identifier_suffix)
                  :: PyStr.concat ["polygon-doc-"; "c"; identifier_suffix]
                  :: PyStr.concat ["polygon-doc-"; "a"; identifier_suffix]
                  :: ("polygon-doc" +:+ identifier_suffix)
                  :: ("footprint" +:+ identifier_suffix) :: used) p' w)).
  { match goal with |- hoare _ (if ?b then _ else _) _ => destruct b end.
    - hoare_step. hoare_step.
    - hoare_step. }
  intros ?; cbv beta.
  do 5 hoare_step.
Qed.

Lemma distinct_generate_pkg_one (library author pkgcat keywords version : string)
    (create_date : option string) :
  hoare keyed_apart
        (Led.generate_pkg_one I asin acos degrees pow library author pkgcat keywords
           version create_date c)
        (fun pkg _ => NoDup (identifiers pkg)).
Proof.
  assert (Fa : freshb "pad-a" ["pkg"] = true) by reflexivity.
  assert (Fc : freshb "pad-c" ["pad-a"; "pkg"] = true) by reflexivity.
  unfold Led.generate_pkg_one. cbv zeta.
  do 5 hoare_step.
  (* Vertical *)
  eapply hoare_bind;
    [ eapply hoare_pre';
      [eapply distinct__add_vertical_footprint | intros ? ?; ids_solve];
      vm_compute; reflexivity
    | intros ?; cbv beta ].
  (* Vertical, Large Pads *)
  eapply (hoare_bind _ _ _
            (fun p' w =>
               identified c
                 (rev (vertical_footprint_ids "-large") ++
                  rev (vertical_footprint_ids EmptyString) ++
                  ["pad-c"; "pad-a"; "pkg"]) p' w)).
  { destruct (Led.is_small c); cbn [negb].
    - apply hoare_ret. intros ? ?. eapply identified_weaken; [eassumption |].
      apply list_subseteq_app_r. reflexivity.
    - eapply distinct__add_vertical_footprint. vm_compute; reflexivity. }
  intros ?; cbv beta.
  (* Horizontal *)
  eapply hoare_bind;
    [eapply distinct__add_horizontal_footprint; vm_compute; reflexivity
    | intros ?; cbv beta].
  eapply hoare_bind;
    [eapply distinct__add_horizontal_footprint; vm_compute; reflexivity
    | intros ?; cbv beta].
  eapply hoare_bind;
    [eapply distinct__add_horizontal_footprint; vm_compute; reflexivity
    | intros ?; cbv beta].
  hoare_step.
  apply hoare_ret. intros w Hw. apply Hw.
Qed.

End LedDistinct.

(** X12: no identifier is given out twice within a package.  From a cache
    that is keyed apart, in every package [generate_pkg] builds the package,
    its two pads and the footprints, polygons, circles and texts of all its
    footprints have pairwise different identifiers.  (The footprint pads
    and their holes are left out: they carry the identifiers of the package
    pads.) *)
Theorem generate_pkg_identifiers_distinct (I : Imports)
    (asin acos : float -> result float) (degrees : float -> float)
    (pow : float -> float -> result float) (library author : string)
    (configs : list Led.LedConfig) (pkgcat keywords version : string)
    (create_date : option string) (w : World) (pkgs : list Package) :
  keyed_apart w ->
  (Led.generate_pkg I asin acos degrees pow library author configs pkgcat keywords
     version create_date w).1 = Ok pkgs ->
  Forall (fun pkg => NoDup (identifiers pkg)) pkgs.
Proof.
  unfold Led.generate_pkg.
  revert w pkgs. induction configs as [|c cs IH]; intros w pkgs Hw.
  - intros [= <-]. constructor.
  - rewrite map_M_cons.
    pose proof (distinct_generate_pkg_one I asin acos degrees pow c library author
                  pkgcat keywords version create_date w Hw) as H1.
    destruct (generate_pkg_one_spec I asin acos degrees pow library author pkgcat
                keywords version create_date c w) as [[_ Hk] _].
    destruct (Led.generate_pkg_one _ _ _ _ _ _ _ _ _ _ _ c w) as [[pkg|e] w1];
      cbn [fst snd] in *; [| done].
    specialize (IH w1). specialize (Hk Hw).
    destruct (map_M _ cs w1) as [[pkgs'|e] w2]; cbn [fst snd] in *; [| done].
    intros [= <-]. constructor; [by apply H1 | by apply IH].
Qed.

Lemma generate_pkg_identifiers_distinct_witness :
  exists pkgs : list Package,
    keyed_apart Sample.world /\
    (sample_generate_pkg Sample.world).1 = Ok pkgs /\
    Forall (fun pkg => NoDup (identifiers pkg)) pkgs.
Proof.
  destruct (sample_generate_pkg Sample.world).1 as [pkgs|e] eqn:E;
    [| vm_compute in E; discriminate E].
  exists pkgs. split; [exact sample_world_keyed_apart |]. split; [reflexivity |].
  exact (generate_pkg_identifiers_distinct _ _ _ _ _ _ _ _ _ _ _ _ _ _
           sample_world_keyed_apart E).
Defined.

(** ** entities/package.py: the 3D models of a package keep their order *)

Lemma splitlines_aux_one_line (cur x s : string) :
  one_line x = true ->
  PyStr.splitlines_aux cur (x +:+ s) = PyStr.splitlines_aux (cur +:+ x) s.
Proof.
  revert cur. induction x as [|ch x IH]; intros cur Hx.
  - by rewrite append_nil_r.
  - cbn [one_line] in Hx. apply andb_prop in Hx as [Hch Hx].
    rewrite append_cons. cbn [PyStr.splitlines_aux].
    apply negb_true_iff in Hch. rewrite Hch.
    rewrite (IH _ Hx). by rewrite string_app_assoc_cons.
Qed.

Lemma splitlines_aux_head (cur s : string) :
  cur <> EmptyString \/ s <> EmptyString ->
  exists l ls, PyStr.splitlines_aux cur s = (cur +:+ l) :: ls.
Proof.
  revert cur. induction s as [|ch s IH]; intros cur Hne.
  - destruct Hne as [Hcur | ?]; [| done]. cbn [PyStr.splitlines_aux].
    apply String.eqb_neq in Hcur. rewrite Hcur.
    exists EmptyString, []. by rewrite append_nil_r.
  - cbn [PyStr.splitlines_aux]. destruct (Ascii.eqb ch (ascii_of_nat 10)).
    + exists EmptyString. eexists. by rewrite append_nil_r.
    + destruct (IH (cur +:+ String ch EmptyString)) as (l & ls & ->).
      { left. by destruct cur. }
      exists (String ch l), ls. by rewrite string_app_assoc_cons.
Qed.

(** An indented rendering begins with a blank and what the rendering
    begins with, up to its first line feed. *)
Lemma indent_entity_head (x r : string) :
  one_line x = true -> r <> EmptyString ->
  exists rest, indent_entity (x +:+ r) = " " +:+ x +:+ rest.
Proof.
  intros Hx Hr. unfold indent_entity, PyStr.splitlines.
  rewrite (splitlines_aux_one_line _ _ _ Hx).
  destruct (splitlines_aux_head (EmptyString +:+ x) r) as (l & ls & ->); [by right |].
  cbn [map PyStr.concat String.append]. eexists.
  rewrite !append_assoc. reflexivity.
Qed.

Lemma rmap_app {A B} (f : A -> result B) (l1 l2 : list A) :
  rmap f (l1 ++ l2) =
  (ys1 <- rmap f l1 ;; ys2 <- rmap f l2 ;; Ok (ys1 ++ ys2))%res.
Proof.
  induction l1 as [|x l1 IH]; cbn [app rmap rbind].
  - by destruct (rmap f l2).
  - destruct (f x) as [y|e]; cbn [rbind]; [| done]. rewrite IH.
    destruct (rmap f l1) as [ys1|e]; cbn [rbind]; [| done].
    by destruct (rmap f l2).
Qed.

Lemma append_same_length (a b x y : string) :
  String.length a = String.length b -> a +:+ x = b +:+ y -> a = b.
Proof.
  revert b. induction a as [|ch a IH]; intros [|ch' b] Hlen E; try discriminate Hlen.
  - done.
  - rewrite !append_cons in E. injection E as -> E. f_equal.
    apply IH; [by injection Hlen | done].
Qed.

(** The text of a package around its 3D models. *)
Lemma Package_str_around_models (I : Imports) (p : Package) (text : string) :
  Package_str I p = Ok text ->
  exists head tail : string,
    forall models_3d : list Package3DModel,
      Package_str I (Package_with_children p (Package_pads p) models_3d
                       (Package_footprints p) (Package_approvals p)) =
      (rendered <- rmap (Package3DModel_str I) models_3d ;;
       Ok (head +:+ indent_entities rendered +:+ tail))%res.
Proof.
  unfold Package_str. intros H.
  repeat match type of H with
         | rbind ?r _ = Ok _ =>
             let E := fresh "E" in
             destruct r eqn:E; cbn [rbind] in H; [| discriminate H]
         end.
  eexists _, _. intros models_3d. cbn [Package_with_children Package_name
    Package_description Package_keywords Package_author Package_version Package_created
    Package_deprecated Package_generated_by Package_categories Package_assembly_type
    Package_pads Package_models_3d Package_footprints Package_approvals Package_uuid].
  rewrite E, E0, E1, E2, E3, E4, E5, E6, E7, E8, E9, E11. cbn [rbind].
  destruct (rmap (Package3DModel_str I) models_3d) as [rendered|e]; cbn [rbind];
    [| reflexivity].
  f_equal.
  match goal with
  | |- PyStr.concat ?l = _ => rewrite <- (firstn_skipn 32 l)
  end.
  cbn [firstn skipn]. rewrite concat_app. reflexivity.
Qed.

(** X13: a package keeps its 3D models in the order they were added.
    [Package.__str__] hands [models_3d] to [indent_entities] unsorted, where
    [Footprint.__str__] sorts: two models with different identifiers (of
    one length and one line, as UUIDs are), added to a package in either
    order, give two different texts. *)
Theorem package_str_follows_model_order (I : Imports) (p : Package)
    (a b : Package3DModel) (text_ab text_ba : string) :
  Package_str I (Package_add_3d_model b (Package_add_3d_model a p)) = Ok text_ab ->
  Package_str I (Package_add_3d_model a (Package_add_3d_model b p)) = Ok text_ba ->
  String.length (Package3DModel_uuid a) = String.length (Package3DModel_uuid b) ->
  one_line (Package3DModel_uuid a) = true ->
  one_line (Package3DModel_uuid b) = true ->
  Package3DModel_uuid a <> Package3DModel_uuid b ->
  text_ab <> text_ba.
Proof.
  intros Hab Hba Hlen Ha Hb Hne E. subst text_ba.
  destruct (Package_str_around_models I _ _ Hab) as (head & tail & Hstr).
  pose proof (Hstr (Package_models_3d p ++ [a] ++ [b])) as Kab.
  pose proof (Hstr (Package_models_3d p ++ [b] ++ [a])) as Kba.
  assert (Eab : Package_with_children (Package_add_3d_model b (Package_add_3d_model a p))
                  (Package_pads (Package_add_3d_model b (Package_add_3d_model a p)))
                  (Package_models_3d p ++ [a] ++ [b])
                  (Package_footprints (Package_add_3d_model b (Package_add_3d_model a p)))
                  (Package_approvals (Package_add_3d_model b (Package_add_3d_model a p))) =
                Package_add_3d_model b (Package_add_3d_model a p)).
  { unfold Package_add_3d_model, Package_with_children. cbn. by rewrite <- app_assoc. }
  assert (Eba : Package_with_children (Package_add_3d_model b (Package_add_3d_model a p))
                  (Package_pads (Package_add_3d_model b (Package_add_3d_model a p)))
                  (Package_models_3d p ++ [b] ++ [a])
                  (Package_footprints (Package_add_3d_model b (Package_add_3d_model a p)))
                  (Package_approvals (Package_add_3d_model b (Package_add_3d_model a p))) =
                Package_add_3d_model a (Package_add_3d_model b p)).
  { unfold Package_add_3d_model, Package_with_children. cbn. by rewrite <- app_assoc. }
  rewrite Eab, Hab in Kab. rewrite Eba, Hba in Kba. clear Eab Eba Hstr.
  rewrite !rmap_app in Kab, Kba. cbn [rmap] in Kab, Kba.
  destruct (rmap (Package3DModel_str I) (Package_models_3d p)) as [ms|e];
    cbn [rbind] in Kab, Kba; [| discriminate Kab].
  unfold Package3DModel_str in Kab, Kba.
  destruct (Name_str I (Package3DModel_name a)) as [na|e];
    cbn [rbind] in Kab, Kba; [| discriminate Kab].
  destruct (Name_str I (Package3DModel_name b)) as [nb|e];
    cbn [rbind] in Kab, Kba; [| discriminate Kab].
  injection Kab as Kab. injection Kba as Kba. rewrite Kab in Kba. clear Kab.
  apply (inj (String.append head)) in Kba.
  rewrite !indent_entities_app, !append_assoc in Kba.
  apply (inj (String.append (indent_entities ms))) in Kba.
  unfold indent_entities in Kba. cbn [map PyStr.concat] in Kba.
  destruct (indent_entity_head ("(3d_model " +:+ Package3DModel_uuid a)
              (" " +:+ na +:+ ")" +:+ PyStr.LF +:+ EmptyString)) as (ra & Ra);
    [exact Ha | done |].
  destruct (indent_entity_head ("(3d_model " +:+ Package3DModel_uuid b)
              (" " +:+ nb +:+ ")" +:+ PyStr.LF +:+ EmptyString)) as (rb & Rb);
    [exact Hb | done |].
  rewrite !append_assoc in Ra, Rb. rewrite Ra, Rb in Kba.
  rewrite !append_assoc in Kba.
  apply (inj (String.append " ")) in Kba.
  apply (inj (String.append "(3d_model ")) in Kba.
  by apply append_same_length in Kba.
Qed.

Lemma package_str_follows_model_order_witness :
  exists text_ab text_ba : string,
    Package_str SpecModel.imports
      (Package_add_3d_model Sample.model_b
         (Package_add_3d_model Sample.model_a Sample.empty_package)) = Ok text_ab /\
    Package_str SpecModel.imports
      (Package_add_3d_model Sample.model_a
         (Package_add_3d_model Sample.model_b Sample.empty_package)) = Ok text_ba /\
    text_ab <> text_ba.
Proof.
  destruct (Package_str SpecModel.imports
              (Package_add_3d_model Sample.model_b
                 (Package_add_3d_model Sample.model_a Sample.empty_package)))
    as [text_ab|e] eqn:Eab; [| vm_compute in Eab; discriminate Eab].
  destruct (Package_str SpecModel.imports
              (Package_add_3d_model Sample.model_a
                 (Package_add_3d_model Sample.model_b Sample.empty_package)))
    as [text_ba|e] eqn:Eba; [| vm_compute in Eba; discriminate Eba].
  exists text_ab, text_ba. split; [reflexivity |]. split; [reflexivity |].
  apply (package_str_follows_model_order SpecModel.imports Sample.empty_package
           Sample.model_a Sample.model_b text_ab text_ba Eab Eba);
    [reflexivity | reflexivity | reflexivity | vm_compute; discriminate].
Defined.

(** ** generate_connectors.py: the files of a package *)

Lemma runs_ret {A} (a : A) (Q : A -> Prop) : Q a -> runs (ret a) Q.
Proof. intros Ha w. by exists a, w. Qed.

Lemma runs_bind {A B} (m : M A) (k : A -> M B) (Q1 : A -> Prop) (Q2 : B -> Prop) :
  runs m Q1 -> (forall a, Q1 a -> runs (k a) Q2) -> runs (bind m k) Q2.
Proof.
  intros Hm Hk w. destruct (Hm w) as (a & w1 & E & Ha & F1 & O1).
  destruct (Hk a Ha w1) as (b & w2 & E2 & Hb & F2 & O2).
  exists b, w2. rewrite (bind_Ok _ _ _ _ _ E).
  split; [exact E2 |]. split; [exact Hb |]. split; congruence.
Qed.

Lemma runs_weaken {A} (m : M A) (Q Q' : A -> Prop) :
  runs m Q -> (forall a, Q a -> Q' a) -> runs m Q'.
Proof.
  intros Hm HQ w. destruct (Hm w) as (a & w1 & E & Ha & F1 & O1).
  exists a, w1. auto.
Qed.

Lemma runs_map_M {A B} (f : A -> M B) (l : list A) :
  (forall x, x ∈ l -> runs (f x) (fun _ => True)) ->
  runs (map_M f l) (fun ys => length ys = length l).
Proof.
  induction l as [|x l IH]; intros Hf; cbn [map_M].
  - by apply runs_ret.
  - eapply runs_bind; [apply Hf; left |]. intros y _.
    eapply runs_bind; [apply IH; intros z Hz; apply Hf; by right |].
    intros ys Hys. apply runs_ret. cbn. by rewrite Hys.
Qed.

Lemma runs_Connectors_uuid (typ : string) (pin_number : Z) (identifier : option string) :
  runs (Connectors.uuid typ pin_number identifier) (fun _ => True).
Proof.
  intros w. rewrite Connectors_uuid_resolve. eexists _, _.
  split; [reflexivity |]. split; [done |].
  unfold resolve. by destruct (uuid_cache w !! _).
Qed.

Lemma runs_Connectors_now : runs Connectors.now (fun _ => True).
Proof. intros w. by eexists _, _. Qed.

(** The step from a statement that runs to the statements after it. *)
Lemma runs_step {A B} (m : M A) (k : A -> M B) (Q : A -> Prop) (w : World) :
  runs m Q ->
  exists a w', Q a /\ fs w' = fs w /\ stdout w' = stdout w /\ bind m k w = k a w'.
Proof.
  intros Hm. destruct (Hm w) as (a & w1 & E & Ha & F1 & O1).
  exists a, w1. by rewrite (bind_Ok _ _ _ _ _ E).
Qed.

(** The three statements that make sure of the directory. *)
Lemma ensure_directory {A} (dir_path : string) (k : M A) (w : World) :
  (dir_path ∈ dirs (fs w) /\ forall x, x ∈ Path.parents dir_path -> x ∈ dirs (fs w)) \/
  fs_free (fs w) dir_path ->
  (e <- Path.exists_ dir_path ;;
   d <- (if e : bool then Path.isdir dir_path else ret false) ;;
   (if negb (e && d) then Path.makedirs dir_path else ret tt) ;;
   k)%M w =
  k (set_fs {| dirs := if bool_decide (dir_path ∈ dirs (fs w)) then dirs (fs w)
                       else dirs (fs w) ∪ list_to_set (Path.parents dir_path)
                            ∪ {[dir_path]};
               files := files (fs w) |} w).
Proof.
  intros Hdir. unfold bind at 1, Path.exists_ at 1.
  destruct Hdir as [[Hin Habove] | Hfree].
  - rewrite (bool_decide_eq_true_2 _ Hin). cbn [orb].
    unfold bind at 1, Path.isdir at 1. rewrite (bool_decide_eq_true_2 _ Hin).
    cbn [andb negb]. unfold bind at 1, ret at 1.
    by destruct w as [? ? ? ? ? [? ?] ?].
  - pose proof Hfree as (Hout & Hfile & _).
    rewrite (bool_decide_eq_false_2 _ Hout).
    rewrite bool_decide_eq_false_2 by (rewrite Hfile; by intros [? ?]).
    cbn [orb]. unfold bind at 1, ret at 1. cbn [andb negb].
    unfold bind at 1. by rewrite makedirs_ok by done.
Qed.

(** The statements that write the marker and the document, once the
    directory is there. *)
Lemma write_marker_and_document {A} (dir_path marker_text text : string) (k : M A)
    (w : World) :
  dir_path ∈ dirs (fs w) ->
  (forall x, x ∈ Path.parents dir_path -> x ∈ dirs (fs w)) ->
  Path.join dir_path ".librepcb-pkg" ∉ dirs (fs w) ->
  Path.join dir_path "package.lp" ∉ dirs (fs w) ->
  ((Path.open_w (Path.join dir_path ".librepcb-pkg") ;;
    Path.write (Path.join dir_path ".librepcb-pkg") marker_text) ;;
   (Path.open_w (Path.join dir_path "package.lp") ;;
    Path.write (Path.join dir_path "package.lp") text ;;
    Path.write (Path.join dir_path "package.lp") PyStr.LF) ;;
   k)%M w =
  k (set_fs {| dirs := dirs (fs w);
               files := <[Path.join dir_path "package.lp" := text +:+ PyStr.LF]>
                          (<[Path.join dir_path ".librepcb-pkg" := marker_text]>
                             (files (fs w))) |} w).
Proof.
  intros Hdir Habove Hmarker Hdocument.
  assert (Hparent : forall name x, plain_name name ->
            last (Path.parents (Path.join dir_path name)) = Some x -> x ∈ dirs (fs w)).
  { intros name x Hname [-> | Hx]%join_parent; auto. }
  unfold bind at 1 2.
  rewrite (open_w_ok _ w Hmarker (fun x => Hparent _ x plain_marker)).
  unfold Path.write at 1. cbn [fs set_fs dirs files].
  unfold bind at 1 2.
  rewrite open_w_ok; cbn [fs set_fs dirs files];
    [| done | exact (fun x => Hparent _ x plain_document)].
  unfold bind at 1. unfold Path.write. cbn [fs set_fs dirs files].
  f_equal. unfold set_fs; cbn. do 2 f_equal.
  rewrite !lookup_insert_eq, !insert_insert_eq. cbn [default].
  reflexivity.
Qed.

Lemma resolve_frame (key : string) (w : World) :
  fs (resolve key w).2 = fs w /\ stdout (resolve key w).2 = stdout w.
Proof. unfold resolve. by destruct (uuid_cache w !! key). Qed.

Lemma join_lines_head (x y : string) (l : list string) :
  PyStr.startswith (PyStr.join PyStr.LF (x :: y :: l)) x = true.
Proof. unfold PyStr.startswith. cbn [PyStr.join]. apply prefix_append. Qed.

(** X14: one turn of the loop of [generate] of generate_connectors.py.
    When nothing is in the way, the turn for [i] pins returns; the
    directory named by the identifier the cache has or gets for the package
    exists afterwards; the files written are exactly the marker, which
    holds [0.1] and a newline, and the document, whose first line opens the
    package with that identifier and which ends in a newline; and one line
    is printed. *)
Theorem Connectors_generate_writes_package (float_str : float -> string)
    (dirpath : string) (i : Z) (w : World) :
  let pkg_uuid := (resolve (Connectors.uuid_key "pkg" i None) w).1 in
  let dir_path := Path.join dirpath pkg_uuid in
  serialize_free dir_path (fs w) ->
  exists (text : string) (w' : World),
    Connectors.generate_one float_str dirpath i w = (Ok tt, w') /\
    dir_path ∈ dirs (fs w') /\
    files (fs w') =
      <[Path.join dir_path "package.lp" := text +:+ PyStr.LF]>
        (<[Path.join dir_path ".librepcb-pkg" := "0.1" +:+ PyStr.LF]> (files (fs w))) /\
    PyStr.startswith text ("(librepcb_package " +:+ pkg_uuid) = true /\
    stdout w' =
      stdout w ++ [PyStr.concat ["1x"; PyStr.of_int i; ": Wrote package "; pkg_uuid]].
Proof.
  intros pkg_uuid dir_path (Hdir & Hmarker & Hdocument).
  unfold Connectors.generate_one. cbv zeta.
  rewrite (bind_Ok _ _ _ _ _ (Connectors_uuid_resolve "pkg" i None w)).
  fold pkg_uuid. fold dir_path.
  destruct (resolve_frame (Connectors.uuid_key "pkg" i None) w) as [F1 O1].
  set (w1 := (resolve (Connectors.uuid_key "pkg" i None) w).2) in *.
  match goal with
  | |- context [bind Connectors.now ?k w1] =>
      destruct (runs_step Connectors.now k _ w1 runs_Connectors_now)
        as (created & w2 & _ & F2 & O2 & ->)
  end.
  match goal with
  | |- context [bind (map_M ?f (seqZ 0 i)) ?k w2] =>
      destruct (runs_step (map_M f (seqZ 0 i)) k _ w2
                  (runs_map_M f _ (fun p _ => runs_Connectors_uuid _ _ _)))
        as (pad_uuids & w3 & Hlen & F3 & O3 & ->)
  end.
  assert (Hpads : forall (B : Type) (g : Z -> string -> B),
            runs (map_M (fun j => match pad_uuids !! Z.to_nat (j - 1) with
                                  | Some u => ret (g j u)
                                  | None => raise IndexError
                                  end) (seqZ 1 i))
                 (fun ys => length ys = length (seqZ 1 i))).
  { intros B g. apply runs_map_M. intros j Hj.
    destruct (pad_index_in_range pad_uuids i j Hlen Hj) as [u ->].
    by apply runs_ret. }
  match goal with
  | |- context [bind (map_M ?f (seqZ 1 i)) ?k w3] =>
      destruct (runs_step (map_M f (seqZ 1 i)) k _ w3 (Hpads _ _))
        as (package_pads & w4 & _ & F4 & O4 & ->)
  end.
  match goal with
  | |- context [bind (Connectors.uuid ?t ?n ?x) ?k w4] =>
      destruct (runs_step (Connectors.uuid t n x) k _ w4 (runs_Connectors_uuid _ _ _))
        as (footprint_uuid & w5 & _ & F5 & O5 & ->)
  end.
  match goal with
  | |- context [bind (map_M ?f (seqZ 1 i)) ?k w5] =>
      destruct (runs_step (map_M f (seqZ 1 i)) k _ w5 (Hpads _ _))
        as (footprint_pads & w6 & _ & F6 & O6 & ->)
  end.
  match goal with
  | |- context [bind (Connectors.uuid ?t ?n ?x) ?k w6] =>
      destruct (runs_step (Connectors.uuid t n x) k _ w6 (runs_Connectors_uuid _ _ _))
        as (contour_uuid & w7 & _ & F7 & O7 & ->)
  end.
  match goal with
  | |- context [bind (if (2 <? i)%Z then ?m1 else ?m2) ?k w7] =>
      assert (Hmark : runs (if (2 <? i)%Z then m1 else m2) (fun _ => True))
  end.
  { destruct (2 <? i)%Z; [| by apply runs_ret].
    eapply runs_bind; [apply runs_Connectors_uuid |]. intros ? _. by apply runs_ret. }
  match goal with
  | |- context [bind ?m ?k w7] =>
      destruct (runs_step m k _ w7 Hmark) as (pin1mark & w8 & _ & F8 & O8 & ->)
  end.
  assert (F : fs w8 = fs w) by congruence.
  assert (O : stdout w8 = stdout w) by congruence.
  rewrite ensure_directory by (by rewrite F).
  destruct (join_not_above dir_path ".librepcb-pkg" plain_marker) as [? ?];
    [cbn; lia |].
  destruct (join_not_above dir_path "package.lp" plain_document) as [? ?];
    [cbn; lia |].
  assert (Hin : dir_path ∈
            (if bool_decide (dir_path ∈ dirs (fs w8)) then dirs (fs w8)
             else dirs (fs w8) ∪ list_to_set (Path.parents dir_path) ∪ {[dir_path]})).
  { destruct (decide (dir_path ∈ dirs (fs w8))) as [Hin | Hout].
    - by rewrite (bool_decide_eq_true_2 _ Hin).
    - rewrite (bool_decide_eq_false_2 _ Hout).
      by apply elem_of_union_r, elem_of_singleton. }
  rewrite write_marker_and_document; cbn [fs set_fs dirs files].
  - rewrite print_run. eexists _, _. split; [reflexivity |].
    cbn [fs set_fs set_stdout dirs files stdout]. rewrite F, O.
    split; [by rewrite F in Hin |]. split; [reflexivity |].
    split; [apply join_lines_head | reflexivity].
  - exact Hin.
  - rewrite F. intros x Hx. destruct (decide (dir_path ∈ dirs (fs w))) as [Hd | Hout].
    + rewrite (bool_decide_eq_true_2 _ Hd).
      destruct Hdir as [[_ Habove] | (Hout & _)]; [by apply Habove | done].
    + rewrite (bool_decide_eq_false_2 _ Hout).
      apply elem_of_union_l, elem_of_union_r. by apply elem_of_list_to_set.
  - rewrite F. destruct (decide (dir_path ∈ dirs (fs w))) as [Hd | Hout].
    + by rewrite (bool_decide_eq_true_2 _ Hd).
    + rewrite (bool_decide_eq_false_2 _ Hout).
      rewrite !elem_of_union, elem_of_list_to_set, elem_of_singleton.
      intros [[? | ?] | ?]; done.
  - rewrite F. destruct (decide (dir_path ∈ dirs (fs w))) as [Hd | Hout].
    + by rewrite (bool_decide_eq_true_2 _ Hd).
    + rewrite (bool_decide_eq_false_2 _ Hout).
      rewrite !elem_of_union, elem_of_list_to_set, elem_of_singleton.
      intros [[? | ?] | ?]; done.
Qed.

Lemma Connectors_generate_writes_package_witness :
  exists (text : string) (w' : World),
    Connectors.generate_one sample_float_str "out/connectors/pkg" 4 Sample.world =
      (Ok tt, w') /\
    files (fs w') =
      {[ "out/connectors/pkg/00000000-0000-4000-8000-0/package.lp" := text +:+ PyStr.LF;
         "out/connectors/pkg/00000000-0000-4000-8000-0/.librepcb-pkg" :=
           "0.1" +:+ PyStr.LF ]} /\
    PyStr.startswith text "(librepcb_package 00000000-0000-4000-8000-0" = true.
Proof.
  destruct (Connectors_generate_writes_package sample_float_str "out/connectors/pkg" 4
              Sample.world (sample_world_serialize_free _))
    as (text & w' & Hrun & _ & Hfiles & Hhead & _).
  exists text, w'. split; [exact Hrun |]. split; [| exact Hhead].
  rewrite Hfiles. reflexivity.
Defined.

(** ** generate_led.py: the courtyard outlines are closed *)

Lemma add_vertices_layer (vs : list Vertex) (q : Polygon) :
  Polygon_layer (Led.add_vertices vs q) = Polygon_layer q.
Proof.
  unfold Led.add_vertices. revert q.
  induction vs as [|v vs IH]; intros q; [done |]. cbn [fold_left]. by rewrite IH.
Qed.

Lemma add_vertices_vertices (vs : list Vertex) (q : Polygon) :
  Polygon_vertices (Led.add_vertices vs q) = Polygon_vertices q ++ vs.
Proof.
  unfold Led.add_vertices. revert q.
  induction vs as [|v vs IH]; intros q; cbn [fold_left].
  - by rewrite app_nil_r.
  - rewrite IH. cbn. by rewrite <- app_assoc.
Qed.

Lemma Forall_update_last {A} (P : A -> Prop) (g : A -> A) (l : list A) :
  (forall x, P x -> P (g x)) -> Forall P l -> Forall P (Led.update_last g l).
Proof.
  intros Hg. induction 1 as [|x l Hx Hl IH]; [constructor |].
  destruct l as [|y l]; cbn [Led.update_last]; constructor; auto.
Qed.

Lemma courtyards_closed_keep (g : Footprint -> Footprint) (p : Package) :
  (forall x, Footprint_polygons (g x) = Footprint_polygons x) ->
  courtyards_closed p -> courtyards_closed (Led.on_footprint g p).
Proof.
  intros Hg Hp. unfold courtyards_closed. cbn.
  apply Forall_update_last; [| exact Hp]. intros x Hx. by rewrite Hg.
Qed.

Lemma courtyards_closed_add_polygon (q : Polygon) (p : Package) :
  (Layer_value (Polygon_layer q) = "top_courtyard" -> closed_polygon q) ->
  courtyards_closed p ->
  courtyards_closed (Led.on_footprint (Footprint_add_polygon q) p).
Proof.
  intros Hq Hp. unfold courtyards_closed. cbn.
  apply Forall_update_last; [| exact Hp]. intros x Hx. cbn.
  apply Forall_app. split; [exact Hx |]. by constructor.
Qed.

(** A polygon drawn on another layer, or from a vertex back to it. *)
Ltac outline :=
  let H := fresh "H" in
  intros H; rewrite ?add_vertices_layer in H; cbn in H;
  first
    [ discriminate H
    | congruence
    | unfold closed_polygon; rewrite ?add_vertices_vertices; cbn;
      eexists _, _; split; [reflexivity |]; split; reflexivity ].

(** Closes the goals [spec_go] leaves. *)
Ltac courtyards :=
  repeat first
    [ assumption
    | apply courtyards_closed_add_polygon; [solve [outline] |]
    | apply courtyards_closed_keep; [reflexivity |] ].

Section LedCourtyards.
Variable I : Imports.
Variable asin acos : float -> result float.
Variable degrees : float -> float.
Variable pow : float -> float -> result float.
Variable c : Led.LedConfig.

Let any : World -> Prop := fun _ => True.

Lemma courtyards__add_footprint (p : Package) (name : Name)
    (identifier_suffix : string) (pad_size : Size) :
  courtyards_closed p ->
  spec any (Led._add_footprint c p name identifier_suffix pad_size) courtyards_closed.
Proof.
  intros Hp. unfold Led._add_footprint, Led._add_footprint_pad. cbv zeta.
  spec_go courtyards_closed.
  all: try (by apply spec__uuid).
  all: courtyards.
  unfold courtyards_closed. cbn. apply Forall_app. split; [exact Hp |].
  constructor; [constructor | constructor].
Qed.

Lemma courtyards__add_reduced_part (p : Package) (identifier layer : string)
    (inner_radius line_width angle y : float) (suffix : string) :
  layer <> "top_courtyard" ->
  courtyards_closed p ->
  spec any
       (Led._add_reduced_part c p identifier layer inner_radius line_width angle y suffix)
       courtyards_closed.
Proof.
  intros Hl Hp. unfold Led._add_reduced_part. cbv zeta.
  spec_go courtyards_closed; first [by apply spec__uuid | courtyards].
Qed.

#[local] Hint Resolve spec__uuid courtyards__add_footprint courtyards__add_reduced_part
  : spec.

Lemma courtyards__add_flattened_circle (p : Package) (identifier layer : string)
    (outer_radius inner_radius line_width : float) (reduced : bool) :
  (reduced = true -> layer <> "top_courtyard") ->
  courtyards_closed p ->
  spec any
       (Led._add_flattened_circle asin acos degrees pow c p identifier layer
          outer_radius inner_radius line_width reduced)
       courtyards_closed.
Proof.
  intros Hl Hp. unfold Led._add_flattened_circle. cbv zeta.
  destruct reduced; cbn [negb].
  - specialize (Hl eq_refl). spec_go courtyards_closed; courtyards.
  - clear Hl. spec_go courtyards_closed; courtyards.
Qed.

Lemma courtyards__add_lead (p : Package) (identifier_suffix : string)
    (body_offset : float) (pad : string) (factor : float) :
  courtyards_closed p ->
  spec any (Led._add_lead c p identifier_suffix body_offset pad factor)
       courtyards_closed.
Proof.
  intros Hp. unfold Led._add_lead. cbv zeta.
  spec_go courtyards_closed; courtyards.
Qed.

#[local] Hint Resolve courtyards__add_lead : spec.
#[local] Hint Extern 1 (courtyards_closed (Led.on_footprint _ _)) =>
  solve [courtyards] : spec.

Lemma courtyards__add_vertical_footprint (p : Package) (name : Name)
    (identifier_suffix : string) (pad_size : Size) :
  courtyards_closed p ->
  spec any
       (Led._add_vertical_footprint asin acos degrees pow c p name identifier_suffix
          pad_size)
       courtyards_closed.
Proof.
  intros Hp. unfold Led._add_vertical_footprint. cbv zeta.
  spec_go courtyards_closed.
  all: try (apply courtyards__add_flattened_circle; [by intros | assumption]).
  all: courtyards.
Qed.

Lemma courtyards__add_horizontal_footprint (p : Package) (name : Name)
    (identifier_suffix : string) (pad_size : Size) (body_height body_offset : float) :
  courtyards_closed p ->
  spec any
       (Led._add_horizontal_footprint c p name identifier_suffix pad_size body_height
          body_offset)
       courtyards_closed.
Proof.
  intros Hp. unfold Led._add_horizontal_footprint. cbv zeta.
  spec_go courtyards_closed; courtyards.
Qed.

#[local] Hint Resolve courtyards__add_vertical_footprint
  courtyards__add_horizontal_footprint : spec.

Lemma courtyards_generate_pkg_one (library author pkgcat keywords version : string)
    (create_date : option string) :
  spec any
       (Led.generate_pkg_one I asin acos degrees pow library author pkgcat keywords
          version create_date c)
       courtyards_closed.
Proof.
  unfold Led.generate_pkg_one. cbv zeta.
  assert (H0 : forall u a b n d k au v cr dp g cat,
            courtyards_closed
              (Package_add_pad b
                 (Package_add_pad a
                    (Package_new u n d k au v cr dp g cat AssemblyType.AUTO))))
    by (intros; constructor).
  spec_go courtyards_closed; try assumption.
  all: try (by constructor).
Qed.

End LedCourtyards.

(** X15: courtyard outlines are closed.  In every package [generate_pkg]
    builds, every polygon on the layer [top_courtyard], of every footprint,
    ends at the position of its first vertex.  (The reduced outline of a
    small LED, two open arcs, is drawn on the legend layer only.) *)
Theorem generate_pkg_courtyards_closed (I : Imports) (asin acos : float -> result float)
    (degrees : float -> float) (pow : float -> float -> result float)
    (library author : string) (configs : list Led.LedConfig)
    (pkgcat keywords version : string) (create_date : option string)
    (w : World) (pkgs : list Package) :
  (Led.generate_pkg I asin acos degrees pow library author configs pkgcat keywords
     version create_date w).1 = Ok pkgs ->
  Forall courtyards_closed pkgs.
Proof.
  unfold Led.generate_pkg. intros Hrun.
  eapply Forall2_Forall_r.
  - eapply (map_M_Forall2 _ (fun _ pkg => courtyards_closed pkg)); [| exact Hrun].
    intros c w' pkg Hpkg.
    exact (proj2 (courtyards_generate_pkg_one I asin acos degrees pow c library author
                    pkgcat keywords version create_date w' Logic.I) pkg Hpkg).
  - apply Forall_forall. by intros c _ pkg Hpkg.
Qed.

Lemma generate_pkg_courtyards_closed_witness :
  exists pkgs : list Package,
    (sample_generate_pkg Sample.world).1 = Ok pkgs /\ Forall courtyards_closed pkgs.
Proof.
  destruct (sample_generate_pkg Sample.world).1 as [pkgs|e] eqn:E;
    [| vm_compute in E; discriminate E].
  exists pkgs. split; [reflexivity |].
  exact (generate_pkg_courtyards_closed _ _ _ _ _ _ _ _ _ _ _ _ _ _ E).
Defined.

(** ** generate_led.py: what makes a package what it is *)



